(** * Playlist downloader: URL classification, file names, progress
      callbacks and the start/stop controls of [Downloader.py]

    The development embeds the Python source shallowly.  Python [str]
    values are Rocq strings whose characters are read as the code points
    0..255; Python [int] is [Z]; Python [float] is an IEEE-754 binary64
    value of the Standard Library's [SpecFloat]; a Python [dict] with
    string keys is a [gmap string _]; exceptions are an explicit result
    type; the widgets and the shared flag of the window are fields of one
    record that every callback threads through. *)

From Stdlib Require Import ZArith NArith String Ascii List Bool Lia.
From Stdlib Require Import SpecFloat.
From stdpp Require Import base option list gmap strings pretty.

Local Open Scope string_scope.

(* ================================================================== *)
(** ** Python text primitives *)
(* ================================================================== *)

Module Text.

(** The characters the source names by escape or that cannot be typed
    inside a literal here. *)
Definition newline : ascii := ascii_of_N 10.
Definition dquote : ascii := ascii_of_N 34.
Definition backslash : ascii := ascii_of_N 92.

Definition nl : string := String newline EmptyString.

(** [str.lower] on the code points below 256: the ASCII capitals and
    the Latin-1 capitals U+00C0..U+00DE (the sign U+00D7 apart) move up
    by 32, every other character stays. *)
Definition lower_char (c : ascii) : ascii :=
  let n := N_of_ascii c in
  if ((65 <=? n) && (n <=? 90) ||
      (192 <=? n) && (n <=? 222) && negb (n =? 215))%N
  then ascii_of_N (n + 32) else c.

Fixpoint lower (s : string) : string :=
  match s with
  | EmptyString => EmptyString
  | String c s' => String (lower_char c) (lower s')
  end.

(** [str.isspace] on one character below 256. *)
Definition isspace (c : ascii) : bool :=
  let n := N_of_ascii c in
  ((9 <=? n) && (n <=? 13) || (28 <=? n) && (n <=? 32) ||
   (n =? 133) || (n =? 160))%N.

Fixpoint lstrip (s : string) : string :=
  match s with
  | EmptyString => EmptyString
  | String c s' => if isspace c then lstrip s' else s
  end.

Fixpoint rstrip (s : string) : string :=
  match s with
  | EmptyString => EmptyString
  | String c s' =>
      match rstrip s' with
      | EmptyString => if isspace c then EmptyString else String c EmptyString
      | r => String c r
      end
  end.

(** [s.strip()] *)
Definition strip (s : string) : string := rstrip (lstrip s).

(** [s.startswith(p)] *)
Fixpoint startswith (s p : string) {struct p} : bool :=
  match p with
  | EmptyString => true
  | String a p' =>
      match s with
      | EmptyString => false
      | String b s' => Ascii.eqb a b && startswith s' p'
      end
  end.

(** [needle in hay] *)
Fixpoint str_in (needle hay : string) {struct hay} : bool :=
  startswith hay needle ||
  match hay with
  | EmptyString => false
  | String _ hay' => str_in needle hay'
  end.

(** Truth value of a [str]: non-empty. *)
Definition nonempty (s : string) : bool :=
  match s with EmptyString => false | String _ _ => true end.

Definition mem_char (c : ascii) (cs : list ascii) : bool :=
  existsb (Ascii.eqb c) cs.

End Text.

(* ================================================================== *)
(** ** The fragment of [re] the source uses *)
(* ================================================================== *)

Module Re.
Import Text.

(** Patterns: literal characters (escaped or not), [.], a character
    class, concatenation and [*].  [Empty] and [Alt] only arise as
    derivatives. *)
Inductive regex : Type :=
| Empty : regex
| Eps : regex
| Lit : ascii -> regex
| Dot : regex
| Class : list ascii -> regex
| Cat : regex -> regex -> regex
| Alt : regex -> regex -> regex
| Star : regex -> regex.

(** A run of literal characters. *)
Fixpoint lits (s : string) : regex :=
  match s with
  | EmptyString => Eps
  | String c s' => Cat (Lit c) (lits s')
  end.

Fixpoint nullable (r : regex) : bool :=
  match r with
  | Empty => false
  | Eps => true
  | Lit _ => false
  | Dot => false
  | Class _ => false
  | Cat r1 r2 => nullable r1 && nullable r2
  | Alt r1 r2 => nullable r1 || nullable r2
  | Star _ => true
  end.

(** Without the DOTALL flag [.] matches every character except the
    newline. *)
Fixpoint deriv (c : ascii) (r : regex) : regex :=
  match r with
  | Empty => Empty
  | Eps => Empty
  | Lit a => if Ascii.eqb a c then Eps else Empty
  | Dot => if Ascii.eqb c newline then Empty else Eps
  | Class cs => if mem_char c cs then Eps else Empty
  | Cat r1 r2 =>
      if nullable r1
      then Alt (Cat (deriv c r1) r2) (deriv c r2)
      else Cat (deriv c r1) r2
  | Alt r1 r2 => Alt (deriv c r1) (deriv c r2)
  | Star r1 => Cat (deriv c r1) (Star r1)
  end.

(** What it means for a whole string to match a pattern. *)
Inductive Matches : regex -> string -> Prop :=
| MEps : Matches Eps EmptyString
| MLit c : Matches (Lit c) (String c EmptyString)
| MDot c : c <> newline -> Matches Dot (String c EmptyString)
| MClass c cs : mem_char c cs = true -> Matches (Class cs) (String c EmptyString)
| MCat r1 r2 s1 s2 :
    Matches r1 s1 -> Matches r2 s2 -> Matches (Cat r1 r2) (s1 ++ s2)
| MAltL r1 r2 s : Matches r1 s -> Matches (Alt r1 r2) s
| MAltR r1 r2 s : Matches r2 s -> Matches (Alt r1 r2) s
| MStarNil r : Matches (Star r) EmptyString
| MStarApp r s1 s2 :
    Matches r s1 -> Matches (Star r) s2 -> Matches (Star r) (s1 ++ s2).

(** [re.fullmatch(r, s) is not None] *)
Fixpoint fullmatch (r : regex) (s : string) : bool :=
  match s with
  | EmptyString => nullable r
  | String c s' => fullmatch (deriv c r) s'
  end.

(** [re.match(r, s) is not None]: some prefix of [s] matches. *)
Fixpoint match_ (r : regex) (s : string) : bool :=
  nullable r ||
  match s with
  | EmptyString => false
  | String c s' => match_ (deriv c r) s'
  end.

(** [re.search(r, s) is not None]: a match starts somewhere in [s]. *)
Fixpoint search (r : regex) (s : string) : bool :=
  match_ r s ||
  match s with
  | EmptyString => false
  | String _ s' => search r s'
  end.

(** [re.sub(p, repl, s)] for a pattern [p] that is one character
    class: every match is one character of the class, and each is
    replaced by [repl]. *)
Fixpoint sub_class (cs : list ascii) (repl : string) (s : string) : string :=
  match s with
  | EmptyString => EmptyString
  | String c s' =>
      if mem_char c cs then repl ++ sub_class cs repl s'
      else String c (sub_class cs repl s')
  end.

End Re.

(* ================================================================== *)
(** ** Python [float]: IEEE-754 binary64 *)
(* ================================================================== *)

Module PyFloat.
Local Open Scope Z_scope.

Definition prec : Z := 53.
Definition emax : Z := 1024.

Definition float : Type := spec_float.

Definition fadd : float -> float -> float := SFadd prec emax.
Definition fsub : float -> float -> float := SFsub prec emax.
Definition fmul : float -> float -> float := SFmul prec emax.
Definition fdiv : float -> float -> float := SFdiv prec emax.
Definition fltb : float -> float -> bool := SFltb.

(** The float nearest to an integer (ties to even); an infinity when
    the integer is out of range. *)
Definition of_Z (z : Z) : float := binary_normalize prec emax z 0 false.

Definition one : float := of_Z 1.
Definition half : float := fdiv one (of_Z 2).

Definition is_nan (x : float) : bool :=
  match x with S754_nan => true | _ => false end.
Definition is_inf (x : float) : bool :=
  match x with S754_infinity _ => true | _ => false end.
Definition is_zero (x : float) : bool :=
  match x with S754_zero _ => true | _ => false end.
Definition is_finite (x : float) : bool :=
  match x with S754_zero _ | S754_finite _ _ _ => true | _ => false end.
Definition signbit (x : float) : bool :=
  match x with
  | S754_zero s | S754_infinity s | S754_finite s _ _ => s
  | S754_nan => false
  end.

(** [a / b] on two non-zero-divisor integers: the quotient of the
    exact integers, rounded once. *)
Definition int_truediv (a b : Z) : float :=
  match a, b with
  | Z0, _ => S754_zero (b <? 0)
  | _, Z0 => S754_nan
  | _, _ =>
      fdiv (S754_finite (a <? 0) (Z.to_pos (Z.abs a)) 0)
           (S754_finite (b <? 0) (Z.to_pos (Z.abs b)) 0)
  end.

(** C [fmod]: the remainder of the magnitudes with the sign of [x];
    it is exact. *)
Definition fmod (x y : float) : float :=
  match x, y with
  | S754_nan, _ | _, S754_nan => S754_nan
  | S754_infinity _, _ => S754_nan
  | _, S754_zero _ => S754_nan
  | _, S754_infinity _ => x
  | S754_zero _, _ => x
  | S754_finite sx mx ex, S754_finite _ my ey =>
      let e := Z.min ex ey in
      let X := Zpos mx * 2 ^ (ex - e) in
      let Y := Zpos my * 2 ^ (ey - e) in
      binary_normalize prec emax (cond_Zopp sx (X mod Y)) e sx
  end.

(** C [floor]. *)
Definition floor (x : float) : float :=
  match x with
  | S754_finite s m e =>
      if 0 <=? e then x
      else binary_normalize prec emax (cond_Zopp s (Zpos m) / 2 ^ (- e)) 0 s
  | _ => x
  end.

(** Truth value of a C double: anything but a zero. *)
Definition nonzero (x : float) : bool := negb (is_zero x).
Definition ltz (x : float) : bool := fltb x (S754_zero false).
Definition copysign0 (w : float) : float := S754_zero (signbit w).

(** CPython's [float_rem], divisor known to be non-zero. *)
Definition float_rem (vx wx : float) : float :=
  let mod_ := fmod vx wx in
  if nonzero mod_
  then if xorb (ltz wx) (ltz mod_) then fadd mod_ wx else mod_
  else copysign0 wx.

(** CPython's [float_floor_div], divisor known to be non-zero. *)
Definition float_floor_div (vx wx : float) : float :=
  let mod_ := fmod vx wx in
  let div := fdiv (fsub vx mod_) wx in
  let div :=
    if nonzero mod_ && xorb (ltz wx) (ltz mod_) then fsub div one else div in
  if nonzero div
  then let fl := floor div in
       if fltb half (fsub div fl) then fadd fl one else fl
  else copysign0 (fdiv vx wx).

(** [int(x)]: truncation toward zero, undefined on NaN and the
    infinities. *)
Definition trunc (x : float) : option Z :=
  match x with
  | S754_zero _ => Some 0
  | S754_finite s m e =>
      Some (cond_Zopp s (if 0 <=? e then Zpos m * 2 ^ e else Zpos m / 2 ^ (- e)))
  | _ => None
  end.

(** *** Fixed-point formatting, [format(x, 'W.Pf')] *)

Definition round_half_even_div (n d : Z) : Z :=
  let q := n / d in
  match (2 * (n mod d) ?= d) with
  | Lt => q
  | Gt => q + 1
  | Eq => if Z.even q then q else q + 1
  end.

(** The magnitude [m * 2^e] times [10^p], rounded to an integer. *)
Definition scaled (p : nat) (m : positive) (e : Z) : Z :=
  let n := Zpos m * 10 ^ Z.of_nat p in
  if 0 <=? e then n * 2 ^ e else round_half_even_div n (2 ^ (- e)).

Fixpoint replicate_char (n : nat) (c : ascii) : string :=
  match n with
  | O => EmptyString
  | S n' => String c (replicate_char n' c)
  end.

Definition pad_left (c : ascii) (width : nat) (s : string) : string :=
  replicate_char (width - String.length s) c ++ s.

(** The decimal digits of [n >= 0] with a point before the last [p]. *)
Definition fixed_digits (p : nat) (n : Z) : string :=
  let ds := pad_left "0" (S p) (pretty n) in
  let k := (String.length ds - p)%nat in
  match p with
  | O => ds
  | _ => substring 0 k ds ++ "." ++ substring k p ds
  end.

Definition sign_str (s : bool) : string := if s then "-" else "".

Definition format_f (width p : nat) (x : float) : string :=
  pad_left " " width
    match x with
    | S754_nan => "nan"
    | S754_infinity s => sign_str s ++ "inf"
    | S754_zero s => sign_str s ++ fixed_digits p 0
    | S754_finite s m e => sign_str s ++ fixed_digits p (scaled p m e)
    end.

(** [format(z, '0Wd')]: sign first, then zeros up to the width. *)
Definition format_0d (width : nat) (z : Z) : string :=
  if z <? 0
  then "-" ++ pad_left "0" (width - 1) (pretty (Z.abs z))
  else pad_left "0" width (pretty z).

End PyFloat.

(* ================================================================== *)
(** ** Python values, exceptions and the operators the source applies *)
(* ================================================================== *)

Module Py.
Import Text PyFloat.
Local Open Scope Z_scope.

(** The values a progress event or a metadata mapping carries. *)
Inductive pyval : Type :=
| PyNone : pyval
| PyInt : Z -> pyval
| PyFloat : float -> pyval
| PyStr : string -> pyval.

(** The result of [//] and [%] on numbers. *)
Inductive pynum : Type :=
| NInt : Z -> pynum
| NFloat : float -> pynum.

(** A raised exception: its class, [str(e)], and whether the class
    derives from [Exception] (what [except Exception] catches). *)
Record exn : Type := MkExn {
  exn_class : string;
  exn_str : string;
  exn_is_Exception : bool
}.

Definition Exception (msg : string) : exn := MkExn "Exception" msg true.
Definition TypeError (msg : string) : exn := MkExn "TypeError" msg true.
Definition ValueError (msg : string) : exn := MkExn "ValueError" msg true.
Definition OverflowError (msg : string) : exn := MkExn "OverflowError" msg true.
Definition ZeroDivisionError (msg : string) : exn :=
  MkExn "ZeroDivisionError" msg true.
(** [str(KeyError(k))] is [repr(k)]; the keys here are plain words. *)
Definition KeyError (key : string) : exn :=
  MkExn "KeyError" ("'" ++ key ++ "'") true.

Inductive result (A : Type) : Type :=
| Ok : A -> result A
| Raise : exn -> result A.
Arguments Ok {A} _.
Arguments Raise {A} _.

Definition rbind {A B : Type} (r : result A) (k : A -> result B) : result B :=
  match r with
  | Ok a => k a
  | Raise e => Raise e
  end.

Declare Scope py_scope.
Delimit Scope py_scope with py.
Notation "x <- m ;; k" := (rbind m (fun x => k))
  (at level 100, m at next level, right associativity) : py_scope.
Local Open Scope py_scope.

Definition type_name (v : pyval) : string :=
  match v with
  | PyNone => "NoneType"
  | PyInt _ => "int"
  | PyFloat _ => "float"
  | PyStr _ => "str"
  end.

Definition unsupported (op : string) (a b : pyval) : exn :=
  TypeError ("unsupported operand type(s) for " ++ op ++ ": '" ++
             type_name a ++ "' and '" ++ type_name b ++ "'").

(** Truth value, as [if v] takes it. *)
Definition truthy (v : pyval) : bool :=
  match v with
  | PyNone => false
  | PyInt z => negb (z =? 0)
  | PyFloat f => nonzero f
  | PyStr s => nonempty s
  end.

(** [v == s] for a [str] literal [s]. *)
Definition eq_str (v : pyval) (s : string) : bool :=
  match v with
  | PyStr t => String.eqb t s
  | _ => false
  end.

(** Conversion of an [int] operand of a mixed operation. *)
Definition float_of_int (z : Z) : result float :=
  let f := of_Z z in
  if is_inf f then Raise (OverflowError "int too large to convert to float")
  else Ok f.

Definition as_float (v : pyval) : option (result float) :=
  match v with
  | PyInt z => Some (float_of_int z)
  | PyFloat f => Some (Ok f)
  | _ => None
  end.

(** [a / b] *)
Definition truediv (a b : pyval) : result float :=
  match a, b with
  | PyInt x, PyInt y =>
      if y =? 0 then Raise (ZeroDivisionError "division by zero")
      else
        let q := int_truediv x y in
        if is_inf q
        then Raise (OverflowError "integer division result too large for a float")
        else Ok q
  | _, _ =>
      match as_float a, as_float b with
      | Some ra, Some rb =>
          x <- ra ;; y <- rb ;;
          if is_zero y then Raise (ZeroDivisionError "float division by zero")
          else Ok (fdiv x y)
      | _, _ => Raise (unsupported "/" a b)
      end
  end.

(** [x * k] for a float [x] and an [int] literal [k]. *)
Definition fmul_int (x : float) (k : Z) : float := fmul x (of_Z k).

(** [a // k] and [a % k] for a non-zero [int] literal [k].  A [str]
    on the left of [%] would be string formatting; the source only
    reaches [%] after [//] accepted the same operand. *)
Definition floordiv_int (a : pyval) (k : Z) : result pynum :=
  match a with
  | PyInt x => Ok (NInt (x / k))
  | PyFloat x => Ok (NFloat (float_floor_div x (of_Z k)))
  | _ => Raise (unsupported "//" a (PyInt k))
  end.

Definition mod_int (a : pyval) (k : Z) : result pynum :=
  match a with
  | PyInt x => Ok (NInt (x mod k))
  | PyFloat x => Ok (NFloat (float_rem x (of_Z k)))
  | _ => Raise (unsupported "%" a (PyInt k))
  end.

(** [int(n)] *)
Definition int_ (n : pynum) : result Z :=
  match n with
  | NInt z => Ok z
  | NFloat f =>
      match trunc f with
      | Some z => Ok z
      | None =>
          if is_nan f
          then Raise (ValueError "cannot convert float NaN to integer")
          else Raise (OverflowError "cannot convert float infinity to integer")
      end
  end.

(** [format(v, 'W.Pf')] *)
Definition format_fixed (width p : nat) (v : pyval) : result string :=
  match v with
  | PyInt z => f <- float_of_int z ;; Ok (format_f width p f)
  | PyFloat f => Ok (format_f width p f)
  | PyNone =>
      Raise (TypeError "unsupported format string passed to NoneType.__format__")
  | PyStr _ =>
      Raise (ValueError "Unknown format code 'f' for object of type 'str'")
  end.

(** A mapping with [str] keys. *)
Abbreviation dict := (gmap string pyval).

(** [k in d] *)
Definition key_in (k : string) (d : dict) : bool :=
  match d !! k with Some _ => true | None => false end.

(** [d[k]] *)
Definition getitem (d : dict) (k : string) : result pyval :=
  match d !! k with
  | Some v => Ok v
  | None => Raise (KeyError k)
  end.

(** [d.get(k, dflt)] *)
Definition get (d : dict) (k : string) (dflt : pyval) : pyval :=
  match d !! k with Some v => v | None => dflt end.

End Py.

(* ================================================================== *)
(** ** The window: widgets, shared flag, thread registry *)
(* ================================================================== *)

Module Tk.
Import Py.

(** [tk.NORMAL] / [tk.DISABLED], also the ['normal'] / ['disabled']
    state of the log widget. *)
Inductive widget_state : Type := NORMAL | DISABLED.

(** A thread object, named by the order in which it was created. *)
Definition thread : Type := nat.

(** A [video_counter] dictionary, named by the order of allocation. *)
Definition counter_ref : Type := nat.

(** The arguments a download thread was started with. *)
Record request : Type := MkRequest {
  req_url : string;
  req_output_dir : string;
  req_audio_only : bool
}.

(** Everything the callbacks and the button handlers read or write. *)
Record world : Type := MkWorld {
  stop_flag : bool;                          (* self.stop_flag['stop'] *)
  active_downloads : list thread;            (* self.active_downloads *)
  url_var : string;
  dir_var : string;
  audio_var : Z;
  progress_var : pyval;                      (* the progress bar's variable *)
  progress_label_var : string;
  status_var : string;
  download_btn : widget_state;
  output_text : list (string * string);      (* inserted text and its tag *)
  output_text_state : widget_state;
  dialogs : list (string * string);          (* messagebox.showerror calls *)
  stdout : list string;                      (* print calls *)
  threads : list request;                    (* threads started so far *)
  counters : list Z                          (* video_counter['current'] *)
}.

Definition with_stop_flag (b : bool) (w : world) : world :=
  MkWorld b (active_downloads w) (url_var w) (dir_var w) (audio_var w)
    (progress_var w) (progress_label_var w) (status_var w) (download_btn w)
    (output_text w) (output_text_state w) (dialogs w) (stdout w) (threads w)
    (counters w).

Definition with_active_downloads (l : list thread) (w : world) : world :=
  MkWorld (stop_flag w) l (url_var w) (dir_var w) (audio_var w)
    (progress_var w) (progress_label_var w) (status_var w) (download_btn w)
    (output_text w) (output_text_state w) (dialogs w) (stdout w) (threads w)
    (counters w).

Definition with_url_var (s : string) (w : world) : world :=
  MkWorld (stop_flag w) (active_downloads w) s (dir_var w) (audio_var w)
    (progress_var w) (progress_label_var w) (status_var w) (download_btn w)
    (output_text w) (output_text_state w) (dialogs w) (stdout w) (threads w)
    (counters w).

Definition with_dir_var (s : string) (w : world) : world :=
  MkWorld (stop_flag w) (active_downloads w) (url_var w) s (audio_var w)
    (progress_var w) (progress_label_var w) (status_var w) (download_btn w)
    (output_text w) (output_text_state w) (dialogs w) (stdout w) (threads w)
    (counters w).

Definition with_audio_var (z : Z) (w : world) : world :=
  MkWorld (stop_flag w) (active_downloads w) (url_var w) (dir_var w) z
    (progress_var w) (progress_label_var w) (status_var w) (download_btn w)
    (output_text w) (output_text_state w) (dialogs w) (stdout w) (threads w)
    (counters w).

Definition with_progress_var (v : pyval) (w : world) : world :=
  MkWorld (stop_flag w) (active_downloads w) (url_var w) (dir_var w)
    (audio_var w) v (progress_label_var w) (status_var w) (download_btn w)
    (output_text w) (output_text_state w) (dialogs w) (stdout w) (threads w)
    (counters w).

Definition with_progress_label_var (s : string) (w : world) : world :=
  MkWorld (stop_flag w) (active_downloads w) (url_var w) (dir_var w)
    (audio_var w) (progress_var w) s (status_var w) (download_btn w)
    (output_text w) (output_text_state w) (dialogs w) (stdout w) (threads w)
    (counters w).

Definition with_status_var (s : string) (w : world) : world :=
  MkWorld (stop_flag w) (active_downloads w) (url_var w) (dir_var w)
    (audio_var w) (progress_var w) (progress_label_var w) s (download_btn w)
    (output_text w) (output_text_state w) (dialogs w) (stdout w) (threads w)
    (counters w).

Definition with_download_btn (b : widget_state) (w : world) : world :=
  MkWorld (stop_flag w) (active_downloads w) (url_var w) (dir_var w)
    (audio_var w) (progress_var w) (progress_label_var w) (status_var w) b
    (output_text w) (output_text_state w) (dialogs w) (stdout w) (threads w)
    (counters w).

Definition with_output_text (l : list (string * string)) (w : world) : world :=
  MkWorld (stop_flag w) (active_downloads w) (url_var w) (dir_var w)
    (audio_var w) (progress_var w) (progress_label_var w) (status_var w)
    (download_btn w) l (output_text_state w) (dialogs w) (stdout w)
    (threads w) (counters w).

Definition with_output_text_state (b : widget_state) (w : world) : world :=
  MkWorld (stop_flag w) (active_downloads w) (url_var w) (dir_var w)
    (audio_var w) (progress_var w) (progress_label_var w) (status_var w)
    (download_btn w) (output_text w) b (dialogs w) (stdout w) (threads w)
    (counters w).

Definition with_dialogs (l : list (string * string)) (w : world) : world :=
  MkWorld (stop_flag w) (active_downloads w) (url_var w) (dir_var w)
    (audio_var w) (progress_var w) (progress_label_var w) (status_var w)
    (download_btn w) (output_text w) (output_text_state w) l (stdout w)
    (threads w) (counters w).

Definition with_stdout (l : list string) (w : world) : world :=
  MkWorld (stop_flag w) (active_downloads w) (url_var w) (dir_var w)
    (audio_var w) (progress_var w) (progress_label_var w) (status_var w)
    (download_btn w) (output_text w) (output_text_state w) (dialogs w) l
    (threads w) (counters w).

Definition with_threads (l : list request) (w : world) : world :=
  MkWorld (stop_flag w) (active_downloads w) (url_var w) (dir_var w)
    (audio_var w) (progress_var w) (progress_label_var w) (status_var w)
    (download_btn w) (output_text w) (output_text_state w) (dialogs w)
    (stdout w) l (counters w).

Definition with_counters (l : list Z) (w : world) : world :=
  MkWorld (stop_flag w) (active_downloads w) (url_var w) (dir_var w)
    (audio_var w) (progress_var w) (progress_label_var w) (status_var w)
    (download_btn w) (output_text w) (output_text_state w) (dialogs w)
    (stdout w) (threads w) l.

(** The [StringVar]s a callback can be handed. *)
Inductive string_var : Type := ProgressLabelVar | StatusVar.

Definition string_var_set (v : string_var) (s : string) (w : world) : world :=
  match v with
  | ProgressLabelVar => with_progress_label_var s w
  | StatusVar => with_status_var s w
  end.

(** [print(s)] *)
Definition print (s : string) (w : world) : world :=
  with_stdout (stdout w ++ [s]) w.

(** [messagebox.showerror(title, message)] *)
Definition showerror (title message : string) (w : world) : world :=
  with_dialogs (dialogs w ++ [(title, message)]) w.

(** The four calls that add one tagged piece of text to the log:
    [configure(state='normal')], [insert(tk.END, text, tag)],
    [see(tk.END)], [configure(state='disabled')]. *)
Definition log_insert (text tag : string) (w : world) : world :=
  with_output_text_state DISABLED
    (with_output_text (output_text w ++ [(text, tag)])
       (with_output_text_state NORMAL w)).

(** [video_counter = {'current': 0}] *)
Definition new_counter (w : world) : counter_ref * world :=
  (length (counters w), with_counters (counters w ++ [0%Z]) w).

(** [video_counter['current']] *)
Definition counter_get (r : counter_ref) (w : world) : Z :=
  default 0%Z (counters w !! r).

(** [video_counter['current'] += 1] *)
Definition counter_incr (r : counter_ref) (w : world) : world :=
  with_counters (alter Z.succ r (counters w)) w.

(** A computation over the window that may raise. *)
Definition M (A : Type) : Type := world -> result A * world.

Definition ret {A : Type} (a : A) : M A := fun w => (Ok a, w).
Definition raise {A : Type} (e : exn) : M A := fun w => (Raise e, w).
Definition bind {A B : Type} (m : M A) (k : A -> M B) : M B :=
  fun w =>
    match m w with
    | (Ok a, w') => k a w'
    | (Raise e, w') => (Raise e, w')
    end.
Definition lift {A : Type} (r : result A) : M A := fun w => (r, w).
Definition act (f : world -> world) : M unit := fun w => (Ok tt, f w).
Definition gets {A : Type} (f : world -> A) : M A := fun w => (Ok (f w), w).

Declare Scope tk_scope.
Delimit Scope tk_scope with tk.
Notation "x <- m ;; k" := (bind m (fun x => k))
  (at level 100, m at next level, right associativity) : tk_scope.
Notation "m ;; k" := (bind m (fun _ => k))
  (at level 100, right associativity) : tk_scope.

End Tk.

(* ================================================================== *)
(** ** The program *)
(* ================================================================== *)

Import Text Py Tk.
Local Open Scope tk_scope.

(** *** [YTDlpLogger] *)

(** The fields [__init__] stores ([output_widget] is the one log widget
    of the window). *)
Record YTDlpLogger : Type := MkLogger {
  lg_video_counter : option counter_ref;
  lg_progress_label_var : option string_var;
  lg_total_videos : option Z;
  lg_audio_only : bool
}.

(** The metadata [extract_info] returns: its scalar fields and, when
    the key is there, its ['entries']. *)
Record info_dict : Type := MkInfo {
  info_fields : dict;
  info_entries : option (list dict)
}.

Record postprocessor : Type := MkPostprocessor {
  pp_key : string;
  pp_preferredcodec : string
}.

(** The option mapping handed to the media library; a key that is not
    set is [None]. *)
Record ydl_opts : Type := MkOpts {
  outtmpl : string;
  ignoreerrors : bool;
  noplaylist : bool;
  quiet : bool;
  ffmpeg_location : string;
  progress_hooks : list (dict -> M unit);
  logger : YTDlpLogger;
  force_overwrites : bool;
  no_part : bool;
  geo_bypass : bool;
  format : string;
  postprocessors : option (list postprocessor);
  merge_output_format : option string
}.

(** [PlaylistDownloader]: the one attribute [__init__] sets. *)
Record PlaylistDownloader : Type := MkDownloader {
  ffmpeg_path : string
}.

Definition merger_line : string := "[Merger] Merging formats into".

(** The nine characters of the class in the pattern of
    [sanitize_filename]: less-than, greater-than, colon, double quote,
    slash, backslash, bar, question mark, star. *)
Definition forbidden : list ascii :=
  ["<"; ">"; ":"; dquote; "/"; backslash; "|"; "?"; "*"]%char.

(** [PlaylistDownloader.sanitize_filename] *)
Definition sanitize_filename (filename : string) : string :=
  Re.sub_class forbidden "" filename.

(** [PlaylistDownloader.is_playlist_url] *)
Definition is_playlist_url (url : string) : bool :=
  str_in "playlist" (lower url) || str_in "list=" (lower url).

(** The five patterns of [is_valid_youtube_url], in the order of the
    source list. *)
Definition pat_watch : Re.regex := Re.lits "youtube.com/watch?v=".
Definition pat_playlist : Re.regex := Re.lits "youtube.com/playlist?list=".
Definition pat_short : Re.regex := Re.lits "youtu.be/".
Definition pat_list : Re.regex :=
  Re.Cat (Re.lits "youtube.com/")
    (Re.Cat (Re.Star Re.Dot)
       (Re.Cat (Re.Class ["?"; "&"]%char) (Re.lits "list="))).
Definition pat_mobile : Re.regex := Re.lits "m.youtube.com/".

Definition youtube_patterns : list Re.regex :=
  [pat_watch; pat_playlist; pat_short; pat_list; pat_mobile].

(** [PlaylistDownloader.is_valid_youtube_url] *)
Definition is_valid_youtube_url (url : string) : bool :=
  existsb (fun pattern => Re.search pattern (lower url)) youtube_patterns.

(** The two single-video shapes among [youtube_patterns]: a watch page
    and a short link. *)
Definition single_video_pattern (url : string) : bool :=
  Re.search pat_watch (lower url) || Re.search pat_short (lower url).

Section Program.

(** What the Python runtime and the media library supply. *)
Variable float_repr : PyFloat.float -> string.       (* str(x) of a float *)
Variable os_path_join : string -> string -> string.
Variable os_path_abspath : string -> string.
Variable os_path_exists : string -> bool.
Variable os_makedirs : string -> result unit.
(** [YoutubeDL({'quiet': True, 'extract_flat': flat}).extract_info(url,
    download=False)] *)
Variable extract_info : bool -> string -> result info_dict.
(** [with YoutubeDL(opts) as ydl2: ydl2.download(urls)]: the library
    runs with the window at hand, calling the hooks and the logger of
    [opts] as it sees fit. *)
Variable ydl_download : ydl_opts -> list string -> M unit.

(** [str(v)], as an f-string field without a format renders it. *)
Definition str (v : pyval) : string :=
  match v with
  | PyNone => "None"
  | PyInt z => pretty z
  | PyFloat f => float_repr f
  | PyStr s => s
  end.

Definition progress_text (current total : Z) : string :=
  "Progress: " ++ pretty current ++ "/" ++ pretty total.

(** [YTDlpLogger._write_to_output] *)
Definition _write_to_output (self : YTDlpLogger) (msg tag : string) : M unit :=
  act (log_insert (msg ++ nl) tag) ;;
  if negb (lg_audio_only self) then
    match lg_video_counter self, lg_progress_label_var self,
          lg_total_videos self with
    | Some vc, Some label, Some total =>
        if startswith msg merger_line then
          act (counter_incr vc) ;;
          current <- gets (counter_get vc) ;;
          act (string_var_set label (progress_text current total))
        else ret tt
    | _, _, _ => ret tt
    end
  else ret tt.

(** [YTDlpLogger.debug] *)
Definition debug (self : YTDlpLogger) (msg : string) : M unit :=
  if nonempty (strip msg) then
    if str_in merger_line msg then _write_to_output self msg "info"
    else if str_in "[download]" msg then _write_to_output self msg "progress"
    else _write_to_output self msg "info"
  else ret tt.

(** [YTDlpLogger.warning] *)
Definition warning (self : YTDlpLogger) (msg : string) : M unit :=
  if nonempty (strip msg)
  then _write_to_output self ("[warning] " ++ msg) "warning"
  else ret tt.

(** [YTDlpLogger.error] *)
Definition error (self : YTDlpLogger) (msg : string) : M unit :=
  if nonempty (strip msg)
  then _write_to_output self ("[error] " ++ msg) "error"
  else ret tt.

(** [v / 1024 / 1024] *)
Definition mib (v : pyval) : result PyFloat.float :=
  (a <- truediv v (PyInt 1024) ;; truediv (PyFloat a) (PyInt 1024))%py.

(** [d['downloaded_bytes'] / d['total_bytes'] * 100] *)
Definition percent_of (d : dict) : result PyFloat.float :=
  (downloaded <- getitem d "downloaded_bytes" ;;
   total <- getitem d "total_bytes" ;;
   q <- truediv downloaded total ;;
   Ok (fmul_int q 100))%py.

(** [d[k] / 1024 / 1024 if d[k] else 0] *)
Definition mb_of (d : dict) (k : string) : result pyval :=
  (c <- getitem d k ;;
   if truthy c
   then (v <- getitem d k ;; m <- mib v ;; Ok (PyFloat m))
   else Ok (PyInt 0))%py.

(** [f"{speed/1024/1024:.2f}MiB/s" if speed else "?"] *)
Definition speed_str_of (speed : pyval) : result string :=
  (if truthy speed
   then (m <- mib speed ;; Ok (PyFloat.format_f 0 2 m ++ "MiB/s"))
   else Ok "?")%py.

(** [f"{int(eta//60):02d}:{int(eta%60):02d}" if eta else "?"] *)
Definition eta_str_of (eta : pyval) : result string :=
  (if truthy eta
   then (q <- floordiv_int eta 60 ;; mm <- int_ q ;;
         r <- mod_int eta 60 ;; ss <- int_ r ;;
         Ok (PyFloat.format_0d 2 mm ++ ":" ++ PyFloat.format_0d 2 ss))
   else Ok "?")%py.

(** The fragment suffix of the progress line. *)
Definition frag_str_of (d : dict) : result string :=
  (if key_in "fragments" d && key_in "fragment_index" d then
     i <- getitem d "fragment_index" ;; n <- getitem d "fragments" ;;
     Ok ("(frag " ++ str i ++ "/" ++ str n ++ ")")
   else if key_in "fragment_index" d && key_in "total_fragments" d then
     i <- getitem d "fragment_index" ;; n <- getitem d "total_fragments" ;;
     Ok ("(frag " ++ str i ++ "/" ++ str n ++ ")")
   else Ok "")%py.

(** The text of the progress line, from [size_mb = ...] to the
    f-string, for the percent already computed. *)
Definition progress_line_of (d : dict) (percent : PyFloat.float) :
    result string :=
  (size_mb <- mb_of d "total_bytes" ;;
   downloaded_mb <- mb_of d "downloaded_bytes" ;;
   let speed := get d "speed" (PyInt 0) in
   speed_str <- speed_str_of speed ;;
   let eta := get d "eta" PyNone in
   eta_str <- eta_str_of eta ;;
   frag_str <- frag_str_of d ;;
   size_txt <- format_fixed 7 2 size_mb ;;
   Ok ("[download]  " ++ PyFloat.format_f 5 1 percent ++ "% of ~ " ++ size_txt ++
       "MiB at " ++ speed_str ++ " ETA " ++ eta_str ++ " " ++ frag_str))%py.

(** [PlaylistDownloader._handle_download_progress] *)
Definition _handle_download_progress (d : dict) : M unit :=
  percent <- lift (percent_of d) ;;
  act (with_progress_var (PyFloat percent)) ;;
  progress_line <- lift (progress_line_of d percent) ;;
  act (log_insert (progress_line ++ nl) "progress").

(** [PlaylistDownloader._handle_download_finished] *)
Definition _handle_download_finished (d : dict) (audio_only : bool)
    (video_counter : counter_ref) (total_videos : Z) : M unit :=
  act (with_progress_var (PyInt 100)) ;;
  act (log_insert ("Status: Finished" ++ nl) "info") ;;
  if audio_only then
    act (counter_incr video_counter) ;;
    current <- gets (counter_get video_counter) ;;
    act (string_var_set ProgressLabelVar (progress_text current total_videos))
  else ret tt.

(** The closure [progress_hook] of both download processes. *)
Definition progress_hook (audio_only : bool) (video_counter : counter_ref)
    (total_videos : Z) (d : dict) : M unit :=
  stop <- gets stop_flag ;;
  if (stop : bool) then raise (Exception "Download stopped by user.")
  else
    status <- lift (getitem d "status") ;;
    downloading <-
      lift (if eq_str status "downloading" && key_in "downloaded_bytes" d
               && key_in "total_bytes" d
            then (total <- getitem d "total_bytes" ;; Ok (truthy total))%py
            else Ok false) ;;
    if (downloading : bool) then _handle_download_progress d
    else
      status' <- lift (getitem d "status") ;;
      if eq_str status' "finished"
      then _handle_download_finished d audio_only video_counter total_videos
      else ret tt.

(** [PlaylistDownloader._get_ydl_options] *)
Definition _get_ydl_options (self : PlaylistDownloader) (output_dir : string)
    (audio_only : bool) (hook : dict -> M unit) (lg : YTDlpLogger) : ydl_opts :=
  let base_opts :=
    MkOpts (os_path_join output_dir "%(title)s.%(ext)s") true false false
      (ffmpeg_path self) [hook] lg true true true in
  if audio_only
  then base_opts "bestaudio/best"
         (Some [MkPostprocessor "FFmpegExtractAudio" "mp3"]) None
  else base_opts "bestvideo+bestaudio/best" None (Some "mp4").

(** [if not os.path.exists(output_dir): os.makedirs(output_dir)] *)
Definition ensure_output_dir (output_dir : string) : M unit :=
  if os_path_exists output_dir then ret tt else lift (os_makedirs output_dir).

(** [PlaylistDownloader._download_playlist_process] *)
Definition _download_playlist_process (self : PlaylistDownloader)
    (playlist_url output_dir : string) (audio_only : bool) : M unit :=
  ensure_output_dir output_dir ;;
  info <- lift (extract_info true playlist_url) ;;
  let entries := default [] (info_entries info) in
  let total_videos := Z.of_nat (length entries) in
  video_counter <- (fun w => let (r, w') := new_counter w in (Ok r, w')) ;;
  act (with_progress_label_var (progress_text 0 total_videos)) ;;
  let ydl_logger :=
    MkLogger (Some video_counter) (Some ProgressLabelVar) (Some total_videos)
      audio_only in
  _write_to_output ydl_logger
    ("Downloading playlist: " ++
     str (get (info_fields info) "title" (PyStr "Unknown"))) "info" ;;
  _write_to_output ydl_logger
    ("Total videos in playlist: " ++ pretty total_videos) "info" ;;
  let hook := progress_hook audio_only video_counter total_videos in
  let opts := _get_ydl_options self output_dir audio_only hook ydl_logger in
  ydl_download opts [playlist_url] ;;
  act (print ("Playlist download completed! Files saved in: " ++
              os_path_abspath output_dir)) ;;
  act (with_status_var "Playlist download completed!") ;;
  current <- gets (counter_get video_counter) ;;
  act (with_progress_label_var (progress_text current total_videos)).

(** [PlaylistDownloader._download_video_process] *)
Definition _download_video_process (self : PlaylistDownloader)
    (video_url output_dir : string) (audio_only : bool) : M unit :=
  ensure_output_dir output_dir ;;
  info <- lift (extract_info false video_url) ;;
  let video_title := get (info_fields info) "title" (PyStr "Unknown Video") in
  let total_videos := 1%Z in
  video_counter <- (fun w => let (r, w') := new_counter w in (Ok r, w')) ;;
  act (with_progress_label_var (progress_text 0 total_videos)) ;;
  let ydl_logger :=
    MkLogger (Some video_counter) (Some ProgressLabelVar) (Some total_videos)
      audio_only in
  _write_to_output ydl_logger ("Downloading video: " ++ str video_title) "info" ;;
  _write_to_output ydl_logger
    ("Duration: " ++ str (get (info_fields info) "duration" (PyStr "Unknown")) ++
     " seconds") "info" ;;
  let hook := progress_hook audio_only video_counter total_videos in
  let opts := _get_ydl_options self output_dir audio_only hook ydl_logger in
  ydl_download opts [video_url] ;;
  act (print ("Video download completed! File saved in: " ++
              os_path_abspath output_dir)) ;;
  act (with_status_var "Video download completed!") ;;
  current <- gets (counter_get video_counter) ;;
  act (with_progress_label_var (progress_text current total_videos)).

(** [list.remove(x)] on a list that holds [x]: the first one goes. *)
Fixpoint list_remove (x : thread) (l : list thread) : list thread :=
  match l with
  | [] => []
  | y :: l' => if Nat.eqb x y then l' else y :: list_remove x l'
  end.

(** The [finally] block of [run]. *)
Definition run_finally (current_thread : thread) (w : world) : world :=
  let w1 :=
    if existsb (Nat.eqb current_thread) (active_downloads w)
    then with_active_downloads
           (list_remove current_thread (active_downloads w)) w
    else w in
  with_progress_var (PyInt 0) (with_download_btn NORMAL w1).

(** The [except Exception as e] block of [run]. *)
Definition run_except (e : exn) (w : world) : world :=
  with_status_var ("Error: " ++ exn_str e)
    (print ("Error: " ++ exn_str e) w).

(** [try: ... except Exception as e: ... finally: ...] around a body,
    as [run] has it. *)
Definition try_run (current_thread : thread) (body : M unit) : M unit :=
  fun w =>
    match body w with
    | (Ok tt, w') => (Ok tt, run_finally current_thread w')
    | (Raise e, w') =>
        if exn_is_Exception e
        then (Ok tt, run_finally current_thread (run_except e w'))
        else (Raise e, run_finally current_thread w')
    end.

(** The [try] block of [run]. *)
Definition run_body (self : PlaylistDownloader) (url output_dir : string)
    (audio_only : bool) (current_thread : thread) : M unit :=
  act (fun w => with_active_downloads
                  (active_downloads w ++ [current_thread]) w) ;;
  if is_playlist_url url
  then _download_playlist_process self url output_dir audio_only
  else _download_video_process self url output_dir audio_only.

(** The function [run] inside [download_content], executed by the
    thread [current_thread]. *)
Definition run (self : PlaylistDownloader) (url output_dir : string)
    (audio_only : bool) (current_thread : thread) : M unit :=
  try_run current_thread
    (run_body self url output_dir audio_only current_thread).

(** [PlaylistDownloader.download_content]: creates and starts the
    thread that will execute [run], and returns it. *)
Definition download_content (url output_dir : string) (audio_only : bool)
    (w : world) : thread * world :=
  (length (threads w),
   with_threads (threads w ++ [MkRequest url output_dir audio_only]) w).

(** *** [PlaylistDownloaderGUI] *)

(** [PlaylistDownloaderGUI.clear_log] *)
Definition clear_log (w : world) : world :=
  with_progress_var (PyInt 0)
    (with_output_text_state DISABLED
       (with_output_text [] (with_output_text_state NORMAL w))).

(** [PlaylistDownloaderGUI.validate_url] *)
Definition validate_url (w : world) : world :=
  let url := strip (url_var w) in
  if nonempty url && is_valid_youtube_url url then
    let w1 := with_download_btn NORMAL w in
    if is_playlist_url url
    then with_status_var "Ready to download playlist." w1
    else with_status_var "Ready to download video." w1
  else
    let w1 := with_download_btn DISABLED w in
    if nonempty url
    then with_status_var "Enter a valid YouTube URL." w1
    else with_status_var "Enter a YouTube playlist or video URL." w1.

(** Writing the URL entry: the ['write'] trace runs [validate_url]. *)
Definition url_var_set (s : string) (w : world) : world :=
  validate_url (with_url_var s w).

(** [PlaylistDownloaderGUI.start_download] *)
Definition start_download (w : world) : world :=
  let url := strip (url_var w) in
  let output_dir :=
    if nonempty (strip (dir_var w)) then strip (dir_var w) else "downloads" in
  let audio_only := (audio_var w =? 1)%Z in
  if negb (nonempty url) then
    showerror "Error" "Please enter a YouTube URL." w
  else if negb (is_valid_youtube_url url) then
    showerror "Error" "Please enter a valid YouTube URL." w
  else
    let content_type := if is_playlist_url url then "playlist" else "video" in
    let w1 := print ("Starting " ++ content_type ++ " download...") w in
    let w2 := with_download_btn DISABLED w1 in
    let w3 := with_progress_var (PyInt 0) w2 in
    let w4 := with_status_var ("Downloading " ++ content_type ++ "...") w3 in
    let w5 := with_stop_flag false w4 in
    snd (download_content url output_dir audio_only w5).

(** [PlaylistDownloaderGUI.stop_download] *)
Definition stop_download (w : world) : world :=
  with_status_var "Stopping current download..."
    (print "Stopping current download..." (with_stop_flag true w)).

(** [PlaylistDownloaderGUI.stop_all_downloads] *)
Definition stop_all_downloads (w : world) : world :=
  let w1 := with_stop_flag true w in
  match active_downloads w1 with
  | _ :: _ =>
      let msg :=
        "Stopping " ++ pretty (length (active_downloads w1)) ++
        " active download(s)..." in
      let w2 := with_status_var msg (print msg w1) in
      let w3 := with_active_downloads [] w2 in
      let w4 := with_download_btn NORMAL w3 in
      let w5 := with_progress_var (PyInt 0) w4 in
      let w6 := with_progress_label_var "Progress: 0/0" w5 in
      with_status_var "All downloads stopped." (print "All downloads stopped." w6)
  | [] =>
      with_status_var "No active downloads to stop."
        (print "No active downloads to stop." w1)
  end.

(** The window as [__init__] and [create_widgets] leave it. *)
Definition initial_world : world :=
  MkWorld false [] "" "" 0 (PyFloat (S754_zero false)) "Progress: 0/0" "Ready."
    DISABLED [] DISABLED [] [] [] [].

End Program.

(* ================================================================== *)
(** ** Sample surroundings *)
(* ================================================================== *)

(** [s.endswith("/")] *)
Fixpoint ends_with_slash (s : string) : bool :=
  match s with
  | EmptyString => false
  | String c EmptyString => Ascii.eqb c "/"
  | String _ s' => ends_with_slash s'
  end.

(** [posixpath.join(a, b)] *)
Definition posix_join (a b : string) : string :=
  if startswith b "/" then b
  else if negb (nonempty a) || ends_with_slash a then a ++ b
  else a ++ "/" ++ b.

(** Text of the shape [dd:dd], two decimal digits on each side. *)
Definition is_digit (c : ascii) : bool :=
  let n := N_of_ascii c in ((48 <=? n) && (n <=? 57))%N.

Definition is_mm_ss (s : string) : bool :=
  match s with
  | String a (String b (String c (String d (String e EmptyString)))) =>
      is_digit a && is_digit b && Ascii.eqb c ":" && is_digit d && is_digit e
  | _ => false
  end.

(** One possible behaviour of the surroundings, to run the program on:
    a directory that exists, metadata with a title and three entries, and
    a library that reports one finished transfer to the first hook. *)
Definition sample_repr (x : PyFloat.float) : string := PyFloat.format_f 0 1 x.

Definition sample_info (flat : bool) (url : string) : result info_dict :=
  Ok (MkInfo {[ "title" := PyStr "Sample" ]}
        (if flat then Some [∅; ∅; ∅] else None)).

Definition finished_event : dict := {[ "status" := PyStr "finished" ]}.

(** A progress event with byte counts and nothing else, and one that
    also carries a speed and an ETA. *)
Definition bare_event : dict :=
  {[ "status" := PyStr "downloading";
     "downloaded_bytes" := PyInt 512;
     "total_bytes" := PyInt 2048 ]}.

Definition full_event : dict :=
  {[ "status" := PyStr "downloading";
     "downloaded_bytes" := PyInt 512;
     "total_bytes" := PyInt 2048;
     "speed" := PyFloat (PyFloat.of_Z 3145728);
     "eta" := PyInt 125 ]}.

Definition sample_download (opts : ydl_opts) (urls : list string) : M unit :=
  match progress_hooks opts with
  | hook :: _ => hook finished_event
  | [] => ret tt
  end.

(** A library that reports the finished transfer and then logs the
    merge of the two streams, as it does for a video. *)
Definition sample_video_download (opts : ydl_opts) (urls : list string) : M unit :=
  sample_download opts urls ;;
  debug (logger opts) "[Merger] Merging formats into clip.mp4".

Definition sample_self : PlaylistDownloader := MkDownloader "ffmpeg.exe".

Definition sample_run (url : string) (audio_only : bool) (t : thread) : M unit :=
  run sample_repr posix_join (fun p => p) (fun _ => true) (fun _ => Ok tt)
    sample_info sample_download sample_self url "downloads" audio_only t.

Definition sample_video_run (download : ydl_opts -> list string -> M unit)
    (t : thread) : M unit :=
  run sample_repr posix_join (fun p => p) (fun _ => true) (fun _ => Ok tt)
    sample_info download sample_self "https://youtu.be/abc123" "downloads"
    false t.

(** The window after the user typed a short link and chose audio, after
    the download button was pressed, and after the sample thread ran to
    its end. *)
Definition sample_entry : world :=
  with_audio_var 1 (url_var_set "https://youtu.be/abc123" initial_world).

Definition sample_started : world := start_download sample_entry.

Definition sample_done : world :=
  snd (sample_run "https://youtu.be/abc123" true 0%nat sample_started).

(* ================================================================== *)
(** ** Vocabulary for the statements *)
(* ================================================================== *)

(** Every run of [m] relates the window before to the window after. *)
Definition respects {A : Type} (R : world -> world -> Prop) (m : M A) : Prop :=
  forall w r w', m w = (r, w') -> R w w'.

(** Whatever [m] raises satisfies [P]. *)
Definition only_raises {A : Type} (P : exn -> Prop) (m : M A) : Prop :=
  forall w e w', m w = (Raise e, w') -> P e.

Definition only_raises_pure {A : Type} (P : exn -> Prop) (r : result A) : Prop :=
  forall e, r = Raise e -> P e.

(** The exceptions of the interpreter's own operations, as opposed to
    the plain [Exception] the progress hook raises. *)
Definition builtin (e : exn) : Prop := exn_class e <> "Exception".

(** The condition a progress hook raises on a stop request. *)
Definition stopped_by_user : exn := Exception "Download stopped by user.".

(** The seconds from 1 to 5999, the ETAs below a hundred minutes. *)
Definition short_etas : list Z := map Z.of_nat (seq 1 (Z.to_nat 5999)).

(** The item counter and the progress label are left alone. *)
Definition same_count (w w' : world) : Prop :=
  counters w' = counters w /\ progress_label_var w' = progress_label_var w.

(* ================================================================== *)
(** ** [ToolTip] *)
(* ================================================================== *)

Module ToolTip.
Import Text Py.

(** A [Toplevel] window of a tip: where it was placed and what its
    label reads. *)
Record toplevel : Type := MkToplevel {
  geometry : string;
  label_text : string
}.

(** A [ToolTip] object and the tip windows alive on the screen. *)
Record tip : Type := MkTip {
  text : string;
  tipwindow : option nat;          (* self.tipwindow *)
  windows : gmap nat toplevel;     (* the Toplevel windows not destroyed *)
  created : nat                    (* how many were ever created *)
}.

(** What the widget answers when asked: [widget.bbox("insert")], of
    which the first two numbers are used, [winfo_rootx()] and
    [winfo_rooty()]. *)
Record widget_place : Type := MkPlace {
  bbox : result (Z * Z);
  winfo_rootx : Z;
  winfo_rooty : Z
}.

(** [ToolTip.__init__] *)
Definition init (text : string) : tip := MkTip text None ∅ 0.

(** [ToolTip.show_tip] *)
Definition show_tip (place : widget_place) (self : tip) : result unit * tip :=
  match tipwindow self with
  | Some _ => (Ok tt, self)
  | None =>
      if negb (nonempty (text self)) then (Ok tt, self)
      else
        match bbox place with
        | Raise e => (Raise e, self)
        | Ok (bx, by_) =>
            let x := (bx + winfo_rootx place + 25)%Z in
            let y := (by_ + winfo_rooty place + 20)%Z in
            let tw := created self in
            (Ok tt,
             MkTip (text self) (Some tw)
               (<[tw := MkToplevel ("+" ++ pretty x ++ "+" ++ pretty y)
                         (text self)]> (windows self))
               (S tw))
        end
  end.

(** [ToolTip.hide_tip] *)
Definition hide_tip (self : tip) : tip :=
  match tipwindow self with
  | Some tw => MkTip (text self) None (delete tw (windows self)) (created self)
  | None => MkTip (text self) None (windows self) (created self)
  end.

(** The pointer entering ([<Enter>]) or leaving ([<Leave>]) the
    widget. *)
Inductive pointer : Type :=
| Enter : widget_place -> pointer
| Leave : pointer.

Definition handle (self : tip) (ev : pointer) : tip :=
  match ev with
  | Enter place => snd (show_tip place self)
  | Leave => hide_tip self
  end.

(** The tip after a run of pointer events. *)
Definition after (evs : list pointer) (self : tip) : tip :=
  fold_left handle evs self.

(** What a tip built with [txt] looks like between two events: either
    it holds no window and none is alive, or it holds the one window
    alive, whose label is [txt]. *)
Definition consistent (txt : string) (self : tip) : Prop :=
  text self = txt /\
  match tipwindow self with
  | Some tw =>
      txt <> "" /\ (tw < created self)%nat /\
      exists g, windows self = {[ tw := MkToplevel g txt ]}
  | None => windows self = ∅
  end.

End ToolTip.

(* ================================================================== *)
(** ** More vocabulary: what a callback leaves alone *)
(* ================================================================== *)

(** The controls of the window: everything apart from the bar, the log,
    the item counters and the progress label. *)
Definition same_controls (w w' : world) : Prop :=
  stop_flag w' = stop_flag w /\
  active_downloads w' = active_downloads w /\
  url_var w' = url_var w /\
  dir_var w' = dir_var w /\
  audio_var w' = audio_var w /\
  status_var w' = status_var w /\
  download_btn w' = download_btn w /\
  dialogs w' = dialogs w /\
  stdout w' = stdout w /\
  threads w' = threads w.

(** The log keeps what it held and may have grown. *)
Definition log_grows (w w' : world) : Prop :=
  exists more, output_text w' = (output_text w ++ more)%list.

(** Every character is white space. *)
Fixpoint all_space (s : string) : bool :=
  match s with
  | EmptyString => true
  | String c s' => isspace c && all_space s'
  end.

(** No character of the list occurs in the string. *)
Fixpoint free_of (cs : list ascii) (s : string) : bool :=
  match s with
  | EmptyString => true
  | String c s' => negb (mem_char c cs) && free_of cs s'
  end.

(* ================================================================== *)
(** ** The calls the media library makes into a task *)
(* ================================================================== *)

(** One call into the callbacks a task hands over: a progress event for
    the hook, or a line for one of the three entry points of the
    logger. *)
Inductive callback : Type :=
| OnProgress (d : dict)
| OnDebug (msg : string)
| OnWarning (msg : string)
| OnError (msg : string).

(** The call [c] made on the hook and the logger of the task that owns
    the counter [vc]. *)
Definition deliver (float_repr : PyFloat.float -> string) (audio_only : bool)
    (vc : counter_ref) (total : Z) (c : callback) : M unit :=
  let lg := MkLogger (Some vc) (Some ProgressLabelVar) (Some total) audio_only in
  match c with
  | OnProgress d => progress_hook float_repr audio_only vc total d
  | OnDebug msg => debug lg msg
  | OnWarning msg => warning lg msg
  | OnError msg => error lg msg
  end.

(** The calls of a list one after the other, up to the first that
    raises. *)
Fixpoint deliver_all (float_repr : PyFloat.float -> string) (audio_only : bool)
    (vc : counter_ref) (total : Z) (cs : list callback) : M unit :=
  match cs with
  | [] => ret tt
  | c :: cs' =>
      bind (deliver float_repr audio_only vc total c)
        (fun _ => deliver_all float_repr audio_only vc total cs')
  end.

(** The calls that stand for one item done: a finished event in audio
    mode, a debug line that starts with the merger text in video mode. *)
Definition counted (audio_only : bool) (c : callback) : bool :=
  match c with
  | OnProgress d =>
      audio_only &&
      match d !! "status" with
      | Some status => eq_str status "finished"
      | None => false
      end
  | OnDebug msg => negb audio_only && startswith msg merger_line
  | OnWarning _ | OnError _ => false
  end.

(* ================================================================== *)
(** ** Two ways a media library may treat a failing hook *)
(* ================================================================== *)



(* ================================================================== *)
(** * Theorems *)
(* ================================================================== *)

(** ** Strings *)

Lemma append_nil_l (s : string) : "" ++ s = s.
Proof. reflexivity. Qed.

Lemma append_cons (c : ascii) (s t : string) :
  String c s ++ t = String c (s ++ t).
Proof. reflexivity. Qed.

Ltac str_simpl :=
  repeat (rewrite append_cons in * || rewrite append_nil_l in *); simpl in *.

Lemma append_nil_r (s : string) : s ++ "" = s.
Proof. induction s as [|c s IH]; str_simpl; [reflexivity | now rewrite IH]. Qed.

Lemma append_assoc (a b c : string) : (a ++ b) ++ c = a ++ (b ++ c).
Proof. induction a as [|x a IH]; str_simpl; [reflexivity | now rewrite IH]. Qed.

Lemma append_eq_nil (a b : string) : a ++ b = "" -> a = "" /\ b = "".
Proof. destruct a; str_simpl; [auto | discriminate]. Qed.

Lemma ascii_eqb_true (a b : ascii) : Ascii.eqb a b = true <-> a = b.
Proof. apply Ascii.eqb_eq. Qed.

Lemma startswith_spec (s p : string) :
  startswith s p = true <-> exists t, s = p ++ t.
Proof.
  revert s. induction p as [|a p IH]; intros s; simpl.
  - split; [intros _; now exists s | reflexivity].
  - destruct s as [|b s].
    + split; [discriminate | intros [t Ht]; discriminate].
    + rewrite andb_true_iff, ascii_eqb_true, IH. split.
      * intros [-> [t ->]]. now exists t.
      * intros [t Ht]. injection Ht as -> ->. split; [reflexivity | now exists t].
Qed.

Lemma str_in_spec (needle hay : string) :
  str_in needle hay = true <-> exists pre post, hay = pre ++ needle ++ post.
Proof.
  induction hay as [|c hay IH]; simpl.
  - rewrite orb_false_r, startswith_spec. split.
    + intros [t Ht]. now exists "", t.
    + intros [pre [post H]]. symmetry in H.
      apply append_eq_nil in H as [-> H]. exists post. now symmetry.
  - rewrite orb_true_iff, startswith_spec, IH. split.
    + intros [[t Ht] | [pre [post H]]].
      * now exists "", t.
      * exists (String c pre), post. simpl. now rewrite H.
    + intros [[|x pre] [post H]]; simpl in H.
      * left. now exists post.
      * right. injection H as -> H. now exists pre, post.
Qed.

Lemma lower_app (a b : string) : lower (a ++ b) = lower a ++ lower b.
Proof. induction a as [|c a IH]; simpl; [reflexivity | now rewrite IH]. Qed.

(** ** Patterns *)

Import Re.

Lemma nullable_spec (r : regex) : nullable r = true <-> Matches r "".
Proof.
  induction r; simpl.
  - split; [discriminate | inversion 1].
  - split; [constructor | reflexivity].
  - split; [discriminate | inversion 1].
  - split; [discriminate | inversion 1].
  - split; [discriminate | inversion 1].
  - rewrite andb_true_iff, IHr1, IHr2. split.
    + intros [H1 H2]. change "" with ("" ++ ""). now constructor.
    + inversion 1 as [| | | |? ? s1 s2 H1 H2 E| | | |]; subst.
      match goal with H : _ ++ _ = "" |- _ => apply append_eq_nil in H as [-> ->] end.
      now split.
  - rewrite orb_true_iff, IHr1, IHr2. split.
    + intros [H | H]; [now apply MAltL | now apply MAltR].
    + inversion 1; subst; auto.
  - split; [constructor | reflexivity].
Qed.

Lemma deriv_sound (c : ascii) (r : regex) (s : string) :
  Matches (deriv c r) s -> Matches r (String c s).
Proof.
  revert s. induction r; intros s; simpl.
  - inversion 1.
  - inversion 1.
  - destruct (Ascii.eqb a c) eqn:E; [|inversion 1].
    apply ascii_eqb_true in E as ->. inversion 1. constructor.
  - destruct (Ascii.eqb c newline) eqn:E; [inversion 1|].
    inversion 1. constructor. intros ->. now rewrite Ascii.eqb_refl in E.
  - destruct (mem_char c l) eqn:E; [|inversion 1].
    inversion 1. now constructor.
  - destruct (nullable r1) eqn:N.
    + inversion 1 as [| | | | |? ? ? H1|? ? ? H1| |]; subst.
      * inversion H1; subst. rewrite <- append_cons. constructor; auto.
      * rewrite <- (append_nil_l (String c s)). constructor; auto.
        now apply nullable_spec.
    + inversion 1; subst. rewrite <- append_cons. constructor; auto.
  - inversion 1; subst; [apply MAltL | apply MAltR]; auto.
  - inversion 1; subst. rewrite <- append_cons. apply MStarApp; auto.
Qed.

Lemma deriv_complete (c : ascii) (r : regex) (s : string) :
  Matches r (String c s) -> Matches (deriv c r) s.
Proof.
  intros H. remember (String c s) as t eqn:Et. revert c s Et.
  induction H; intros c0 s0 Et; simpl.
  - discriminate.
  - injection Et as -> <-. rewrite Ascii.eqb_refl. constructor.
  - injection Et as -> <-.
    destruct (Ascii.eqb c0 newline) eqn:E; [|constructor].
    apply ascii_eqb_true in E. contradiction.
  - injection Et as -> <-. rewrite H. constructor.
  - destruct s1 as [|x s1]; simpl in Et.
    + assert (N : nullable r1 = true) by now apply nullable_spec.
      rewrite N. apply MAltR. now apply IHMatches2.
    + injection Et as -> <-.
      destruct (nullable r1); [apply MAltL|]; constructor; auto.
  - apply MAltL. auto.
  - apply MAltR. auto.
  - discriminate.
  - destruct s1 as [|x s1]; simpl in Et.
    + now apply IHMatches2.
    + injection Et as -> <-. constructor; auto.
Qed.

Lemma fullmatch_spec (r : regex) (s : string) :
  fullmatch r s = true <-> Matches r s.
Proof.
  revert r. induction s as [|c s IH]; intros r; simpl.
  - apply nullable_spec.
  - rewrite IH. split; [apply deriv_sound | apply deriv_complete].
Qed.

Lemma match_spec (r : regex) (s : string) :
  match_ r s = true <-> exists s1 s2, s = s1 ++ s2 /\ Matches r s1.
Proof.
  revert r. induction s as [|c s IH]; intros r; simpl.
  - rewrite orb_false_r, nullable_spec. split.
    + intros H. now exists "", "".
    + intros [s1 [s2 [E H]]]. symmetry in E.
      apply append_eq_nil in E as [-> _]. exact H.
  - rewrite orb_true_iff, nullable_spec, IH. split.
    + intros [H | [s1 [s2 [-> H]]]].
      * now exists "", (String c s).
      * exists (String c s1), s2. split; [reflexivity | now apply deriv_sound].
    + intros [[|x s1] [s2 [E H]]]; simpl in E.
      * now left.
      * injection E as -> ->. right. exists s1, s2.
        split; [reflexivity | now apply deriv_complete].
Qed.

Lemma search_nil (r : regex) : search r "" = match_ r "".
Proof. unfold search. apply orb_false_r. Qed.

Lemma search_cons (r : regex) (c : ascii) (s : string) :
  search r (String c s) = match_ r (String c s) || search r s.
Proof. reflexivity. Qed.

Lemma search_spec (r : regex) (s : string) :
  search r s = true <->
  exists pre mid post, s = pre ++ mid ++ post /\ Matches r mid.
Proof.
  induction s as [|c s IH].
  - rewrite search_nil, match_spec. split.
    + intros [s1 [s2 [E H]]]. now exists "", s1, s2.
    + intros [pre [mid [post [E H]]]]. symmetry in E.
      apply append_eq_nil in E as [-> E]. exists mid, post. now split.
  - rewrite search_cons, orb_true_iff, match_spec, IH. split.
    + intros [[s1 [s2 [E H]]] | [pre [mid [post [E H]]]]].
      * now exists "", s1, s2.
      * exists (String c pre), mid, post. rewrite append_cons. now rewrite E.
    + intros [[|x pre] [mid [post [E H]]]]; str_simpl.
      * left. now exists mid, post.
      * injection E as -> E. right. now exists pre, mid, post.
Qed.

Lemma Matches_lits (w s : string) : Matches (lits w) s <-> s = w.
Proof.
  revert s. induction w as [|c w IH]; intros s; simpl.
  - split; [inversion 1; reflexivity | intros ->; constructor].
  - split.
    + inversion 1 as [| | | |? ? s1 s2 H1 H2| | | |]; subst.
      inversion H1; subst. apply IH in H2 as ->. reflexivity.
    + intros ->. change (String c w) with (String c "" ++ w).
      constructor; [constructor | now apply IH].
Qed.

Lemma search_lits (w s : string) : search (lits w) s = str_in w s.
Proof.
  apply eq_true_iff_eq. rewrite search_spec, str_in_spec. split.
  - intros [pre [mid [post [E H]]]]. apply Matches_lits in H as ->. now exists pre, post.
  - intros [pre [post E]]. exists pre, w, post. split; [exact E | now apply Matches_lits].
Qed.

Lemma str_in_app_l (a b s : string) :
  str_in (a ++ b) s = true -> str_in a s = true.
Proof.
  rewrite !str_in_spec. intros [pre [post E]].
  exists pre, (b ++ post). now rewrite E, (append_assoc a b post).
Qed.

Lemma str_in_app_r (a b s : string) :
  str_in (a ++ b) s = true -> str_in b s = true.
Proof.
  rewrite !str_in_spec. intros [pre [post E]].
  exists (pre ++ a), post.
  now rewrite E, (append_assoc a b post), (append_assoc pre a (b ++ post)).
Qed.

Lemma search_lits_prefix (w : string) (r : regex) (s : string) :
  search (Cat (lits w) r) s = true -> str_in w s = true.
Proof.
  rewrite search_spec, str_in_spec. intros [pre [mid [post [E H]]]].
  inversion H as [| | | |? ? s1 s2 H1 H2| | | |]; subst.
  apply Matches_lits in H1 as ->.
  exists pre, (s2 ++ post). now rewrite (append_assoc w s2 post).
Qed.

Lemma str_in_nl_cons (c : ascii) (s : string) :
  str_in nl (String c s) = Ascii.eqb newline c || str_in nl s.
Proof.
  change (str_in nl (String c s))
    with ((Ascii.eqb newline c && true) || str_in nl s).
  now rewrite andb_true_r.
Qed.

Lemma Matches_star_dot (s : string) :
  Matches (Star Dot) s <-> str_in nl s = false.
Proof.
  split.
  - intros H. remember (Star Dot) as r eqn:Er. induction H; try discriminate.
    + reflexivity.
    + injection Er as ->. inversion H; subst. rewrite append_cons, append_nil_l.
      rewrite str_in_nl_cons, IHMatches2 by reflexivity.
      destruct (Ascii.eqb newline c) eqn:E; [|reflexivity].
      apply ascii_eqb_true in E. congruence.
  - induction s as [|c s IH]; intros H.
    + constructor.
    + rewrite str_in_nl_cons in H. apply orb_false_iff in H as [H1 H2].
      rewrite <- (append_nil_l s), <- append_cons. apply MStarApp; [|now apply IH].
      constructor. intros ->. now rewrite Ascii.eqb_refl in H1.
Qed.

(** ** The URL classifier *)

Lemma is_valid_markers (url : string) :
  is_valid_youtube_url url = true ->
  str_in "youtube.com/" (lower url) = true \/
  str_in "youtu.be/" (lower url) = true.
Proof.
  unfold is_valid_youtube_url, youtube_patterns. simpl.
  rewrite !orb_true_iff.
  unfold pat_watch, pat_playlist, pat_short, pat_mobile.
  rewrite !search_lits.
  intros [H | [H | [H | [H | [H | H]]]]]; try discriminate.
  - left. now apply (str_in_app_l "youtube.com/" "watch?v=").
  - left. now apply (str_in_app_l "youtube.com/" "playlist?list=").
  - now right.
  - left. now apply search_lits_prefix in H.
  - left. now apply (str_in_app_r "m." "youtube.com/").
Qed.

Lemma is_valid_of_search (p : regex) (url : string) :
  In p youtube_patterns -> search p (lower url) = true ->
  is_valid_youtube_url url = true.
Proof.
  intros Hin Hs. unfold is_valid_youtube_url. apply existsb_exists.
  exists p. now split.
Qed.

Lemma is_valid_of_literal (w : string) (url pre post : string) :
  In (lits w) youtube_patterns -> lower url = pre ++ w ++ post ->
  is_valid_youtube_url url = true.
Proof.
  intros Hin E. apply (is_valid_of_search (lits w)); [exact Hin|].
  rewrite search_lits. apply str_in_spec. now exists pre, post.
Qed.

Lemma Matches_pat_list (mid : string) (c : ascii) :
  str_in nl mid = false -> c = "?"%char \/ c = "&"%char ->
  Matches pat_list ("youtube.com/" ++ mid ++ String c "list=").
Proof.
  intros Hmid Hc. unfold pat_list.
  constructor; [now apply Matches_lits|].
  constructor; [now apply Matches_star_dot|].
  rewrite <- (append_nil_l "list="), <- append_cons.
  constructor; [|now apply Matches_lits].
  constructor. destruct Hc as [-> | ->]; reflexivity.
Qed.

(** C9. [is_valid_youtube_url] rejects every URL that, lowercased,
    contains neither of the platform markers [youtube.com/] and
    [youtu.be/] (for instance [https://example.com/abc]), and accepts
    every URL that contains one of the five documented shapes: watch
    page, playlist page, short link, a query with a [list] parameter
    after the domain on the same line, and the mobile domain. *)
Theorem is_valid_youtube_url_markers_and_shapes :
  (forall url,
      str_in "youtube.com/" (lower url) = false ->
      str_in "youtu.be/" (lower url) = false ->
      is_valid_youtube_url url = false) /\
  is_valid_youtube_url "https://example.com/abc" = false /\
  (forall url pre post,
      lower url = pre ++ "youtube.com/watch?v=" ++ post ->
      is_valid_youtube_url url = true) /\
  (forall url pre post,
      lower url = pre ++ "youtube.com/playlist?list=" ++ post ->
      is_valid_youtube_url url = true) /\
  (forall url pre post,
      lower url = pre ++ "youtu.be/" ++ post ->
      is_valid_youtube_url url = true) /\
  (forall url pre mid c post,
      lower url = pre ++ "youtube.com/" ++ mid ++ String c ("list=" ++ post) ->
      str_in nl mid = false -> c = "?"%char \/ c = "&"%char ->
      is_valid_youtube_url url = true) /\
  (forall url pre post,
      lower url = pre ++ "m.youtube.com/" ++ post ->
      is_valid_youtube_url url = true) /\
  is_valid_youtube_url "https://www.youtube.com/watch?v=abc123" = true /\
  is_valid_youtube_url "https://youtu.be/abc123" = true /\
  is_valid_youtube_url "https://www.youtube.com/playlist?list=XYZ" = true.
Proof.
  repeat apply conj; try reflexivity.
  - intros url H1 H2. destruct (is_valid_youtube_url url) eqn:V; [|reflexivity].
    apply is_valid_markers in V as [V | V]; congruence.
  - intros url pre post E.
    apply (is_valid_of_literal "youtube.com/watch?v=" url pre post); [|exact E].
    simpl. auto.
  - intros url pre post E.
    apply (is_valid_of_literal "youtube.com/playlist?list=" url pre post); [|exact E].
    simpl. auto.
  - intros url pre post E.
    apply (is_valid_of_literal "youtu.be/" url pre post); [|exact E].
    simpl. auto.
  - intros url pre mid c post E Hmid Hc.
    apply (is_valid_of_search pat_list); [simpl; auto|].
    apply search_spec.
    exists pre, ("youtube.com/" ++ mid ++ String c "list="), post.
    split; [|now apply Matches_pat_list].
    rewrite E, !append_assoc. reflexivity.
  - intros url pre post E.
    apply (is_valid_of_literal "m.youtube.com/" url pre post); [|exact E].
    simpl. auto 6.
Qed.

Lemma is_valid_youtube_url_markers_and_shapes_witness :
  is_valid_youtube_url "HTTP://Example.org/Watch" = false /\
  is_valid_youtube_url "https://www.YouTube.com/watch?v=dQw4w9WgXcQ" = true /\
  is_valid_youtube_url "https://www.youtube.com/embed/x?t=1&LIST=PL1" = true /\
  is_valid_youtube_url "m.youtube.com/" = true.
Proof.
  destruct is_valid_youtube_url_markers_and_shapes
    as (Hno & _ & Hwatch & _ & _ & Hlist & Hmobile & _).
  split; [apply Hno; reflexivity|].
  split; [apply (Hwatch _ "https://www." "dqw4w9wgxcq"); reflexivity|].
  split; [apply (Hlist _ "https://www." "embed/x?t=1" "&"%char "pl1");
          [reflexivity | reflexivity | now right]|].
  apply (Hmobile _ "" ""); reflexivity.
Defined.

(** The claim as the specification words it: every URL of a
    single-video shape is classified as not a collection.  A watch-page
    URL without any [list] parameter whose video id spells [playlist]
    is a counterexample. *)
Lemma is_playlist_url_single_video_counterexample :
  ~ (forall url,
        single_video_pattern url = true ->
        str_in "list=" (lower url) = false ->
        is_playlist_url url = false).
Proof.
  intros H.
  specialize (H "https://www.youtube.com/watch?v=playlistABC" eq_refl eq_refl).
  discriminate H.
Qed.

(** C2 (amended). [is_playlist_url] answers true exactly for the URLs
    that contain [playlist] or [list=] once lowercased, whatever else
    the URL looks like; so a URL of a single-video shape gets false when
    it contains neither marker, and true when it contains one. *)
Theorem is_playlist_url_markers :
  (forall url,
      is_playlist_url url = true <->
      (exists pre post, lower url = pre ++ "playlist" ++ post) \/
      (exists pre post, lower url = pre ++ "list=" ++ post)) /\
  (forall url,
      single_video_pattern url = true ->
      (forall pre post, lower url <> pre ++ "playlist" ++ post) ->
      (forall pre post, lower url <> pre ++ "list=" ++ post) ->
      is_playlist_url url = false) /\
  is_playlist_url "https://www.youtube.com/watch?v=abc123" = false /\
  is_playlist_url "https://youtu.be/abc123" = false /\
  is_playlist_url "https://www.youtube.com/watch?v=abc123&list=XYZ" = true.
Proof.
  assert (H : forall url,
             is_playlist_url url = true <->
             (exists pre post, lower url = pre ++ "playlist" ++ post) \/
             (exists pre post, lower url = pre ++ "list=" ++ post)).
  { intros url. unfold is_playlist_url. now rewrite orb_true_iff, !str_in_spec. }
  repeat apply conj; try reflexivity; [exact H|].
  intros url _ H1 H2. destruct (is_playlist_url url) eqn:E; [|reflexivity].
  apply H in E as [[pre [post E]] | [pre [post E]]].
  - now apply H1 in E.
  - now apply H2 in E.
Qed.

Lemma is_playlist_url_markers_witness :
  is_playlist_url "https://www.YouTube.com/PlayList?x=1" = true /\
  is_playlist_url "https://youtu.be/abc?LIST=PL9" = true.
Proof.
  destruct is_playlist_url_markers as (Hiff & _).
  split; [apply Hiff; left; now exists "https://www.youtube.com/", "?x=1"|].
  apply Hiff; right; now exists "https://youtu.be/abc?", "pl9".
Defined.

(** ** File names *)

Lemma sub_class_nil_clean (cs : list ascii) (s : string) (c : ascii) :
  mem_char c cs = true -> ~ In c (list_ascii_of_string (sub_class cs "" s)).
Proof.
  intros Hc. induction s as [|x s IH]; simpl; [tauto|].
  destruct (mem_char x cs) eqn:E.
  - now rewrite append_nil_l.
  - simpl. intros [-> | H]; [congruence | contradiction].
Qed.

Lemma sub_class_nil_idem (cs : list ascii) (s : string) :
  sub_class cs "" (sub_class cs "" s) = sub_class cs "" s.
Proof.
  induction s as [|x s IH]; simpl; [reflexivity|].
  destruct (mem_char x cs) eqn:E.
  - now rewrite append_nil_l.
  - simpl. now rewrite E, IH.
Qed.

Lemma mem_char_In (c : ascii) (cs : list ascii) :
  mem_char c cs = true <-> In c cs.
Proof.
  unfold mem_char. rewrite existsb_exists. split.
  - intros [x [Hin E]]. apply ascii_eqb_true in E as ->. exact Hin.
  - intros Hin. exists c. split; [exact Hin | apply Ascii.eqb_refl].
Qed.

(** C6. [sanitize_filename] is idempotent, and its result holds none of
    the nine forbidden characters. *)
Theorem sanitize_filename_idempotent_and_clean :
  forall s : string,
    sanitize_filename (sanitize_filename s) = sanitize_filename s /\
    forall c : ascii,
      In c forbidden -> ~ In c (list_ascii_of_string (sanitize_filename s)).
Proof.
  intros s. split.
  - apply sub_class_nil_idem.
  - intros c Hc. apply sub_class_nil_clean. now apply mem_char_In.
Qed.

(** ** Stripping keeps a URL's classification *)

Lemma lstrip_suffix (s : string) : exists a, s = a ++ lstrip s.
Proof.
  induction s as [|c s [a IH]]; simpl.
  - now exists "".
  - destruct (isspace c).
    + exists (String c a). now rewrite append_cons, <- IH.
    + now exists "".
Qed.

Lemma rstrip_prefix (s : string) : exists b, s = rstrip s ++ b.
Proof.
  induction s as [|c s [b IH]]; simpl.
  - now exists "".
  - destruct (rstrip s) as [|x r] eqn:E.
    + destruct (isspace c).
      * exists (String c s). reflexivity.
      * exists b. rewrite append_cons. now rewrite IH at 1.
    + exists b. rewrite append_cons. now rewrite IH at 1.
Qed.

Lemma strip_infix (s : string) : exists a b, s = a ++ strip s ++ b.
Proof.
  unfold strip. destruct (lstrip_suffix s) as [a Ha].
  destruct (rstrip_prefix (lstrip s)) as [b Hb].
  exists a, b. now rewrite <- Hb.
Qed.

Lemma search_infix (r : regex) (a t b : string) :
  search r t = true -> search r (a ++ t ++ b) = true.
Proof.
  rewrite !search_spec. intros [pre [mid [post [-> H]]]].
  exists (a ++ pre), mid, (post ++ b). split; [|exact H].
  now rewrite !append_assoc.
Qed.

Lemma is_valid_strip (s : string) :
  is_valid_youtube_url (strip s) = true -> is_valid_youtube_url s = true.
Proof.
  unfold is_valid_youtube_url. rewrite !existsb_exists.
  intros [p [Hin Hs]]. exists p. split; [exact Hin|].
  destruct (strip_infix s) as [a [b E]].
  rewrite E at 1. rewrite !lower_app. now apply search_infix.
Qed.

Lemma strip_nil : strip "" = "".
Proof. reflexivity. Qed.

(** An entry that is empty or invalid as typed is so after stripping. *)
Lemma rejected_as_typed (s : string) :
  s = "" \/ is_valid_youtube_url s = false ->
  strip s = "" \/ is_valid_youtube_url (strip s) = false.
Proof.
  intros [-> | H]; [now left | right].
  destruct (is_valid_youtube_url (strip s)) eqn:V; [|reflexivity].
  apply is_valid_strip in V. congruence.
Qed.

(** ** The buttons *)

Lemma nonempty_false (s : string) : nonempty s = false <-> s = "".
Proof. destruct s; simpl; split; congruence. Qed.

(** C7. A start request whose URL (the entry, stripped) is empty or is
    not a valid URL only shows an error dialog: no thread is created,
    the registry of active downloads and every other part of the window
    stay as they were. *)
Theorem start_download_rejects_bad_url :
  forall w : world,
    strip (url_var w) = "" \/ is_valid_youtube_url (strip (url_var w)) = false ->
    let message :=
      if nonempty (strip (url_var w)) then "Please enter a valid YouTube URL."
      else "Please enter a YouTube URL." in
    start_download w = showerror "Error" message w /\
    threads (start_download w) = threads w /\
    active_downloads (start_download w) = active_downloads w /\
    stop_flag (start_download w) = stop_flag w /\
    dialogs (start_download w) = (dialogs w ++ [("Error", message)])%list.
Proof.
  intros w H message. subst message. unfold start_download.
  destruct (nonempty (strip (url_var w))) eqn:N; simpl.
  - destruct H as [H | H].
    + rewrite H in N. discriminate.
    + rewrite H. simpl. auto.
  - auto.
Qed.

Lemma start_download_rejects_bad_url_witness :
  start_download (with_url_var "  https://example.com/abc  " initial_world) =
  showerror "Error" "Please enter a valid YouTube URL."
    (with_url_var "  https://example.com/abc  " initial_world) /\
  threads (start_download
             (with_url_var "  https://example.com/abc  " initial_world)) = [].
Proof.
  destruct (start_download_rejects_bad_url
              (with_url_var "  https://example.com/abc  " initial_world))
    as (H1 & H2 & _).
  - right. reflexivity.
  - split; [exact H1 | exact H2].
Defined.

Lemma stop_all_downloads_busy (w : world) :
  active_downloads w <> [] ->
  stop_all_downloads w =
  with_status_var "All downloads stopped."
    (print "All downloads stopped."
       (with_progress_label_var "Progress: 0/0"
          (with_progress_var (PyInt 0)
             (with_download_btn NORMAL
                (with_active_downloads []
                   (with_status_var
                      ("Stopping " ++ pretty (length (active_downloads w)) ++
                       " active download(s)...")
                      (print
                         ("Stopping " ++ pretty (length (active_downloads w)) ++
                          " active download(s)...")
                         (with_stop_flag true w)))))))).
Proof.
  intros H. unfold stop_all_downloads. simpl.
  destruct (active_downloads w); [contradiction | reflexivity].
Qed.

Lemma stop_all_downloads_idle (w : world) :
  active_downloads w = [] ->
  stop_all_downloads w =
  with_status_var "No active downloads to stop."
    (print "No active downloads to stop." (with_stop_flag true w)).
Proof. intros H. unfold stop_all_downloads. simpl. now rewrite H. Qed.

Lemma stop_all_downloads_flag (w : world) :
  stop_flag (stop_all_downloads w) = true.
Proof.
  unfold stop_all_downloads. simpl. destruct (active_downloads w); reflexivity.
Qed.

(** The claim as the specification words it: after [stop_all] the
    progress label always reads 0/0.  With no active download the label
    keeps what the last download left. *)
Lemma stop_all_downloads_label_counterexample :
  ~ (forall w : world,
        stop_flag (stop_all_downloads w) = true /\
        active_downloads (stop_all_downloads w) = [] /\
        progress_label_var (stop_all_downloads w) = "Progress: 0/0").
Proof.
  intros H. destruct (H sample_done) as (_ & _ & L).
  vm_compute in L. discriminate L.
Qed.

(** C4 (amended). [stop_all_downloads] always sets the stop flag and
    leaves the registry empty, at once and without touching the threads.
    The progress label is reset to [Progress: 0/0] (and the button and
    the bar with it) when some download was registered; with an empty
    registry the label, the button and the bar keep their values and the
    status reads that there is nothing to stop. *)
Theorem stop_all_downloads_effect :
  forall w : world,
    stop_flag (stop_all_downloads w) = true /\
    active_downloads (stop_all_downloads w) = [] /\
    threads (stop_all_downloads w) = threads w /\
    counters (stop_all_downloads w) = counters w /\
    (active_downloads w <> [] ->
       progress_label_var (stop_all_downloads w) = "Progress: 0/0" /\
       download_btn (stop_all_downloads w) = NORMAL /\
       progress_var (stop_all_downloads w) = PyInt 0 /\
       status_var (stop_all_downloads w) = "All downloads stopped.") /\
    (active_downloads w = [] ->
       progress_label_var (stop_all_downloads w) = progress_label_var w /\
       download_btn (stop_all_downloads w) = download_btn w /\
       progress_var (stop_all_downloads w) = progress_var w /\
       status_var (stop_all_downloads w) = "No active downloads to stop.").
Proof.
  intros w. destruct (active_downloads w) as [|t l] eqn:E.
  - rewrite (stop_all_downloads_idle w E). simpl.
    repeat apply conj; auto. intros H. contradiction.
  - rewrite (stop_all_downloads_busy w) by (rewrite E; discriminate). simpl.
    repeat apply conj; auto. intros H. discriminate.
Qed.

Lemma stop_all_downloads_effect_witness :
  progress_label_var
    (stop_all_downloads (with_active_downloads [0%nat] sample_started)) =
  "Progress: 0/0" /\
  progress_label_var (stop_all_downloads sample_done) = "Progress: 1/1".
Proof.
  split.
  - destruct (stop_all_downloads_effect
                (with_active_downloads [0%nat] sample_started))
      as (_ & _ & _ & _ & H & _).
    apply H. simpl. discriminate.
  - destruct (stop_all_downloads_effect sample_done) as (_ & _ & _ & _ & _ & H).
    destruct H as (H & _); [reflexivity|]. rewrite H. reflexivity.
Defined.

(** ** Computations over the window *)

Lemma bind_ok {A B : Type} (m : M A) (k : A -> M B) (w w' : world) (a : A) :
  m w = (Ok a, w') -> bind m k w = k a w'.
Proof. intros H. unfold bind. now rewrite H. Qed.

Lemma bind_raise {A B : Type} (m : M A) (k : A -> M B) (w w' : world) (e : exn) :
  m w = (Raise e, w') -> bind m k w = (Raise e, w').
Proof. intros H. unfold bind. now rewrite H. Qed.

Lemma respects_ret {A : Type} (R : world -> world -> Prop) (a : A) :
  (forall w, R w w) -> respects R (ret a).
Proof. intros HR w r w' H. injection H as _ <-. apply HR. Qed.

Lemma respects_lift {A : Type} (R : world -> world -> Prop) (r : result A) :
  (forall w, R w w) -> respects R (lift r).
Proof. intros HR w r' w' H. injection H as _ <-. apply HR. Qed.

Lemma respects_gets {A : Type} (R : world -> world -> Prop) (f : world -> A) :
  (forall w, R w w) -> respects R (gets f).
Proof. intros HR w r' w' H. injection H as _ <-. apply HR. Qed.

Lemma respects_raise {A : Type} (R : world -> world -> Prop) (e : exn) :
  (forall w, R w w) -> respects R (@raise A e).
Proof. intros HR w r' w' H. injection H as _ <-. apply HR. Qed.

Lemma respects_act (R : world -> world -> Prop) (f : world -> world) :
  (forall w, R w (f w)) -> respects R (act f).
Proof. intros HR w r' w' H. injection H as _ <-. apply HR. Qed.

Lemma respects_bind {A B : Type} (R : world -> world -> Prop)
    (m : M A) (k : A -> M B) :
  (forall x y z, R x y -> R y z -> R x z) ->
  respects R m -> (forall a, respects R (k a)) -> respects R (bind m k).
Proof.
  intros HT Hm Hk w r w' H. unfold bind in H.
  destruct (m w) as [[a | e] w1] eqn:E.
  - apply (HT _ w1); [now apply (Hm w (Ok a)) | now apply (Hk a w1 r)].
  - injection H as _ <-. now apply (Hm w (Raise e)).
Qed.

Lemma only_raises_ret {A : Type} (P : exn -> Prop) (a : A) :
  only_raises P (ret a).
Proof. intros w e w' H. discriminate H. Qed.

Lemma only_raises_act (P : exn -> Prop) (f : world -> world) :
  only_raises P (act f).
Proof. intros w e w' H. discriminate H. Qed.

Lemma only_raises_gets {A : Type} (P : exn -> Prop) (f : world -> A) :
  only_raises P (gets f).
Proof. intros w e w' H. discriminate H. Qed.

Lemma only_raises_lift {A : Type} (P : exn -> Prop) (r : result A) :
  only_raises_pure P r -> only_raises P (lift r).
Proof. intros Hr w e w' H. injection H as H _. now apply Hr. Qed.

Lemma only_raises_bind {A B : Type} (P : exn -> Prop) (m : M A) (k : A -> M B) :
  only_raises P m -> (forall a, only_raises P (k a)) -> only_raises P (bind m k).
Proof.
  intros Hm Hk w e w' H. unfold bind in H.
  destruct (m w) as [[a | e1] w1] eqn:E.
  - now apply (Hk a w1 e w').
  - injection H as <- _. now apply (Hm w e1 w1).
Qed.

Lemma pure_ok {A : Type} (P : exn -> Prop) (a : A) : only_raises_pure P (Ok a).
Proof. intros e H. discriminate H. Qed.

Lemma pure_raise {A : Type} (P : exn -> Prop) (e : exn) :
  P e -> only_raises_pure P (@Raise A e).
Proof. intros He e' H. injection H as <-. exact He. Qed.

Lemma pure_rbind {A B : Type} (P : exn -> Prop) (r : result A)
    (k : A -> result B) :
  only_raises_pure P r -> (forall a, only_raises_pure P (k a)) ->
  only_raises_pure P (rbind r k).
Proof.
  intros Hr Hk e H. destruct r as [a | e1]; simpl in H.
  - now apply (Hk a).
  - injection H as <-. now apply Hr.
Qed.

(** ** The interpreter's operations raise their own exceptions only *)

Ltac builtin_step :=
  match goal with
  | |- only_raises_pure _ (Ok _) => apply pure_ok
  | |- only_raises_pure _ (Raise _) => apply pure_raise; unfold builtin; simpl; discriminate
  | |- only_raises_pure _ (rbind _ _) => apply pure_rbind; [|intros ?]
  | |- only_raises_pure _ (if ?b then _ else _) => destruct b
  | |- only_raises_pure _ (match ?x with _ => _ end) => destruct x
  end.

Lemma builtin_getitem (d : dict) (k : string) :
  only_raises_pure builtin (getitem d k).
Proof. unfold getitem. repeat builtin_step. Qed.

Lemma builtin_float_of_int (z : Z) : only_raises_pure builtin (float_of_int z).
Proof. unfold float_of_int. repeat builtin_step. Qed.

Lemma builtin_truediv (a b : pyval) : only_raises_pure builtin (truediv a b).
Proof.
  unfold truediv, as_float, unsupported.
  destruct a, b; repeat (builtin_step || apply builtin_float_of_int).
Qed.

Lemma builtin_mib (v : pyval) : only_raises_pure builtin (mib v).
Proof. unfold mib. repeat (builtin_step || apply builtin_truediv). Qed.

Lemma builtin_percent_of (d : dict) : only_raises_pure builtin (percent_of d).
Proof.
  unfold percent_of.
  repeat (apply builtin_getitem || apply builtin_truediv || builtin_step).
Qed.

Lemma builtin_mb_of (d : dict) (k : string) : only_raises_pure builtin (mb_of d k).
Proof.
  unfold mb_of.
  repeat (apply builtin_getitem || apply builtin_mib || builtin_step).
Qed.

Lemma builtin_speed_str_of (v : pyval) :
  only_raises_pure builtin (speed_str_of v).
Proof. unfold speed_str_of. repeat (apply builtin_mib || builtin_step). Qed.

Lemma builtin_int_ (n : pynum) : only_raises_pure builtin (int_ n).
Proof. unfold int_. repeat builtin_step. Qed.

Lemma builtin_floordiv_int (v : pyval) (k : Z) :
  only_raises_pure builtin (floordiv_int v k).
Proof. unfold floordiv_int, unsupported. repeat builtin_step. Qed.

Lemma builtin_mod_int (v : pyval) (k : Z) :
  only_raises_pure builtin (mod_int v k).
Proof. unfold mod_int, unsupported. repeat builtin_step. Qed.

Lemma builtin_eta_str_of (v : pyval) : only_raises_pure builtin (eta_str_of v).
Proof.
  unfold eta_str_of.
  repeat (apply builtin_int_ || apply builtin_floordiv_int ||
          apply builtin_mod_int || builtin_step).
Qed.

Lemma builtin_format_fixed (width p : nat) (v : pyval) :
  only_raises_pure builtin (format_fixed width p v).
Proof.
  unfold format_fixed. repeat (apply builtin_float_of_int || builtin_step).
Qed.

(** ** The progress hook and the log sink *)

Lemma same_count_refl (w : world) : same_count w w.
Proof. now split. Qed.

Lemma same_count_trans (x y z : world) :
  same_count x y -> same_count y z -> same_count x z.
Proof. intros [H1 H2] [H3 H4]. split; congruence. Qed.

Ltac frame_step R_refl R_trans :=
  match goal with
  | |- respects _ (bind _ _) => apply respects_bind; [exact R_trans | | intros ?]
  | |- respects _ (lift _) => apply respects_lift; exact R_refl
  | |- respects _ (ret _) => apply respects_ret; exact R_refl
  | |- respects _ (gets _) => apply respects_gets; exact R_refl
  | |- respects _ (raise _) => apply respects_raise; exact R_refl
  | |- respects _ (act _) => apply respects_act; intros ?; split; reflexivity
  | |- respects _ (if ?b then _ else _) => destruct b
  end.

Ltac raise_step :=
  match goal with
  | |- only_raises _ (bind _ _) => apply only_raises_bind; [|intros ?]
  | |- only_raises _ (lift _) => apply only_raises_lift
  | |- only_raises _ (ret _) => apply only_raises_ret
  | |- only_raises _ (gets _) => apply only_raises_gets
  | |- only_raises _ (act _) => apply only_raises_act
  | |- only_raises _ (if ?b then _ else _) => destruct b
  end.

Section Callbacks.

Variable float_repr : PyFloat.float -> string.

Lemma builtin_frag_str_of (d : dict) :
  only_raises_pure builtin (frag_str_of float_repr d).
Proof.
  unfold frag_str_of. repeat (apply builtin_getitem || builtin_step).
Qed.

Lemma builtin_progress_line_of (d : dict) (p : PyFloat.float) :
  only_raises_pure builtin (progress_line_of float_repr d p).
Proof.
  unfold progress_line_of.
  repeat (apply builtin_mb_of || apply builtin_speed_str_of ||
          apply builtin_eta_str_of || apply builtin_frag_str_of ||
          apply builtin_format_fixed || builtin_step).
Qed.

Lemma progress_keeps_count (d : dict) :
  respects same_count (_handle_download_progress float_repr d).
Proof.
  unfold _handle_download_progress.
  repeat frame_step same_count_refl same_count_trans.
Qed.

Lemma progress_raises_builtin (d : dict) :
  only_raises builtin (_handle_download_progress float_repr d).
Proof.
  unfold _handle_download_progress.
  repeat (raise_step || apply builtin_percent_of ||
          apply builtin_progress_line_of).
Qed.

Lemma finished_raises_builtin (d : dict) (audio_only : bool)
    (vc : counter_ref) (total : Z) :
  only_raises builtin (_handle_download_finished d audio_only vc total).
Proof. unfold _handle_download_finished. repeat raise_step. Qed.

Lemma finished_video_keeps_count (d : dict) (vc : counter_ref) (total : Z) :
  respects same_count (_handle_download_finished d false vc total).
Proof.
  unfold _handle_download_finished.
  repeat frame_step same_count_refl same_count_trans.
Qed.

(** The hook once the stop flag has been read as clear. *)
Lemma progress_hook_running (audio_only : bool) (vc : counter_ref) (total : Z)
    (d : dict) (w : world) :
  stop_flag w = false ->
  progress_hook float_repr audio_only vc total d w =
  (bind (lift (getitem d "status")) (fun status =>
   bind (lift (if eq_str status "downloading" && key_in "downloaded_bytes" d
                  && key_in "total_bytes" d
               then rbind (getitem d "total_bytes") (fun t => Ok (truthy t))
               else Ok false)) (fun downloading : bool =>
   if downloading then _handle_download_progress float_repr d
   else bind (lift (getitem d "status")) (fun status' =>
        if eq_str status' "finished"
        then _handle_download_finished d audio_only vc total
        else ret tt)))) w.
Proof.
  intros H. unfold progress_hook.
  rewrite (bind_ok _ _ w w false); [reflexivity|].
  unfold gets. now rewrite H.
Qed.

Lemma progress_hook_stopped (audio_only : bool) (vc : counter_ref) (total : Z)
    (d : dict) (w : world) :
  stop_flag w = true ->
  progress_hook float_repr audio_only vc total d w = (Raise stopped_by_user, w).
Proof.
  intros H. unfold progress_hook.
  rewrite (bind_ok _ _ w w true); [reflexivity|].
  unfold gets. now rewrite H.
Qed.

Lemma progress_hook_continues (audio_only : bool) (vc : counter_ref) (total : Z)
    (d : dict) (w : world) :
  stop_flag w = false ->
  fst (progress_hook float_repr audio_only vc total d w) <> Raise stopped_by_user.
Proof.
  intros H. rewrite progress_hook_running by exact H.
  match goal with |- fst (?m w) <> _ => assert (Hb : only_raises builtin m) end.
  { repeat (raise_step || apply builtin_getitem || builtin_step ||
            apply progress_raises_builtin || apply finished_raises_builtin). }
  match goal with |- fst (?m w) <> _ => destruct (m w) as [r w'] eqn:E end.
  simpl. intros ->. apply Hb in E. now apply E.
Qed.

Lemma progress_hook_video_keeps_count (vc : counter_ref) (total : Z) (d : dict) :
  respects same_count (progress_hook float_repr false vc total d).
Proof.
  unfold progress_hook.
  repeat (frame_step same_count_refl same_count_trans ||
          apply progress_keeps_count || apply finished_video_keeps_count).
Qed.

End Callbacks.

Lemma counter_get_incr (vc : counter_ref) (n : Z) (w : world) :
  counters w !! vc = Some n -> counter_get vc (counter_incr vc w) = (n + 1)%Z.
Proof.
  intros H. unfold counter_get, counter_incr, with_counters. cbn [counters].
  rewrite list_lookup_alter_eq. unfold counter_ref in *. rewrite H. simpl. lia.
Qed.

Lemma counter_get_some (vc : counter_ref) (n : Z) (w : world) :
  counters w !! vc = Some n -> counter_get vc w = n.
Proof. intros H. unfold counter_get, counter_ref in *. now rewrite H. Qed.

Lemma lstrip_nonspace (c : ascii) (s : string) :
  isspace c = false -> lstrip (String c s) = String c s.
Proof. intros H. simpl. now rewrite H. Qed.

Lemma rstrip_nonspace (c : ascii) (s : string) :
  isspace c = false -> nonempty (rstrip (String c s)) = true.
Proof.
  intros H. simpl. destruct (rstrip s); [now rewrite H | reflexivity].
Qed.

Lemma merger_line_visible (msg : string) :
  startswith msg merger_line = true ->
  nonempty (strip msg) = true /\ str_in merger_line msg = true.
Proof.
  intros H. split.
  - apply startswith_spec in H as [t ->]. unfold strip, merger_line.
    rewrite append_cons, lstrip_nonspace by reflexivity.
    now apply rstrip_nonspace.
  - destruct msg; simpl; simpl in H; now rewrite H.
Qed.

(** C1. With the stop flag clear, a finished event sets the bar to 100
    and raises the item counter (and rewrites the current/total label)
    in audio mode only.  A line given to the log sink raises the counter
    (and rewrites the label) exactly when the mode is video and the line
    starts with the merger text; [debug] hands such a line to the sink
    unchanged.  In video mode no progress event moves the counter or the
    label. *)
Theorem item_counter_advances :
  forall (float_repr : PyFloat.float -> string) (audio_only : bool)
         (vc : counter_ref) (total n : Z) (w : world),
    counters w !! vc = Some n ->
    (forall d,
        stop_flag w = false -> d !! "status" = Some (PyStr "finished") ->
        exists w',
          progress_hook float_repr audio_only vc total d w = (Ok tt, w') /\
          progress_var w' = PyInt 100 /\
          counter_get vc w' = (if audio_only then n + 1 else n)%Z /\
          progress_label_var w' =
            (if audio_only then progress_text (n + 1) total
             else progress_label_var w)) /\
    (forall msg tag,
        let counted := negb audio_only && startswith msg merger_line in
        exists w',
          _write_to_output
            (MkLogger (Some vc) (Some ProgressLabelVar) (Some total) audio_only)
            msg tag w = (Ok tt, w') /\
          counter_get vc w' = (if counted then n + 1 else n)%Z /\
          progress_label_var w' =
            (if counted then progress_text (n + 1) total
             else progress_label_var w)) /\
    (forall lg msg,
        startswith msg merger_line = true ->
        debug lg msg = _write_to_output lg msg "info") /\
    (forall d w',
        snd (progress_hook float_repr false vc total d w) = w' ->
        counters w' = counters w /\ progress_label_var w' = progress_label_var w).
Proof.
  intros float_repr audio_only vc total n w Hn. repeat apply conj.
  - intros d Hstop Hd. rewrite progress_hook_running by exact Hstop.
    unfold bind, lift, getitem. rewrite Hd. simpl.
    unfold _handle_download_finished, bind, act, gets, ret. simpl.
    destruct audio_only; simpl.
    + eexists. split; [reflexivity|]. simpl. repeat apply conj; auto.
      * change (counter_get vc (counter_incr vc w) = (n + 1)%Z).
        now apply counter_get_incr.
      * change (progress_text (counter_get vc (counter_incr vc w)) total =
                progress_text (n + 1) total).
        now rewrite (counter_get_incr vc n w Hn).
    + eexists. split; [reflexivity|]. simpl. repeat apply conj; auto.
      now apply counter_get_some.
  - intros msg tag counted. subst counted. unfold _write_to_output.
    destruct (startswith msg merger_line); destruct audio_only;
      unfold bind, act, gets, ret; simpl;
      (eexists; split; [reflexivity|]; simpl; split;
       [first [ now apply counter_get_some
              | change (counter_get vc (counter_incr vc w) = (n + 1)%Z);
                now apply counter_get_incr ]
       | first [ reflexivity
               | change (progress_text (counter_get vc (counter_incr vc w)) total =
                         progress_text (n + 1) total);
                 now rewrite (counter_get_incr vc n w Hn) ]]).
  - intros lg msg H. apply merger_line_visible in H as [H1 H2].
    unfold debug. now rewrite H1, H2.
  - intros d w' E.
    destruct (progress_hook float_repr false vc total d w) as [r w1] eqn:Eh.
    simpl in E. subst w1.
    apply (progress_hook_video_keeps_count float_repr vc total d w r w' Eh).
Qed.

Lemma item_counter_advances_witness :
  (exists w',
      progress_hook sample_repr true 0%nat 3 finished_event
        (with_counters [0%Z] initial_world) = (Ok tt, w') /\
      progress_label_var w' = "Progress: 1/3") /\
  (exists w',
      _write_to_output
        (MkLogger (Some 0%nat) (Some ProgressLabelVar) (Some 3%Z) false)
        "[Merger] Merging formats into clip.mp4" "info"
        (with_counters [0%Z] initial_world) = (Ok tt, w') /\
      progress_label_var w' = "Progress: 1/3").
Proof.
  split.
  - destruct (item_counter_advances sample_repr true 0%nat 3 0
                (with_counters [0%Z] initial_world) eq_refl) as (H & _).
    destruct (H finished_event eq_refl eq_refl) as (w' & E & _ & _ & L).
    exists w'. split; [exact E | rewrite L; reflexivity].
  - destruct (item_counter_advances sample_repr false 0%nat 3 0
                (with_counters [0%Z] initial_world) eq_refl) as (_ & H & _).
    destruct (H "[Merger] Merging formats into clip.mp4" "info")
      as (w' & E & _ & L).
    exists w'. split; [exact E | rewrite L; reflexivity].
Defined.

(** ** The task around the callbacks *)

Lemma list_remove_absent (t : thread) (l : list thread) :
  existsb (Nat.eqb t) l = false -> list_remove t l = l.
Proof.
  induction l as [|x l IH]; simpl; [reflexivity|].
  destruct (Nat.eqb t x); simpl; [discriminate|].
  intros H. now rewrite IH.
Qed.

Lemma run_finally_registry (t : thread) (w : world) :
  active_downloads (run_finally t w) = list_remove t (active_downloads w).
Proof.
  unfold run_finally.
  destruct (existsb (Nat.eqb t) (active_downloads w)) eqn:E; simpl.
  - reflexivity.
  - now rewrite list_remove_absent.
Qed.

Lemma start_download_accepts (w : world) :
  nonempty (strip (url_var w)) = true ->
  is_valid_youtube_url (strip (url_var w)) = true ->
  stop_flag (start_download w) = false.
Proof. intros N V. unfold start_download. rewrite N, V. reflexivity. Qed.

Lemma stop_all_downloads_url (w : world) :
  url_var (stop_all_downloads w) = url_var w.
Proof.
  unfold stop_all_downloads. simpl. destruct (active_downloads w); reflexivity.
Qed.

(** C10. A start request that passes validation sets the one shared
    stop flag to false.  So when [stop_download] or [stop_all_downloads]
    is followed by such a start before an older task's next progress
    callback, that callback, which would have raised the cancellation,
    does not raise it any more: the stop request is lost for the older
    task.  After [stop_all_downloads] with a registered download the
    download button is enabled again, so the start can follow; after
    [stop_download] it is enabled again once a valid URL is written to
    the entry. *)
Theorem start_download_revokes_stop :
  forall (float_repr : PyFloat.float -> string) (w : world),
    nonempty (strip (url_var w)) = true ->
    is_valid_youtube_url (strip (url_var w)) = true ->
    stop_flag (start_download w) = false /\
    (forall audio_only vc total d,
        progress_hook float_repr audio_only vc total d (stop_download w) =
          (Raise stopped_by_user, stop_download w) /\
        fst (progress_hook float_repr audio_only vc total d
               (start_download (stop_download w))) <> Raise stopped_by_user) /\
    (forall audio_only vc total d,
        progress_hook float_repr audio_only vc total d (stop_all_downloads w) =
          (Raise stopped_by_user, stop_all_downloads w) /\
        fst (progress_hook float_repr audio_only vc total d
               (start_download (stop_all_downloads w))) <> Raise stopped_by_user) /\
    (active_downloads w <> [] -> download_btn (stop_all_downloads w) = NORMAL) /\
    (forall s,
        nonempty (strip s) = true -> is_valid_youtube_url (strip s) = true ->
        download_btn (url_var_set s (stop_download w)) = NORMAL).
Proof.
  intros float_repr w N V. repeat apply conj.
  - now apply start_download_accepts.
  - intros audio_only vc total d. split.
    + now apply progress_hook_stopped.
    + apply progress_hook_continues. now apply start_download_accepts.
  - intros audio_only vc total d. split.
    + apply progress_hook_stopped. apply stop_all_downloads_flag.
    + apply progress_hook_continues. apply start_download_accepts;
        now rewrite stop_all_downloads_url.
  - intros H. now rewrite (stop_all_downloads_busy w H).
  - intros s Ns Vs. unfold url_var_set, validate_url. cbn [url_var with_url_var].
    rewrite Ns, Vs. cbn [andb]. now destruct (is_playlist_url (strip s)).
Qed.

Lemma start_download_revokes_stop_witness :
  fst (progress_hook sample_repr true 0%nat 1 finished_event
         (start_download
            (stop_all_downloads
               (with_counters [0%Z]
                  (with_active_downloads [0%nat] sample_started))))) <>
  Raise stopped_by_user.
Proof.
  destruct (start_download_revokes_stop sample_repr
              (with_counters [0%Z] (with_active_downloads [0%nat] sample_started)))
    as (_ & _ & H & _).
  - reflexivity.
  - reflexivity.
  - apply (H true 0%nat 1%Z finished_event).
Defined.

(** ** Quotients of integers that stay in the float range *)

Section FloatRange.

Local Open Scope Z_scope.

Lemma digits2_pos_size (p : positive) : digits2_pos p = Pos.size p.
Proof. induction p; simpl; congruence. Qed.

Lemma Zdigits2_upper (m k : Z) : 0 <= m -> 0 <= k -> m < 2 ^ k -> Zdigits2 m <= k.
Proof.
  intros Hm Hk H. destruct m as [|p|p]; simpl; [lia | | lia].
  rewrite digits2_pos_size.
  destruct (Z.le_gt_cases (Zpos (Pos.size p)) k) as [L | G]; [exact L | exfalso].
  pose proof (Pos.size_le p) as S.
  assert (E : (2 ^ Pos.size p)%positive = Z.to_pos (2 ^ Zpos (Pos.size p))).
  { rewrite <- Pos2Z.inj_pow. reflexivity. }
  assert (2 ^ Zpos (Pos.size p) <= 2 * Zpos p).
  { rewrite <- Pos2Z.inj_pow. lia. }
  assert (2 ^ (k + 1) <= 2 ^ Zpos (Pos.size p)) by (apply Z.pow_le_mono_r; lia).
  rewrite Z.pow_add_r in * by lia. lia.
Qed.

Lemma Zdigits2_lower (m : Z) : 0 < m -> m < 2 ^ Zdigits2 m.
Proof.
  intros Hm. destruct m as [|p|p]; try lia. simpl.
  rewrite digits2_pos_size. pose proof (Pos.size_gt p) as S.
  rewrite <- Pos2Z.inj_pow. lia.
Qed.

Lemma Zdigits2_nonneg (m : Z) : 0 <= Zdigits2 m.
Proof. destruct m; simpl; lia. Qed.

Lemma shr_1_m (mrs : shr_record) :
  0 <= shr_m mrs -> shr_m (shr_1 mrs) = shr_m mrs / 2.
Proof.
  destruct mrs as [m r s]. simpl. intros H.
  destruct m as [|[p|p|]|p]; simpl; try lia; try reflexivity.
  - rewrite Pos2Z.inj_xI. apply Z.div_unique with 1; lia.
  - rewrite Pos2Z.inj_xO. apply Z.div_unique with 0; lia.
Qed.

Lemma iter_shr_1_m (p : positive) (mrs : shr_record) :
  0 <= shr_m mrs ->
  shr_m (SpecFloat.iter_pos shr_1 p mrs) = shr_m mrs / 2 ^ Zpos p.
Proof.
  revert mrs. induction p as [p IH | p IH |]; intros mrs H; simpl.
  - assert (H1 : 0 <= shr_m (shr_1 mrs)).
    { rewrite shr_1_m by exact H. apply Z.div_pos; lia. }
    assert (H2 : 0 <= shr_m (SpecFloat.iter_pos shr_1 p (shr_1 mrs))).
    { rewrite IH by exact H1. apply Z.div_pos; lia. }
    rewrite IH by exact H2. rewrite IH by exact H1. rewrite shr_1_m by exact H.
    rewrite !Z.div_div by lia. f_equal.
    rewrite Pos2Z.inj_xI, Z.pow_add_r, Z.pow_mul_r by lia.
    change (2 ^ 2) with 4. rewrite <- Z.pow_twice_r. rewrite Z.pow_mul_r by lia.
    change (2 ^ 2) with 4. lia.
  - assert (H2 : 0 <= shr_m (SpecFloat.iter_pos shr_1 p mrs)).
    { rewrite IH by exact H. apply Z.div_pos; lia. }
    rewrite IH by exact H2. rewrite IH by exact H.
    rewrite !Z.div_div by lia. f_equal.
    rewrite Pos2Z.inj_xO, <- Z.pow_add_r by lia. f_equal. lia.
  - rewrite shr_1_m by exact H. reflexivity.
Qed.

Lemma shr_record_of_loc_m (m : Z) (l : location) :
  shr_m (shr_record_of_loc m l) = m.
Proof. destruct l as [|[]]; reflexivity. Qed.

Lemma shr_fexp_spec (m e : Z) (l : location) :
  0 <= m ->
  let r := shr_fexp 53 1024 m e l in
  snd r = Z.max e (fexp 53 1024 (Zdigits2 m + e)) /\
  shr_m (fst r) = m / 2 ^ (snd r - e) /\
  0 <= shr_m (fst r).
Proof.
  intros Hm. unfold shr_fexp, shr.
  destruct (fexp 53 1024 (Zdigits2 m + e) - e) as [|p|p] eqn:E; cbn [fst snd].
  - rewrite shr_record_of_loc_m. replace (e - e) with 0 by lia.
    rewrite Z.div_1_r. lia.
  - rewrite iter_shr_1_m by (rewrite shr_record_of_loc_m; exact Hm).
    rewrite shr_record_of_loc_m. replace (e + Zpos p - e) with (Zpos p) by lia.
    repeat split; [lia | apply Z.div_pos; lia].
  - rewrite shr_record_of_loc_m. replace (e - e) with 0 by lia.
    rewrite Z.div_1_r. lia.
Qed.

Lemma round_nearest_even_bounds (m : Z) (l : location) :
  m <= round_nearest_even m l <= m + 1.
Proof. destruct l as [|[]]; simpl; try destruct (Z.even m); lia. Qed.

Lemma fexp_le (x k : Z) : x <= k + 53 -> -1074 <= k -> fexp 53 1024 x <= k.
Proof. unfold fexp, emin. lia. Qed.

Lemma binary_round_aux_finite (s : bool) (mx ex : Z) (l : location) :
  0 <= mx -> ex <= 971 -> Zdigits2 mx + ex <= 1023 ->
  PyFloat.is_inf (binary_round_aux 53 1024 s mx ex l) = false.
Proof.
  intros Hm Hex Hd. unfold binary_round_aux.
  pose proof (shr_fexp_spec mx ex l Hm) as H1.
  destruct (shr_fexp 53 1024 mx ex l) as [mrs1 e1]. cbn [fst snd] in H1.
  destruct H1 as (He1 & Hm1 & Hp1).
  pose proof (round_nearest_even_bounds (shr_m mrs1) (loc_of_shr_record mrs1)) as Hr.
  set (mr := round_nearest_even (shr_m mrs1) (loc_of_shr_record mrs1)) in *.
  assert (Hmr : 0 <= mr) by lia.
  pose proof (shr_fexp_spec mr e1 loc_Exact Hmr) as H2.
  destruct (shr_fexp 53 1024 mr e1 loc_Exact) as [mrs2 e2]. cbn [fst snd] in H2.
  destruct H2 as (He2 & _ & _).
  destruct (shr_m mrs2) as [|p|p]; try reflexivity.
  assert (Hfe : fexp 53 1024 (Zdigits2 mx + ex) <= 970) by (apply fexp_le; lia).
  assert (He1' : ex <= e1 <= 971) by lia.
  assert (Hdr : Zdigits2 mr + e1 <= 1024).
  { pose proof (Zdigits2_nonneg mx) as Hd0.
    destruct (Z.le_gt_cases (e1 - ex) (Zdigits2 mx)) as [Hn | Hn].
    - assert (Zdigits2 mr <= Zdigits2 mx - (e1 - ex) + 1); [|lia].
      apply Zdigits2_upper; [exact Hmr | lia |].
      assert (shr_m mrs1 < 2 ^ (Zdigits2 mx - (e1 - ex))).
      { rewrite Hm1. apply Z.div_lt_upper_bound; [lia|].
        rewrite <- Z.pow_add_r by lia.
        replace (e1 - ex + (Zdigits2 mx - (e1 - ex))) with (Zdigits2 mx) by lia.
        destruct (Z.eq_dec mx 0) as [-> | Hnz]; [simpl; lia|].
        apply Zdigits2_lower. lia. }
      rewrite Z.pow_add_r by lia. lia.
    - assert (Zdigits2 mr <= 1); [|lia].
      apply Zdigits2_upper; [exact Hmr | lia |].
      assert (shr_m mrs1 = 0); [|simpl; lia].
      rewrite Hm1. apply Z.div_small. split; [exact Hm|].
      destruct (Z.eq_dec mx 0) as [-> | Hnz]; [apply Z.pow_pos_nonneg; lia|].
      apply Z.lt_le_trans with (2 ^ Zdigits2 mx); [apply Zdigits2_lower; lia|].
      apply Z.pow_le_mono_r; lia. }
  assert (Hfe2 : fexp 53 1024 (Zdigits2 mr + e1) <= 971) by (apply fexp_le; lia).
  assert (Hle : e2 <= 1024 - 53) by lia.
  apply Z.leb_le in Hle. now rewrite Hle.
Qed.

Lemma div_core_bounds (pa pb : positive) :
  Zpos pa < 2 ^ 1023 ->
  let r := SFdiv_core_binary 53 1024 (Zpos pa) 0 (Zpos pb) 0 in
  0 <= fst (fst r) /\ snd (fst r) <= 0 /\
  Zdigits2 (fst (fst r)) + snd (fst r) <= 1023.
Proof.
  intros Ha. unfold SFdiv_core_binary.
  set (e' := Z.min _ _).
  assert (He : e' <= 0) by (subst e'; lia).
  set (m' := match 0 - 0 - e' with Z0 => Zpos pa | Zpos _ => Z.shiftl (Zpos pa) (0 - 0 - e') | Zneg _ => 0 end).
  assert (Hm' : m' = Zpos pa * 2 ^ (- e')).
  { subst m'. destruct (0 - 0 - e') as [|p|p] eqn:E.
    - replace (- e') with 0 by lia. simpl. lia.
    - rewrite Z.shiftl_mul_pow2 by lia. f_equal. f_equal. lia.
    - lia. }
  pose proof (Z.div_eucl_eq m' (Zpos pb) ltac:(lia)) as Hq.
  pose proof (Z.mod_pos_bound m' (Zpos pb) ltac:(lia)) as Hr.
  unfold Z.modulo in Hr.
  destruct (Z.div_eucl m' (Zpos pb)) as [q r]. cbn [fst snd].
  assert (Hm0 : 0 <= m') by (rewrite Hm'; apply Z.mul_nonneg_nonneg; [lia | apply Z.pow_nonneg; lia]).
  assert (Hq0 : 0 <= q) by nia.
  assert (Hqm : q <= m') by nia.
  repeat split; [exact Hq0 | exact He |].
  assert (Zdigits2 q <= 1023 + - e'); [|lia].
  apply Zdigits2_upper; [exact Hq0 | lia |].
  rewrite Z.pow_add_r by lia.
  apply Z.le_lt_trans with m'; [exact Hqm|].
  rewrite Hm'. apply Z.mul_lt_mono_pos_r; [apply Z.pow_pos_nonneg; lia | exact Ha].
Qed.

Lemma fdiv_integers_finite (sa sb : bool) (pa pb : positive) :
  Zpos pa < 2 ^ 1023 ->
  PyFloat.is_inf (PyFloat.fdiv (S754_finite sa pa 0) (S754_finite sb pb 0)) = false.
Proof.
  intros Ha. unfold PyFloat.fdiv, SFdiv, PyFloat.prec, PyFloat.emax.
  pose proof (div_core_bounds pa pb Ha) as H.
  destruct (SFdiv_core_binary 53 1024 (Zpos pa) 0 (Zpos pb) 0) as [[mz ez] lz].
  cbn [fst snd] in H. destruct H as (H1 & H2 & H3).
  apply binary_round_aux_finite; lia.
Qed.

(** The quotient of two integers is a finite float whenever the
    dividend is below [2^1023] in magnitude. *)
Lemma int_truediv_finite (a b : Z) :
  b <> 0 -> Z.abs a < 2 ^ 1023 ->
  PyFloat.is_inf (PyFloat.int_truediv a b) = false.
Proof.
  intros Hb Ha. unfold PyFloat.int_truediv.
  destruct a as [|pa|pa]; [reflexivity | |];
    (destruct b as [|pb|pb]; [contradiction | |]);
    apply fdiv_integers_finite; exact Ha.
Qed.

(** *** Exact steps of the float floor division by sixty *)

Lemma Zdigits2_ge (m : Z) : 0 < m -> 2 ^ (Zdigits2 m - 1) <= m.
Proof.
  intros Hm. destruct m as [|p|p]; try lia. simpl.
  rewrite digits2_pos_size. pose proof (Pos.size_le p) as S.
  assert (E : 2 ^ Zpos (Pos.size p) <= 2 * Zpos p).
  { rewrite <- Pos2Z.inj_pow. lia. }
  replace (Zpos (Pos.size p)) with (Zpos (Pos.size p) - 1 + 1) in E by lia.
  rewrite Z.pow_add_r in E by lia. lia.
Qed.

Lemma Zdigits2_unique (m d : Z) :
  0 < m -> 2 ^ (d - 1) <= m < 2 ^ d -> Zdigits2 m = d.
Proof.
  intros Hm [Hl Hu].
  assert (Hd : 0 <= d).
  { destruct (Z.le_gt_cases 0 d); [assumption|].
    rewrite (Z.pow_neg_r 2 d) in Hu by lia. lia. }
  pose proof (Zdigits2_upper m d ltac:(lia) Hd Hu) as H1.
  pose proof (Zdigits2_lower m Hm) as H2.
  pose proof (Zdigits2_nonneg m) as H0.
  destruct (Z.le_gt_cases d (Zdigits2 m)) as [L | G]; [lia | exfalso].
  assert (2 ^ Zdigits2 m <= 2 ^ (d - 1)) by (apply Z.pow_le_mono_r; lia).
  lia.
Qed.

Lemma Zdigits2_shift (m j : Z) :
  0 < m -> 0 <= j -> Zdigits2 (m * 2 ^ j) = Zdigits2 m + j.
Proof.
  intros Hm Hj.
  pose proof (Zdigits2_ge m Hm) as Hl.
  pose proof (Zdigits2_lower m Hm) as Hu.
  assert (Hd : 1 <= Zdigits2 m).
  { destruct m; simpl; lia. }
  assert (Hp : 0 < 2 ^ j) by (apply Z.pow_pos_nonneg; lia).
  apply Zdigits2_unique; [nia|].
  replace (Zdigits2 m + j - 1) with (Zdigits2 m - 1 + j) by lia.
  rewrite !Z.pow_add_r by lia. nia.
Qed.


Lemma shr_1_exact (M : Z) :
  0 <= M ->
  shr_1 (Build_shr_record (2 * M) false false) = Build_shr_record M false false.
Proof. intros H. destruct M as [|p|p]; try lia; reflexivity. Qed.

Lemma pow2_xO (p : positive) : 2 ^ Zpos p~0 = 2 ^ Zpos p * 2 ^ Zpos p.
Proof.
  rewrite <- Z.pow_add_r by lia. f_equal. lia.
Qed.

Lemma pow2_xI (p : positive) : 2 ^ Zpos p~1 = 2 * (2 ^ Zpos p * 2 ^ Zpos p).
Proof.
  rewrite <- Z.pow_add_r, <- Z.pow_succ_r by lia. f_equal. lia.
Qed.

Lemma iter_shr_1_exact (p : positive) (M : Z) :
  0 <= M ->
  SpecFloat.iter_pos shr_1 p (Build_shr_record (M * 2 ^ Zpos p) false false) =
  Build_shr_record M false false.
Proof.
  revert M. induction p as [p IH | p IH |]; intros M H; cbn [SpecFloat.iter_pos].
  - assert (Hp : 0 < 2 ^ Zpos p) by (apply Z.pow_pos_nonneg; lia).
    replace (M * 2 ^ Zpos p~1) with (2 * ((M * 2 ^ Zpos p) * 2 ^ Zpos p))
      by (rewrite pow2_xI; ring).
    rewrite shr_1_exact by nia.
    rewrite IH by nia. now apply IH.
  - assert (Hp : 0 < 2 ^ Zpos p) by (apply Z.pow_pos_nonneg; lia).
    replace (M * 2 ^ Zpos p~0) with ((M * 2 ^ Zpos p) * 2 ^ Zpos p)
      by (rewrite pow2_xO; ring).
    rewrite IH by nia. now apply IH.
  - change (2 ^ 1) with 2. rewrite Z.mul_comm. now apply shr_1_exact.
Qed.

Lemma round_aux_noshift (s : bool) (M E : Z) :
  0 < M -> fexp 53 1024 (Zdigits2 M + E) <= E -> E <= 971 ->
  binary_round_aux 53 1024 s M E loc_Exact = S754_finite s (Z.to_pos M) E.
Proof.
  intros HM Hf HE. unfold binary_round_aux, shr_fexp, shr.
  cbn [shr_record_of_loc].
  destruct (fexp 53 1024 (Zdigits2 M + E) - E) as [|p|p] eqn:K; try lia;
    cbn [shr_m loc_of_shr_record round_nearest_even shr_record_of_loc];
    rewrite K; cbn [shr_m];
    (destruct M as [|m|m]; try lia);
    (replace (E <=? 1024 - 53) with true by (symmetry; apply Z.leb_le; lia));
    reflexivity.
Qed.

Lemma round_aux_shift (s : bool) (M E k : Z) :
  0 < M -> 0 < k ->
  fexp 53 1024 (Zdigits2 (M * 2 ^ k) + E) = E + k -> E + k <= 971 ->
  binary_round_aux 53 1024 s (M * 2 ^ k) E loc_Exact =
  S754_finite s (Z.to_pos M) (E + k).
Proof.
  intros HM Hk Hf HE. unfold binary_round_aux, shr_fexp, shr.
  cbn [shr_record_of_loc]. rewrite Hf.
  replace (E + k - E) with k by lia.
  destruct k as [|p|p]; try lia.
  rewrite iter_shr_1_exact by lia.
  cbn [shr_m loc_of_shr_record round_nearest_even shr_record_of_loc].
  rewrite Zdigits2_shift in Hf by lia.
  replace (Zdigits2 M + (E + Zpos p)) with (Zdigits2 M + Zpos p + E) by lia.
  rewrite Hf. replace (E + Zpos p - (E + Zpos p)) with 0 by lia.
  cbn [shr_m]. destruct M as [|m|m]; try lia.
  replace (E + Zpos p <=? 1024 - 53) with true
    by (symmetry; apply Z.leb_le; lia).
  reflexivity.
Qed.

Lemma pos_iter_xO (m d : positive) :
  Zpos (Pos.iter xO m d) = Zpos m * 2 ^ Zpos d.
Proof.
  induction d as [|d IH] using Pos.peano_ind.
  - cbn [Pos.iter]. change (2 ^ 1) with 2. lia.
  - rewrite Pos.iter_succ, Pos2Z.inj_xO, IH, Pos2Z.inj_succ, Z.pow_succ_r by lia.
    ring.
Qed.

Lemma shl_align_spec (m : positive) (e e' : Z) :
  e' <= e ->
  Zpos (fst (shl_align m e e')) = Zpos m * 2 ^ (e - e') /\
  snd (shl_align m e e') = e'.
Proof.
  intros H. unfold shl_align.
  destruct (e' - e) as [|d|d] eqn:K; try lia; cbn [fst snd].
  - replace (e - e') with 0 by lia. split; lia.
  - rewrite pos_iter_xO. replace (e - e') with (Zpos d) by lia. split; reflexivity.
Qed.

(** Normalising a mantissa whose canonical exponent is not above its
    own exponent only shifts it to the left: nothing is rounded. *)
Lemma norm_left (M E : Z) :
  0 < M ->
  let e' := fexp 53 1024 (Zdigits2 M + E) in
  e' <= E -> e' <= 971 ->
  binary_normalize 53 1024 M E false =
  S754_finite false (Z.to_pos (M * 2 ^ (E - e'))) e'.
Proof.
  intros HM e' He HE. destruct M as [|m|m]; try lia.
  cbn [binary_normalize]. unfold binary_round.
  change (Zpos (digits2_pos m)) with (Zdigits2 (Zpos m)). fold e'.
  destruct (shl_align_spec m E e' He) as [Hm Hs].
  destruct (shl_align m E e') as [mz ez]. cbn [fst snd] in Hm, Hs. subst ez.
  rewrite round_aux_noshift; try lia.
  - now rewrite Hm.
  - rewrite Hm, Zdigits2_shift by lia.
    replace (Zdigits2 (Zpos m) + (E - e') + e') with (Zdigits2 (Zpos m) + E)
      by lia.
    fold e'. lia.
Qed.

(** The same value written with a longer mantissa and a lower exponent
    normalises to the same float. *)
Lemma norm_shift (M E j : Z) :
  0 < M -> 0 <= j ->
  let e' := fexp 53 1024 (Zdigits2 M + E) in
  e' <= E -> e' <= 971 ->
  binary_normalize 53 1024 (M * 2 ^ j) (E - j) false =
  binary_normalize 53 1024 M E false.
Proof.
  intros HM Hj e' He HE.
  assert (Hp : 0 < 2 ^ j) by (apply Z.pow_pos_nonneg; lia).
  assert (HMj : 0 < M * 2 ^ j) by nia.
  assert (Hd : fexp 53 1024 (Zdigits2 (M * 2 ^ j) + (E - j)) = e').
  { rewrite Zdigits2_shift by lia.
    replace (Zdigits2 M + j + (E - j)) with (Zdigits2 M + E) by lia.
    reflexivity. }
  rewrite (norm_left M E HM He HE). fold e'.
  destruct (Z.le_gt_cases e' (E - j)) as [L | G].
  - rewrite (norm_left (M * 2 ^ j) (E - j) HMj); rewrite Hd; try lia.
    do 2 f_equal. rewrite <- Z.mul_assoc, <- Z.pow_add_r by lia.
    do 2 f_equal. lia.
  - destruct (M * 2 ^ j) as [|mj|mj] eqn:EM; try lia.
    cbn [binary_normalize]. unfold binary_round.
    change (Zpos (digits2_pos mj)) with (Zdigits2 (Zpos mj)).
    rewrite Hd. unfold shl_align.
    destruct (e' - (E - j)) as [|d|d] eqn:K; try lia.
    replace (E - j) with (e' - Zpos d) by lia.
    assert (EM' : Zpos mj = (M * 2 ^ (E - e')) * 2 ^ Zpos d).
    { rewrite <- EM, <- Z.mul_assoc, <- Z.pow_add_r by lia.
      do 2 f_equal. lia. }
    rewrite EM'.
    rewrite round_aux_shift.
    + f_equal. lia.
    + apply Z.mul_pos_pos; [lia | apply Z.pow_pos_nonneg; lia].
    + lia.
    + rewrite <- EM'. replace (e' - Zpos d) with (E - j) by lia.
      rewrite Hd. lia.
    + lia.
Qed.


Lemma of_Z_60 : PyFloat.of_Z 60 = S754_finite false 8444249301319680 (-47).
Proof. reflexivity. Qed.

Lemma bounded_digits (m : positive) (e : Z) :
  bounded 53 1024 m e = true ->
  fexp 53 1024 (Zdigits2 (Zpos m) + e) = e /\ e <= 971 /\ -1074 <= e /\
  Zpos m < 2 ^ 53.
Proof.
  unfold bounded, canonical_mantissa. intros H.
  apply andb_true_iff in H as [H1 H2].
  apply Z.eqb_eq in H1. apply Z.leb_le in H2.
  change (Zpos (digits2_pos m)) with (Zdigits2 (Zpos m)) in H1.
  repeat split; try assumption; try lia.
  - unfold fexp, emin in H1. lia.
  - apply Z.lt_le_trans with (2 ^ Zdigits2 (Zpos m));
      [apply Zdigits2_lower; lia|].
    apply Z.pow_le_mono_r; [lia|]. unfold fexp, emin in H1. lia.
Qed.

Lemma trunc_norm_left (R E : Z) :
  0 < R -> R < 2 ^ 53 -> -1074 <= E <= 0 ->
  exists mr er,
    binary_normalize 53 1024 R E false = S754_finite false mr er /\
    er <= E /\ Zpos mr = R * 2 ^ (E - er) /\
    PyFloat.trunc (S754_finite false mr er) = Some (R / 2 ^ (- E)).
Proof.
  intros HR Hb HE.
  pose proof (Zdigits2_upper R 53 ltac:(lia) ltac:(lia) Hb) as Hd.
  pose proof (Zdigits2_nonneg R) as Hd0.
  set (e' := fexp 53 1024 (Zdigits2 R + E)).
  assert (He : e' <= E) by (subst e'; unfold fexp, emin; lia).
  assert (Hp : 0 < 2 ^ (E - e')) by (apply Z.pow_pos_nonneg; lia).
  exists (Z.to_pos (R * 2 ^ (E - e'))), e'.
  split; [apply norm_left; try assumption; lia|].
  split; [exact He|].
  rewrite Z2Pos.id by nia. split; [reflexivity|].
  cbn [PyFloat.trunc cond_Zopp]. rewrite Z2Pos.id by nia.
  destruct (Z.leb_spec 0 e') as [L | G].
  - assert (e' = 0) by lia. assert (E = 0) by lia. subst E.
    replace (0 - e') with 0 by lia. replace e' with 0 by lia.
    cbn. f_equal. rewrite Z.div_1_r. lia.
  - f_equal. replace (- e') with (- E + (E - e')) by lia.
    rewrite Z.pow_add_r by lia.
    apply Z.div_mul_cancel_r; [|lia].
    assert (0 < 2 ^ (- E)) by (apply Z.pow_pos_nonneg; lia). lia.
Qed.


(** [fmod x 60] for a positive float below [2^13]: the remainder taken
    on a common grid. *)
Lemma fmod_60_form (m : positive) (e : Z) :
  bounded 53 1024 m e = true -> e <= -40 ->
  let n := Zpos m / 2 ^ (- e) in
  exists E X R,
    E <= e /\ E <= -47 /\ -1074 <= E /\
    X = Zpos m * 2 ^ (e - E) /\
    PyFloat.fmod (S754_finite false m e) (PyFloat.of_Z 60) =
      binary_normalize 53 1024 R E false /\
    0 <= R < 2 ^ 53 /\
    R / 2 ^ (- E) = n mod 60 /\
    X - R = 60 * 2 ^ (- E) * (n / 60).
Proof.
  intros Hb He n.
  destruct (bounded_digits m e Hb) as (_ & _ & Hlo & Hm).
  set (E := Z.min e (-47)).
  set (X := Zpos m * 2 ^ (e - E)).
  set (Y := 60 * 2 ^ (- E)).
  assert (HE1 : E <= e) by (subst E; lia).
  assert (HE2 : E <= -47) by (subst E; lia).
  assert (HE3 : -1074 <= E) by (subst E; lia).
  assert (Hp1 : 0 < 2 ^ (e - E)) by (apply Z.pow_pos_nonneg; lia).
  assert (Hp2 : 0 < 2 ^ (- E)) by (apply Z.pow_pos_nonneg; lia).
  assert (Hp3 : 0 < 2 ^ (- e)) by (apply Z.pow_pos_nonneg; lia).
  assert (HY : 0 < Y) by (subst Y; lia).
  assert (HX : 0 < X) by (subst X; nia).
  assert (HYe : 8444249301319680 * 2 ^ (-47 - E) = Y).
  { subst Y. change 8444249301319680 with (60 * 2 ^ 47).
    rewrite <- Z.mul_assoc, <- Z.pow_add_r by lia. do 2 f_equal. lia. }
  assert (Hn : X / 2 ^ (- E) = n).
  { subst X n. replace (- E) with (- e + (e - E)) by lia.
    rewrite Z.pow_add_r by lia. apply Z.div_mul_cancel_r; lia. }
  exists E, X, (X mod Y).
  pose proof (Z.mod_pos_bound X Y HY) as HR.
  repeat apply conj; try assumption; try lia.
  - rewrite of_Z_60. cbn [PyFloat.fmod cond_Zopp]. fold E. fold X.
    rewrite HYe. reflexivity.
  - destruct (Z.le_gt_cases e (-47)) as [L | G].
    + assert (E = e) by (subst E; lia).
      assert (X = Zpos m).
      { subst X. replace (e - E) with 0 by lia. lia. }
      pose proof (Z.mod_le X Y ltac:(lia) HY). lia.
    + assert (E = -47) by (subst E; lia).
      assert (Y = 60 * 2 ^ 47) by (subst Y; now replace (- E) with 47 by lia).
      assert (60 * 2 ^ 47 < 2 ^ 53) by reflexivity. lia.
  - rewrite <- Hn. subst Y. rewrite (Z.mul_comm 60).
    rewrite Z.rem_mul_r by lia.
    rewrite Z.mul_comm, Z.div_add by lia.
    rewrite Z.div_small by (apply Z.mod_pos_bound; lia). lia.
  - rewrite <- Hn. pose proof (Z.div_mod X Y ltac:(lia)) as Hdm.
    assert (Hq : X / Y = X / 2 ^ (- E) / 60).
    { subst Y. rewrite (Z.mul_comm 60). now rewrite Z.div_div by lia. }
    rewrite <- Hq. lia.
Qed.


Lemma ltz_positive (m : positive) (e : Z) :
  PyFloat.ltz (S754_finite false m e) = false.
Proof. reflexivity. Qed.

Lemma float_rem_60 (m : positive) (e : Z) :
  bounded 53 1024 m e = true -> e <= -40 ->
  PyFloat.trunc (PyFloat.float_rem (S754_finite false m e) (PyFloat.of_Z 60)) =
  Some ((Zpos m / 2 ^ (- e)) mod 60).
Proof.
  intros Hb He.
  destruct (fmod_60_form m e Hb He)
    as (E & X & R & HE1 & HE2 & HE3 & HX & Hf & HR & Hrm & _).
  unfold PyFloat.float_rem. rewrite Hf.
  destruct (Z.eq_dec R 0) as [-> | Hnz].
  - cbn [binary_normalize]. rewrite <- Hrm. reflexivity.
  - destruct (trunc_norm_left R E ltac:(lia) ltac:(lia) ltac:(lia))
      as (mr & er & Hn & _ & _ & Ht).
    rewrite Hn. cbn [PyFloat.nonzero PyFloat.is_zero negb].
    rewrite ltz_positive. change (PyFloat.ltz (PyFloat.of_Z 60)) with false.
    cbn [xorb]. now rewrite Ht, Hrm.
Qed.

Lemma canonical_of_Z (m : positive) (e v : Z) :
  bounded 53 1024 m e = true -> e <= 0 -> 0 < v -> v < 2 ^ 53 ->
  Zpos m = v * 2 ^ (- e) ->
  S754_finite false m e = PyFloat.of_Z v.
Proof.
  intros Hb He Hv Hv53 Hm.
  destruct (bounded_digits m e Hb) as (Hc & Hhi & Hlo & _).
  pose proof (Zdigits2_upper v 53 ltac:(lia) ltac:(lia) Hv53) as Hd.
  pose proof (Zdigits2_nonneg v) as Hd0.
  unfold PyFloat.of_Z, PyFloat.prec, PyFloat.emax.
  assert (Hf : fexp 53 1024 (Zdigits2 v + 0) <= 0)
    by (unfold fexp, emin; lia).
  pose proof (norm_shift v 0 (- e) Hv ltac:(lia) Hf ltac:(lia)) as Hs.
  replace (0 - - e) with e in Hs by lia.
  rewrite <- Hs, <- Hm.
  pose proof (norm_left (Zpos m) e ltac:(lia)) as Hn. cbv zeta in Hn.
  rewrite Hc in Hn. rewrite Hn by lia.
  replace (e - e) with 0 by lia. now rewrite Z.mul_1_r.
Qed.

(** What [x - fmod(x, 60)] is: the multiple of 60 below [x], exactly. *)
Lemma fsub_fmod_60 (m : positive) (e : Z) :
  bounded 53 1024 m e = true -> e <= -40 ->
  let q := Zpos m / 2 ^ (- e) / 60 in
  PyFloat.ltz (PyFloat.fmod (S754_finite false m e) (PyFloat.of_Z 60)) = false /\
  PyFloat.fsub (S754_finite false m e)
    (PyFloat.fmod (S754_finite false m e) (PyFloat.of_Z 60)) =
  (if q =? 0 then S754_zero false else PyFloat.of_Z (60 * q)).
Proof.
  intros Hb He q.
  destruct (bounded_digits m e Hb) as (Hc & Hhi & Hlo & Hm53).
  destruct (fmod_60_form m e Hb He)
    as (E & X & R & HE1 & HE2 & HE3 & HX & Hf & HR & Hrm & Hxr).
  fold q in Hxr. rewrite Hf.
  assert (Hp1 : 0 < 2 ^ (e - E)) by (apply Z.pow_pos_nonneg; lia).
  assert (Hp2 : 0 < 2 ^ (- E)) by (apply Z.pow_pos_nonneg; lia).
  assert (Hp3 : 0 < 2 ^ (- e)) by (apply Z.pow_pos_nonneg; lia).
  assert (Hq0 : 0 <= q).
  { subst q. apply Z.div_pos; [|lia]. apply Z.div_pos; lia. }
  assert (Hq13 : 60 * q < 2 ^ 13).
  { assert (Zpos m / 2 ^ (- e) < 2 ^ 13).
    { apply Z.div_lt_upper_bound; [lia|].
      apply Z.lt_le_trans with (2 ^ 53); [exact Hm53|].
      rewrite <- Z.pow_add_r by lia. apply Z.pow_le_mono_r; lia. }
    pose proof (Z.mul_div_le (Zpos m / 2 ^ (- e)) 60 ltac:(lia)).
    fold q in H0. lia. }
  assert (Hpow : 2 ^ (- E) = 2 ^ (- e) * 2 ^ (e - E)).
  { rewrite <- Z.pow_add_r by lia. f_equal. lia. }
  destruct (Z.eq_dec R 0) as [HR0 | HR0].
  - rewrite HR0. cbn [binary_normalize]. split; [reflexivity|].
    cbn [PyFloat.fsub SFsub].
    assert (Hmq : Zpos m = 60 * q * 2 ^ (- e)).
    { rewrite HR0, HX, Hpow in Hxr.
      apply (Z.mul_cancel_r _ _ (2 ^ (e - E))); [lia|]. lia. }
    destruct (Z.eqb_spec q 0) as [Hq | Hq]; [rewrite Hq in Hmq; lia|].
    apply (canonical_of_Z m e (60 * q)); try assumption; lia.
  - destruct (trunc_norm_left R E ltac:(lia) ltac:(lia) ltac:(lia))
      as (mr & er & Hn & Her & Hmr & _).
    rewrite Hn. split; [reflexivity|].
    unfold PyFloat.fsub, SFsub, PyFloat.prec, PyFloat.emax.
    replace (Z.min e er) with er by lia. cbn [cond_Zopp].
    destruct (shl_align_spec m e er ltac:(lia)) as [H1 _].
    destruct (shl_align_spec mr er er ltac:(lia)) as [H2 _].
    rewrite H1, H2, Hmr. replace (er - er) with 0 by lia.
    rewrite Z.mul_1_r.
    assert (HD : Zpos m * 2 ^ (e - er) - R * 2 ^ (E - er) =
                 60 * q * 2 ^ (- er)).
    { assert (Hpa : 2 ^ (e - er) = 2 ^ (e - E) * 2 ^ (E - er)).
      { rewrite <- Z.pow_add_r by lia. f_equal. lia. }
      assert (Hpb : 2 ^ (- er) = 2 ^ (- E) * 2 ^ (E - er)).
      { rewrite <- Z.pow_add_r by lia. f_equal. lia. }
      rewrite Hpa, Hpb. rewrite HX in Hxr. nia. }
    rewrite HD.
    destruct (Z.eqb_spec q 0) as [Hq | Hq].
    + rewrite Hq. reflexivity.
    + pose proof (Zdigits2_upper (60 * q) 13 ltac:(lia) ltac:(lia) Hq13) as Hd.
      pose proof (Zdigits2_nonneg (60 * q)) as Hd0.
      replace er with (0 - - er) at 2 by lia.
      apply norm_shift; try lia; cbv zeta; unfold fexp, emin; lia.
Qed.

Lemma floor_div_tail :
  forallb
    (fun q =>
       let div := PyFloat.fdiv (PyFloat.of_Z (60 * q)) (PyFloat.of_Z 60) in
       PyFloat.nonzero div &&
       match PyFloat.trunc
               (let fl := PyFloat.floor div in
                if PyFloat.fltb PyFloat.half (PyFloat.fsub div fl)
                then PyFloat.fadd fl PyFloat.one else fl) with
       | Some z => z =? q
       | None => false
       end)
    (map Z.of_nat (seq 1 99)) = true.
Proof. vm_compute. reflexivity. Qed.

Lemma float_floor_div_60 (m : positive) (e : Z) :
  bounded 53 1024 m e = true -> e <= -40 ->
  Zpos m / 2 ^ (- e) < 6000 ->
  PyFloat.trunc
    (PyFloat.float_floor_div (S754_finite false m e) (PyFloat.of_Z 60)) =
  Some (Zpos m / 2 ^ (- e) / 60).
Proof.
  intros Hb He Hn.
  destruct (fsub_fmod_60 m e Hb He) as [Hl Hs]. cbv zeta in Hs.
  assert (Hp3 : 0 < 2 ^ (- e)) by (apply Z.pow_pos_nonneg; lia).
  remember (Zpos m / 2 ^ (- e) / 60) as q eqn:Eq.
  assert (Hq : 0 <= q < 100).
  { rewrite Eq. split.
    - apply Z.div_pos; [|lia]. apply Z.div_pos; lia.
    - apply Z.div_lt_upper_bound; lia. }
  unfold PyFloat.float_floor_div. rewrite Hl, Hs.
  change (PyFloat.ltz (PyFloat.of_Z 60)) with false.
  cbn [xorb]. rewrite andb_false_r.
  destruct (Z.eqb_spec q 0) as [Hq0 | Hq0].
  - rewrite Hq0, of_Z_60.
    change (PyFloat.fdiv (S754_zero false)
              (S754_finite false 8444249301319680 (-47)))
      with (S754_zero false).
    cbn [PyFloat.nonzero PyFloat.is_zero negb]. unfold PyFloat.copysign0.
    reflexivity.
  - assert (Hin : In q (map Z.of_nat (seq 1 99))).
    { apply in_map_iff. exists (Z.to_nat q). split; [lia|].
      apply in_seq. lia. }
    pose proof (proj1 (forallb_forall _ _) floor_div_tail q Hin) as Ht.
    cbv beta zeta in Ht. apply andb_true_iff in Ht as [Hnz Ht].
    rewrite Hnz.
    destruct (PyFloat.trunc _) as [z|]; [|discriminate Ht].
    apply Z.eqb_eq in Ht. now subst z.
Qed.


Lemma small_float_exponent (m : positive) (e n : Z) :
  bounded 53 1024 m e = true ->
  PyFloat.trunc (S754_finite false m e) = Some n -> n < 6000 ->
  e <= -40 /\ n = Zpos m / 2 ^ (- e) /\ 0 <= n.
Proof.
  intros Hb Ht Hn.
  destruct (bounded_digits m e Hb) as (Hc & Hhi & Hlo & Hm53).
  pose proof (Zdigits2_ge (Zpos m) ltac:(lia)) as Hge.
  cbn [PyFloat.trunc cond_Zopp] in Ht.
  assert (Hbig : -1074 < e -> 2 ^ 52 <= Zpos m).
  { intros H. unfold fexp, emin in Hc.
    assert (Zdigits2 (Zpos m) = 53) by lia.
    now replace (Zdigits2 (Zpos m) - 1) with 52 in Hge by lia. }
  destruct (Z.leb_spec 0 e) as [L | G].
  - exfalso. injection Ht as Ht.
    assert (1 <= 2 ^ e) by (apply (Z.pow_le_mono_r 2 0 e); lia).
    specialize (Hbig ltac:(lia)).
    assert (2 ^ 52 <= n) by nia.
    assert (6000 < 2 ^ 52) by reflexivity. lia.
  - injection Ht as Ht.
    assert (Hp : 0 < 2 ^ (- e)) by (apply Z.pow_pos_nonneg; lia).
    split; [|split; [now symmetry | rewrite <- Ht; apply Z.div_pos; lia]].
    destruct (Z.le_gt_cases e (-40)) as [L' | G']; [exact L' | exfalso].
    specialize (Hbig ltac:(lia)).
    assert (2 ^ (- e) <= 2 ^ 39) by (apply Z.pow_le_mono_r; lia).
    assert (H13 : 2 ^ 13 <= Zpos m / 2 ^ (- e)).
    { apply Z.div_le_lower_bound; [lia|].
      apply Z.le_trans with (2 ^ 39 * 2 ^ 13); [nia|].
      now change (2 ^ 39 * 2 ^ 13) with (2 ^ 52). }
    assert (6000 < 2 ^ 13) by reflexivity. lia.
Qed.

End FloatRange.

(** ** What a downloading event reports *)

Lemma is_mm_ss_short_etas :
  forallb (fun e => is_mm_ss (PyFloat.format_0d 2 (e / 60) ++ ":" ++
                              PyFloat.format_0d 2 (e mod 60)))
    short_etas = true.
Proof. vm_compute. reflexivity. Qed.

Lemma In_short_etas (e : Z) : (0 < e < 6000)%Z -> In e short_etas.
Proof.
  intros H. unfold short_etas. apply in_map_iff.
  exists (Z.to_nat e). split; [lia|]. apply in_seq. lia.
Qed.

Lemma truediv_float_1024 (x : PyFloat.float) :
  truediv (PyFloat x) (PyInt 1024) = Ok (PyFloat.fdiv x (PyFloat.of_Z 1024)).
Proof. reflexivity. Qed.

Lemma speed_str_of_unknown (v : pyval) :
  truthy v = false -> speed_str_of v = Ok "?".
Proof. intros H. unfold speed_str_of. now rewrite H. Qed.

Lemma speed_str_of_float (x : PyFloat.float) :
  PyFloat.nonzero x = true ->
  speed_str_of (PyFloat x) =
  Ok (PyFloat.format_f 0 2
        (PyFloat.fdiv (PyFloat.fdiv x (PyFloat.of_Z 1024)) (PyFloat.of_Z 1024))
      ++ "MiB/s").
Proof.
  intros H. unfold speed_str_of, mib. cbn [truthy]. rewrite H.
  rewrite truediv_float_1024. cbn [rbind]. now rewrite truediv_float_1024.
Qed.

Lemma speed_str_of_int (z : Z) :
  z <> 0%Z ->
  speed_str_of (PyInt z) =
  if PyFloat.is_inf (PyFloat.int_truediv z 1024)
  then Raise (OverflowError "integer division result too large for a float")
  else Ok (PyFloat.format_f 0 2
             (PyFloat.fdiv (PyFloat.int_truediv z 1024) (PyFloat.of_Z 1024))
           ++ "MiB/s").
Proof.
  intros H. unfold speed_str_of, mib. cbn [truthy].
  destruct (Z.eqb_spec z 0) as [E | _]; [contradiction|]. cbn [negb].
  cbn [truediv]. change (1024 =? 0)%Z with false. cbv iota.
  destruct (PyFloat.is_inf (PyFloat.int_truediv z 1024)); reflexivity.
Qed.

Lemma eta_str_of_unknown (v : pyval) :
  truthy v = false -> eta_str_of v = Ok "?".
Proof. intros H. unfold eta_str_of. now rewrite H. Qed.

Lemma eta_str_of_int (e : Z) :
  e <> 0%Z ->
  eta_str_of (PyInt e) =
  Ok (PyFloat.format_0d 2 (e / 60) ++ ":" ++ PyFloat.format_0d 2 (e mod 60)).
Proof.
  intros H. unfold eta_str_of. cbn [truthy].
  destruct (Z.eqb_spec e 0) as [E | _]; [contradiction | reflexivity].
Qed.

Lemma eta_str_of_float (x : PyFloat.float) :
  PyFloat.nonzero x = true ->
  eta_str_of (PyFloat x) =
  rbind (int_ (NFloat (PyFloat.float_floor_div x (PyFloat.of_Z 60))))
    (fun mm =>
       rbind (int_ (NFloat (PyFloat.float_rem x (PyFloat.of_Z 60))))
         (fun ss =>
            Ok (PyFloat.format_0d 2 mm ++ ":" ++ PyFloat.format_0d 2 ss))).
Proof. intros H. unfold eta_str_of. cbn [truthy]. now rewrite H. Qed.

Section FloatEta.

Local Open Scope Z_scope.

(** A positive float ETA below 6000 seconds is shown as the minutes
    and seconds of its whole part, the same text an integer ETA of that
    many seconds gets (an ETA below one second is shown as [00:00]). *)
Lemma eta_str_of_small_float (m : positive) (e n : Z) :
  bounded 53 1024 m e = true ->
  PyFloat.trunc (S754_finite false m e) = Some n -> n < 6000 ->
  eta_str_of (PyFloat (S754_finite false m e)) =
    Ok (PyFloat.format_0d 2 (n / 60) ++ ":" ++ PyFloat.format_0d 2 (n mod 60)) /\
  is_mm_ss (PyFloat.format_0d 2 (n / 60) ++ ":" ++
            PyFloat.format_0d 2 (n mod 60)) = true.
Proof.
  intros Hb Ht Hn.
  destruct (small_float_exponent m e n Hb Ht Hn) as (He & En & Hn0).
  split.
  - unfold eta_str_of. cbn [truthy PyFloat.nonzero PyFloat.is_zero negb].
    cbn [floordiv_int mod_int rbind int_].
    rewrite (float_floor_div_60 m e Hb He) by (rewrite <- En; exact Hn).
    rewrite (float_rem_60 m e Hb He). rewrite <- En. reflexivity.
  - destruct (Z.eq_dec n 0) as [-> | Hnz]; [reflexivity|].
    assert (Hr : 0 < n < 6000) by lia.
    apply In_short_etas in Hr.
    exact (proj1 (forallb_forall _ _) is_mm_ss_short_etas n Hr).
Qed.

End FloatEta.

Lemma mib_int (z : Z) :
  z <> 0%Z -> (Z.abs z < 2 ^ 1023)%Z ->
  mib (PyInt z) =
  Ok (PyFloat.fdiv (PyFloat.int_truediv z 1024) (PyFloat.of_Z 1024)).
Proof.
  intros Hz Hb. unfold mib. cbn [truediv]. change (1024 =? 0)%Z with false.
  cbv iota. rewrite int_truediv_finite by (lia || exact Hb). reflexivity.
Qed.

Lemma mb_of_int (d : dict) (k : string) (z : Z) :
  d !! k = Some (PyInt z) -> (Z.abs z < 2 ^ 1023)%Z ->
  mb_of d k =
  Ok (if (z =? 0)%Z then PyInt 0
      else PyFloat (PyFloat.fdiv (PyFloat.int_truediv z 1024) (PyFloat.of_Z 1024))).
Proof.
  intros Hk Hb. unfold mb_of, getitem. rewrite Hk. cbn [rbind truthy].
  destruct (Z.eqb_spec z 0) as [E | E]; cbn [negb]; [reflexivity|].
  now rewrite (mib_int z E Hb).
Qed.

Section Downloading.

Variable float_repr : PyFloat.float -> string.

Lemma percent_of_ints (d : dict) (a b : Z) :
  d !! "downloaded_bytes" = Some (PyInt a) ->
  d !! "total_bytes" = Some (PyInt b) ->
  b <> 0%Z ->
  percent_of d =
  if PyFloat.is_inf (PyFloat.int_truediv a b)
  then Raise (OverflowError "integer division result too large for a float")
  else Ok (fmul_int (PyFloat.int_truediv a b) 100).
Proof.
  intros Ha Hb Hz. unfold percent_of, getitem. rewrite Ha, Hb.
  cbn [rbind truediv].
  destruct (Z.eqb_spec b 0) as [E | _]; [contradiction|].
  now destruct (PyFloat.is_inf (PyFloat.int_truediv a b)).
Qed.

Lemma progress_after_percent (d : dict) (w : world) (p : PyFloat.float) :
  percent_of d = Ok p ->
  _handle_download_progress float_repr d w =
  match progress_line_of float_repr d p with
  | Ok line =>
      (Ok tt, log_insert (line ++ nl) "progress" (with_progress_var (PyFloat p) w))
  | Raise e => (Raise e, with_progress_var (PyFloat p) w)
  end.
Proof.
  intros Hp. unfold _handle_download_progress, bind, lift, act. rewrite Hp.
  now destruct (progress_line_of float_repr d p).
Qed.

Lemma progress_line_of_parts (d : dict) (p : PyFloat.float)
    (size downloaded : pyval) (size_txt speed_str eta_str frag_str : string) :
  mb_of d "total_bytes" = Ok size ->
  mb_of d "downloaded_bytes" = Ok downloaded ->
  speed_str_of (get d "speed" (PyInt 0)) = Ok speed_str ->
  eta_str_of (get d "eta" PyNone) = Ok eta_str ->
  frag_str_of float_repr d = Ok frag_str ->
  format_fixed 7 2 size = Ok size_txt ->
  progress_line_of float_repr d p =
  Ok ("[download]  " ++ PyFloat.format_f 5 1 p ++ "% of ~ " ++ size_txt ++
      "MiB at " ++ speed_str ++ " ETA " ++ eta_str ++ " " ++ frag_str).
Proof.
  intros Hs Hd Hv He Hf Ht. unfold progress_line_of.
  rewrite Hs. cbn [rbind]. rewrite Hd. cbn [rbind]. rewrite Hv. cbn [rbind].
  rewrite He. cbn [rbind]. rewrite Hf. cbn [rbind]. rewrite Ht. reflexivity.
Qed.

Lemma frag_str_of_total (d : dict) : exists t, frag_str_of float_repr d = Ok t.
Proof.
  unfold frag_str_of, key_in, getitem.
  destruct (d !! "fragments"), (d !! "fragment_index"), (d !! "total_fragments");
    cbn [andb rbind]; eexists; reflexivity.
Qed.

Lemma progress_hook_downloading (audio_only : bool) (vc : counter_ref)
    (total : Z) (d : dict) (w : world) (v : pyval) :
  stop_flag w = false ->
  d !! "status" = Some (PyStr "downloading") ->
  key_in "downloaded_bytes" d = true ->
  d !! "total_bytes" = Some v -> truthy v = true ->
  progress_hook float_repr audio_only vc total d w =
  _handle_download_progress float_repr d w.
Proof.
  intros Hstop Hst Hdl Htot Hv. rewrite progress_hook_running by exact Hstop.
  unfold bind at 1 2. unfold lift, getitem. rewrite Hst.
  change (eq_str (PyStr "downloading") "downloading") with true.
  rewrite Hdl. unfold key_in. rewrite Htot. cbn [andb rbind]. now rewrite Hv.
Qed.

Lemma progress_hook_no_total (audio_only : bool) (vc : counter_ref)
    (total : Z) (d : dict) (w : world) :
  stop_flag w = false ->
  d !! "status" = Some (PyStr "downloading") ->
  d !! "total_bytes" = None \/
  (exists v, d !! "total_bytes" = Some v /\ truthy v = false) ->
  progress_hook float_repr audio_only vc total d w = (Ok tt, w).
Proof.
  intros Hstop Hst Htot. rewrite progress_hook_running by exact Hstop.
  unfold bind, lift, getitem. rewrite Hst.
  change (eq_str (PyStr "downloading") "downloading") with true.
  change (eq_str (PyStr "downloading") "finished") with false.
  unfold key_in. destruct Htot as [Htot | [v [Htot Hv]]]; rewrite Htot.
  - rewrite andb_false_r. reflexivity.
  - destruct (d !! "downloaded_bytes"); cbn [andb rbind]; [now rewrite Hv | reflexivity].
Qed.

End Downloading.

(** The claim as the specification words it: every downloading event
    with known byte counts and a non-zero total has its ETA shown as
    mm:ss.  An event that carries no ETA is shown with a question
    mark. *)
Lemma eta_always_mm_ss_counterexample :
  ~ (forall (d : dict) (a b : Z),
        d !! "status" = Some (PyStr "downloading") ->
        d !! "downloaded_bytes" = Some (PyInt a) ->
        d !! "total_bytes" = Some (PyInt b) ->
        b <> 0%Z ->
        exists t, eta_str_of (get d "eta" PyNone) = Ok t /\ is_mm_ss t = true).
Proof.
  intros H.
  destruct (H bare_event 512%Z 2048%Z eq_refl eq_refl eq_refl) as (t & E & M).
  - discriminate.
  - vm_compute in E. injection E as <-. discriminate M.
Qed.

(** The line the bare event puts in the log. *)
Example bare_event_line :
  output_text (snd (progress_hook sample_repr false 0%nat 1 bare_event
                      (with_counters [0%Z] initial_world))) =
  [("[download]   25.0% of ~    0.00MiB at ? ETA ? " ++ nl, "progress")].
Proof. vm_compute. reflexivity. Qed.

(** C8 (amended). With the stop flag clear, a downloading event whose
    byte counts are integers (below [2^1023] in magnitude) with a
    non-zero total sets the bar to the float [downloaded / total * 100],
    also when the speed or the ETA cannot be formatted; when they can,
    one line tagged [progress] is added to the log, and the hook
    returns.  The speed reads [?] when it is absent, [None] or zero and
    otherwise its value divided twice by 1024 with two decimals and the
    unit [MiB/s]; the ETA reads [?] when it is absent, [None] or zero and
    otherwise minutes and seconds, each padded with zeros to two digits
    at least: [e // 60] and [e % 60] for an integer ETA, the whole parts
    of the float floor quotient and remainder for a float ETA.  An
    integer ETA from 1 to 5999 reads exactly [dd:dd], and so does every
    positive float ETA below 6000, which reads as the integer ETA of its
    whole seconds does.  An event whose total is absent, [None] or zero
    changes nothing. *)
Theorem downloading_event_report :
  forall (float_repr : PyFloat.float -> string) (audio_only : bool)
         (vc : counter_ref) (total : Z) (d : dict) (w : world) (a b : Z),
    stop_flag w = false ->
    d !! "status" = Some (PyStr "downloading") ->
    d !! "downloaded_bytes" = Some (PyInt a) ->
    d !! "total_bytes" = Some (PyInt b) ->
    b <> 0%Z ->
    (Z.abs a < 2 ^ 1023)%Z -> (Z.abs b < 2 ^ 1023)%Z ->
    let percent := fmul_int (PyFloat.int_truediv a b) 100 in
    let size := PyFloat.fdiv (PyFloat.int_truediv b 1024) (PyFloat.of_Z 1024) in
    let speed := get d "speed" (PyInt 0) in
    let eta := get d "eta" PyNone in
    progress_var (snd (progress_hook float_repr audio_only vc total d w)) =
      PyFloat percent /\
    (forall speed_str eta_str,
        speed_str_of speed = Ok speed_str ->
        eta_str_of eta = Ok eta_str ->
        exists frag_str,
          frag_str_of float_repr d = Ok frag_str /\
          progress_hook float_repr audio_only vc total d w =
          (Ok tt,
           log_insert
             ("[download]  " ++ PyFloat.format_f 5 1 percent ++ "% of ~ " ++
              PyFloat.format_f 7 2 size ++ "MiB at " ++ speed_str ++ " ETA " ++
              eta_str ++ " " ++ frag_str ++ nl)
             "progress" (with_progress_var (PyFloat percent) w))) /\
    (truthy speed = false -> speed_str_of speed = Ok "?") /\
    (forall x,
        speed = PyFloat x -> PyFloat.nonzero x = true ->
        speed_str_of speed =
        Ok (PyFloat.format_f 0 2
              (PyFloat.fdiv (PyFloat.fdiv x (PyFloat.of_Z 1024))
                 (PyFloat.of_Z 1024)) ++ "MiB/s")) /\
    (forall z,
        speed = PyInt z -> z <> 0%Z -> (Z.abs z < 2 ^ 1023)%Z ->
        speed_str_of speed =
        Ok (PyFloat.format_f 0 2
              (PyFloat.fdiv (PyFloat.int_truediv z 1024) (PyFloat.of_Z 1024))
            ++ "MiB/s")) /\
    (truthy eta = false -> eta_str_of eta = Ok "?") /\
    (forall e,
        eta = PyInt e -> e <> 0%Z ->
        eta_str_of eta =
          Ok (PyFloat.format_0d 2 (e / 60) ++ ":" ++
              PyFloat.format_0d 2 (e mod 60)) /\
        ((0 < e < 6000)%Z ->
         is_mm_ss (PyFloat.format_0d 2 (e / 60) ++ ":" ++
                   PyFloat.format_0d 2 (e mod 60)) = true)) /\
    (forall x,
        eta = PyFloat x -> PyFloat.nonzero x = true ->
        eta_str_of eta =
        rbind (int_ (NFloat (PyFloat.float_floor_div x (PyFloat.of_Z 60))))
          (fun mm =>
             rbind (int_ (NFloat (PyFloat.float_rem x (PyFloat.of_Z 60))))
               (fun ss =>
                  Ok (PyFloat.format_0d 2 mm ++ ":" ++
                      PyFloat.format_0d 2 ss)))) /\
    (forall m e n,
        eta = PyFloat (S754_finite false m e) ->
        bounded 53 1024 m e = true ->
        PyFloat.trunc (S754_finite false m e) = Some n -> (n < 6000)%Z ->
        eta_str_of eta =
          Ok (PyFloat.format_0d 2 (n / 60) ++ ":" ++
              PyFloat.format_0d 2 (n mod 60)) /\
        is_mm_ss (PyFloat.format_0d 2 (n / 60) ++ ":" ++
                  PyFloat.format_0d 2 (n mod 60)) = true) /\
    (forall d' w',
        stop_flag w' = false ->
        d' !! "status" = Some (PyStr "downloading") ->
        d' !! "total_bytes" = None \/
        (exists v, d' !! "total_bytes" = Some v /\ truthy v = false) ->
        progress_hook float_repr audio_only vc total d' w' = (Ok tt, w')).
Proof.
  intros float_repr audio_only vc total d w a b Hstop Hst Ha Hb Hz Hba Hbb
    percent size speed eta.
  assert (Hh : progress_hook float_repr audio_only vc total d w =
               _handle_download_progress float_repr d w).
  { apply (progress_hook_downloading float_repr audio_only vc total d w (PyInt b));
      try assumption.
    - unfold key_in. now rewrite Ha.
    - cbn [truthy]. destruct (Z.eqb_spec b 0); [contradiction | reflexivity]. }
  assert (Hp : percent_of d = Ok percent).
  { rewrite (percent_of_ints d a b Ha Hb Hz).
    now rewrite (int_truediv_finite a b Hz Hba). }
  repeat apply conj.
  - rewrite Hh, (progress_after_percent float_repr d w percent Hp).
    now destruct (progress_line_of float_repr d percent).
  - intros speed_str eta_str Hs He.
    destruct (frag_str_of_total float_repr d) as [frag_str Hf].
    exists frag_str. split; [exact Hf|].
    rewrite Hh, (progress_after_percent float_repr d w percent Hp).
    rewrite (progress_line_of_parts float_repr d percent (PyFloat size)
               (if (a =? 0)%Z then PyInt 0
                else PyFloat (PyFloat.fdiv (PyFloat.int_truediv a 1024)
                                (PyFloat.of_Z 1024)))
               (PyFloat.format_f 7 2 size) speed_str eta_str frag_str);
      try assumption; try reflexivity.
    + now rewrite !append_assoc.
    + rewrite (mb_of_int d "total_bytes" b Hb Hbb).
      destruct (Z.eqb_spec b 0); [contradiction | reflexivity].
    + now apply mb_of_int.
  - apply speed_str_of_unknown.
  - intros x -> Hx. now apply speed_str_of_float.
  - intros z -> Hz0 Hbz. rewrite (speed_str_of_int z Hz0).
    now rewrite (int_truediv_finite z 1024) by (lia || exact Hbz).
  - apply eta_str_of_unknown.
  - intros e -> He. split; [now apply eta_str_of_int|].
    intros Hr. apply In_short_etas in Hr.
    exact (proj1 (forallb_forall _ _) is_mm_ss_short_etas e Hr).
  - intros x -> Hx. now apply eta_str_of_float.
  - intros m e n -> Hbd Ht Hn. now apply eta_str_of_small_float.
  - intros d' w'. apply progress_hook_no_total.
Qed.

Lemma downloading_event_report_witness :
  progress_hook sample_repr false 0%nat 1 full_event
    (with_counters [0%Z] initial_world) =
  (Ok tt,
   log_insert ("[download]   25.0% of ~    0.00MiB at 3.00MiB/s ETA 02:05 " ++ nl)
     "progress"
     (with_progress_var (PyFloat (fmul_int (PyFloat.int_truediv 512 2048) 100))
        (with_counters [0%Z] initial_world))).
Proof.
  destruct (downloading_event_report sample_repr false 0%nat 1 full_event
              (with_counters [0%Z] initial_world) 512 2048)
    as (_ & Hline & _).
  1-4: reflexivity.
  - discriminate.
  - reflexivity.
  - reflexivity.
  - destruct (Hline "3.00MiB/s" "02:05") as (frag_str & Hf & Hh).
    + vm_compute. reflexivity.
    + vm_compute. reflexivity.
    + rewrite Hh. vm_compute in Hf. injection Hf as <-. vm_compute. reflexivity.
Defined.

(** ** The output template *)

(** C3. The naming template handed to the media library is the
    destination directory joined with the fixed text
    [%(title)s.%(ext)s], whatever the mode, the hook and the logger: no
    title enters it and [sanitize_filename] takes no part in it.  So for
    a video whose title is [a?b], which [sanitize_filename] would turn
    into [ab], the task logs the title as it is and the library is
    called with the template [downloads/%(title)s.%(ext)s] (a library
    that prints the template it is given shows it). *)
Theorem outtmpl_is_fixed_template :
  forall (os_path_join : string -> string -> string)
         (self : PlaylistDownloader) (output_dir : string) (audio_only : bool)
         (hook : dict -> M unit) (lg : YTDlpLogger),
    outtmpl (_get_ydl_options os_path_join self output_dir audio_only hook lg) =
      os_path_join output_dir "%(title)s.%(ext)s" /\
    sanitize_filename "a?b" = "ab" /\
    let titled (flat : bool) (url : string) : result info_dict :=
      Ok (MkInfo {[ "title" := PyStr "a?b" ]} None) in
    let shows_template (opts : ydl_opts) (urls : list string) : M unit :=
      act (print (outtmpl opts)) in
    let w :=
      snd (run sample_repr posix_join (fun p => p) (fun _ => true)
             (fun _ => Ok tt) titled shows_template sample_self
             "https://youtu.be/abc123" "downloads" audio_only 0%nat
             initial_world) in
    stdout w =
      ["downloads/%(title)s.%(ext)s";
       "Video download completed! File saved in: downloads"] /\
    output_text w =
      [("Downloading video: a?b" ++ nl, "info");
       ("Duration: Unknown seconds" ++ nl, "info")].
Proof.
  intros. split; [|split].
  - unfold _get_ydl_options. destruct audio_only; reflexivity.
  - reflexivity.
  - destruct audio_only; vm_compute; split; reflexivity.
Qed.

(** ** Two whole runs *)

(** A single video in video mode: the label goes from 0/1 to 1/1 on the
    merger line, not on the finished event, and the run ends with the
    completion status. *)
Example video_run_counts_on_merge :
  let w := snd (sample_video_run sample_video_download 0%nat sample_started) in
  let w0 := snd (sample_video_run sample_download 0%nat sample_started) in
  progress_label_var w = "Progress: 1/1" /\
  status_var w = "Video download completed!" /\
  active_downloads w = [] /\
  progress_label_var w0 = "Progress: 0/1".
Proof. vm_compute. repeat split. Qed.

(** The same link in audio mode: the finished event alone counts. *)
Example audio_run_counts_on_finish :
  progress_label_var sample_done = "Progress: 1/1" /\
  status_var sample_done = "Video download completed!" /\
  download_btn sample_done = NORMAL.
Proof. vm_compute. repeat split. Qed.

(** ** What a task hands to the media library *)

Lemma info_line_is_not_merger (c : ascii) (rest : string) :
  Ascii.eqb "[" c = false -> startswith (String c rest) merger_line = false.
Proof. intros H. unfold merger_line. cbn [startswith]. now rewrite H. Qed.

Lemma write_plain_line (lg : YTDlpLogger) (msg tag : string) (w : world) :
  startswith msg merger_line = false ->
  _write_to_output lg msg tag w = (Ok tt, log_insert (msg ++ nl) tag w).
Proof.
  intros H. unfold _write_to_output. rewrite H. unfold bind, act, ret.
  destruct (lg_audio_only lg), (lg_video_counter lg),
    (lg_progress_label_var lg), (lg_total_videos lg); reflexivity.
Qed.

Section Tasks.

Variable float_repr : PyFloat.float -> string.
Variable os_path_join : string -> string -> string.
Variable os_path_abspath : string -> string.
Variable os_path_exists : string -> bool.
Variable os_makedirs : string -> result unit.
Variable extract_info : bool -> string -> result info_dict.
Variable ydl_download : ydl_opts -> list string -> M unit.

(** Every video task gives the library the hook and the logger of its
    own fresh counter, with a total of one. *)
Lemma video_task_callbacks (self : PlaylistDownloader) (url output_dir : string)
    (audio_only : bool) (w : world) (info : info_dict) :
  os_path_exists output_dir = true ->
  extract_info false url = Ok info ->
  let vc := length (counters w) in
  exists (w1 : world) (k : unit -> M unit),
    _download_video_process float_repr os_path_join os_path_abspath
      os_path_exists os_makedirs extract_info ydl_download self url output_dir
      audio_only w =
    bind (ydl_download
            (_get_ydl_options os_path_join self output_dir audio_only
               (progress_hook float_repr audio_only vc 1)
               (MkLogger (Some vc) (Some ProgressLabelVar) (Some 1%Z) audio_only))
            [url]) k w1 /\
    counters w1 = (counters w ++ [0%Z])%list /\
    progress_label_var w1 = "Progress: 0/1".
Proof.
  intros Hdir Hinfo vc. unfold _download_video_process, ensure_output_dir.
  rewrite Hdir, Hinfo.
  unfold bind at 1. unfold ret.
  unfold bind at 1. unfold lift.
  unfold bind at 1. unfold new_counter. fold vc.
  unfold bind at 1. unfold act at 1.
  unfold bind at 1.
  rewrite write_plain_line
    by (rewrite append_cons; now apply info_line_is_not_merger).
  unfold bind at 1.
  rewrite write_plain_line
    by (rewrite append_cons; now apply info_line_is_not_merger).
  eexists. eexists. split; [reflexivity|]. split; reflexivity.
Qed.

(** Every playlist task does the same with the number of entries as the
    total. *)
Lemma playlist_task_callbacks (self : PlaylistDownloader)
    (url output_dir : string) (audio_only : bool) (w : world)
    (info : info_dict) :
  os_path_exists output_dir = true ->
  extract_info true url = Ok info ->
  let vc := length (counters w) in
  let total := Z.of_nat (length (default [] (info_entries info))) in
  exists (w1 : world) (k : unit -> M unit),
    _download_playlist_process float_repr os_path_join os_path_abspath
      os_path_exists os_makedirs extract_info ydl_download self url output_dir
      audio_only w =
    bind (ydl_download
            (_get_ydl_options os_path_join self output_dir audio_only
               (progress_hook float_repr audio_only vc total)
               (MkLogger (Some vc) (Some ProgressLabelVar) (Some total)
                  audio_only))
            [url]) k w1 /\
    counters w1 = (counters w ++ [0%Z])%list /\
    progress_label_var w1 = progress_text 0 total.
Proof.
  intros Hdir Hinfo vc total. unfold _download_playlist_process, ensure_output_dir.
  rewrite Hdir, Hinfo.
  unfold bind at 1. unfold ret.
  unfold bind at 1. unfold lift.
  unfold bind at 1. unfold new_counter. fold vc. fold total.
  unfold bind at 1. unfold act at 1.
  unfold bind at 1.
  rewrite write_plain_line
    by (rewrite append_cons; now apply info_line_is_not_merger).
  unfold bind at 1.
  rewrite write_plain_line
    by (rewrite append_cons; now apply info_line_is_not_merger).
  eexists. eexists. split; [reflexivity|]. split; reflexivity.
Qed.

End Tasks.
(* ================================================================== *)
(** * Further properties of the callbacks, the task and the buttons *)
(* ================================================================== *)

(** ** What the callbacks leave alone *)

Lemma same_controls_refl (w : world) : same_controls w w.
Proof. unfold same_controls. tauto. Qed.

Lemma same_controls_trans (x y z : world) :
  same_controls x y -> same_controls y z -> same_controls x z.
Proof.
  unfold same_controls. intros H1 H2.
  destruct H1 as (A1 & A2 & A3 & A4 & A5 & A6 & A7 & A8 & A9 & A10).
  destruct H2 as (B1 & B2 & B3 & B4 & B5 & B6 & B7 & B8 & B9 & B10).
  repeat split; congruence.
Qed.

Ltac controls_step :=
  match goal with
  | |- respects _ (bind _ _) =>
      apply respects_bind; [exact same_controls_trans | | intros ?]
  | |- respects _ (lift _) => apply respects_lift; exact same_controls_refl
  | |- respects _ (ret _) => apply respects_ret; exact same_controls_refl
  | |- respects _ (gets _) => apply respects_gets; exact same_controls_refl
  | |- respects _ (raise _) => apply respects_raise; exact same_controls_refl
  | |- respects _ (act _) =>
      apply respects_act; intros ?; unfold same_controls; repeat split; reflexivity
  | |- respects _ (if ?b then _ else _) => destruct b
  end.

Lemma respects_snd {A : Type} (R : world -> world -> Prop) (m : M A) (w : world) :
  respects R m -> R w (snd (m w)).
Proof. intros H. destruct (m w) as [r w'] eqn:E. exact (H w r w' E). Qed.

Lemma write_keeps_controls (vc : counter_ref) (total : Z) (audio_only : bool)
    (msg tag : string) :
  respects same_controls
    (_write_to_output
       (MkLogger (Some vc) (Some ProgressLabelVar) (Some total) audio_only)
       msg tag).
Proof.
  unfold _write_to_output. cbn [lg_audio_only lg_video_counter
    lg_progress_label_var lg_total_videos].
  destruct audio_only; cbn [negb];
    destruct (startswith msg merger_line); repeat controls_step.
Qed.

(** X1. Whatever the event, the mode and the flag, the progress hook
    leaves the controls of the window as they are: the stop flag, the
    registry of active downloads, the entry fields, the status line, the
    download button, the dialogs, the printed lines and the threads. *)
Theorem progress_hook_leaves_controls :
  forall (float_repr : PyFloat.float -> string) (audio_only : bool)
         (vc : counter_ref) (total : Z) (d : dict) (w : world),
    same_controls w (snd (progress_hook float_repr audio_only vc total d w)).
Proof.
  intros. apply respects_snd.
  unfold progress_hook, _handle_download_progress, _handle_download_finished.
  repeat controls_step.
Qed.

(** X2. A line given to the log sink of a task is appended to the log,
    after everything the log held, as the message and a newline under
    the given tag; the log widget ends disabled, and the bar and the
    controls of the window are not touched. *)
Theorem log_sink_appends_one_line :
  forall (vc : counter_ref) (total : Z) (audio_only : bool)
         (msg tag : string) (w : world),
    let w' := snd (_write_to_output
                     (MkLogger (Some vc) (Some ProgressLabelVar) (Some total)
                        audio_only) msg tag w) in
    output_text w' = (output_text w ++ [((msg ++ nl)%string, tag)])%list /\
    output_text_state w' = DISABLED /\
    progress_var w' = progress_var w /\
    same_controls w w'.
Proof.
  intros vc total audio_only msg tag w w'. subst w'.
  split; [|split; [|split]].
  - unfold _write_to_output, bind, act, gets, ret.
    cbn [lg_audio_only lg_video_counter lg_progress_label_var lg_total_videos].
    destruct audio_only; cbn [negb]; [reflexivity|].
    destruct (startswith msg merger_line); reflexivity.
  - unfold _write_to_output, bind, act, gets, ret.
    cbn [lg_audio_only lg_video_counter lg_progress_label_var lg_total_videos].
    destruct audio_only; cbn [negb]; [reflexivity|].
    destruct (startswith msg merger_line); reflexivity.
  - unfold _write_to_output, bind, act, gets, ret.
    cbn [lg_audio_only lg_video_counter lg_progress_label_var lg_total_videos].
    destruct audio_only; cbn [negb]; [reflexivity|].
    destruct (startswith msg merger_line); reflexivity.
  - apply respects_snd, write_keeps_controls.
Qed.

(** ** Blank and prefixed messages *)

Lemma rstrip_all_space (s : string) : all_space s = true -> rstrip s = "".
Proof.
  induction s as [|c s IH]; [reflexivity|]. cbn [all_space rstrip].
  intros H. apply andb_true_iff in H as [Hc Hs]. now rewrite (IH Hs), Hc.
Qed.

Lemma lstrip_all_space (s : string) : all_space s = true -> lstrip s = "".
Proof.
  induction s as [|c s IH]; [reflexivity|]. cbn [all_space lstrip].
  intros H. apply andb_true_iff in H as [Hc Hs]. now rewrite Hc, (IH Hs).
Qed.

Lemma strip_all_space (s : string) : all_space s = true -> strip s = "".
Proof. intros H. unfold strip. now rewrite (lstrip_all_space s H). Qed.

(** X3. A message made of white space only (the empty message
    included) is dropped by [debug], [warning] and [error]: nothing is
    logged and nothing is counted. *)
Theorem blank_messages_are_dropped :
  forall (lg : YTDlpLogger) (msg : string) (w : world),
    all_space msg = true ->
    debug lg msg w = (Ok tt, w) /\
    warning lg msg w = (Ok tt, w) /\
    error lg msg w = (Ok tt, w).
Proof.
  intros lg msg w H. unfold debug, warning, error.
  rewrite (strip_all_space msg H). repeat split.
Qed.

Lemma blank_messages_are_dropped_witness :
  debug (MkLogger (Some 0%nat) (Some ProgressLabelVar) (Some 1%Z) false)
    (String " " (String newline ""))
    (with_counters [0%Z] initial_world) =
  (Ok tt, with_counters [0%Z] initial_world).
Proof.
  apply (blank_messages_are_dropped
           (MkLogger (Some 0%nat) (Some ProgressLabelVar) (Some 1%Z) false)
           (String " " (String newline "")) (with_counters [0%Z] initial_world)).
  reflexivity.
Defined.

Lemma prefixed_line_is_not_merger (c : ascii) (rest : string) :
  Ascii.eqb "M" c = false ->
  startswith (String "[" (String c rest)) merger_line = false.
Proof.
  intros H. unfold merger_line. cbn [startswith].
  change (Ascii.eqb "[" "[") with true. cbn [andb]. now rewrite H.
Qed.

(** X4. A warning or an error never counts an item, in either mode and
    whatever its text, a text that starts with the merger line
    included: its only effect is the line in the log, with its prefix
    and its tag; the counters and the progress label stay as they
    are. *)
Theorem warnings_and_errors_never_count :
  forall (lg : YTDlpLogger) (msg : string) (w : world),
    warning lg msg w =
      (Ok tt,
       if nonempty (strip msg)
       then log_insert ("[warning] " ++ msg ++ nl) "warning" w else w) /\
    error lg msg w =
      (Ok tt,
       if nonempty (strip msg)
       then log_insert ("[error] " ++ msg ++ nl) "error" w else w) /\
    counters (snd (warning lg msg w)) = counters w /\
    counters (snd (error lg msg w)) = counters w /\
    progress_label_var (snd (warning lg msg w)) = progress_label_var w /\
    progress_label_var (snd (error lg msg w)) = progress_label_var w.
Proof.
  intros lg msg w.
  assert (Hw : warning lg msg w =
               (Ok tt,
                if nonempty (strip msg)
                then log_insert ("[warning] " ++ msg ++ nl) "warning" w else w)).
  { unfold warning. destruct (nonempty (strip msg)); [|reflexivity].
    rewrite write_plain_line
      by (rewrite !append_cons; now apply prefixed_line_is_not_merger).
    now rewrite append_assoc. }
  assert (He : error lg msg w =
               (Ok tt,
                if nonempty (strip msg)
                then log_insert ("[error] " ++ msg ++ nl) "error" w else w)).
  { unfold error. destruct (nonempty (strip msg)); [|reflexivity].
    rewrite write_plain_line
      by (rewrite !append_cons; now apply prefixed_line_is_not_merger).
    now rewrite append_assoc. }
  rewrite Hw, He. destruct (nonempty (strip msg)); repeat split.
Qed.

(** ** Which lines and events count *)

Lemma startswith_merger_nonblank (msg : string) :
  nonempty (strip msg) = false -> startswith msg merger_line = false.
Proof.
  intros H. destruct (startswith msg merger_line) eqn:S; [|reflexivity].
  apply merger_line_visible in S as [S _]. congruence.
Qed.

(** X5. In video mode [debug] counts an item exactly when the message
    starts with the merger text.  A message that merely contains it
    (after leading blanks, say) is logged under the tag [info] like any
    other line and counts nothing; a message that contains [[download]]
    and not the merger text is logged under the tag [progress]. *)
Theorem debug_counts_at_line_start :
  forall (vc : counter_ref) (total n : Z) (msg : string) (w : world),
    counters w !! vc = Some n ->
    let lg := MkLogger (Some vc) (Some ProgressLabelVar) (Some total) false in
    let w' := snd (debug lg msg w) in
    counter_get vc w' = (if startswith msg merger_line then n + 1 else n)%Z /\
    (nonempty (strip msg) = true ->
     output_text w' =
       (output_text w ++
        [((msg ++ nl)%string,
          if str_in "[download]" msg && negb (str_in merger_line msg)
          then "progress" else "info")])%list).
Proof.
  intros vc total n msg w Hn lg w'. subst w' lg. unfold debug.
  destruct (nonempty (strip msg)) eqn:N.
  - assert (Hlog : forall tag,
               output_text (snd (_write_to_output
                 (MkLogger (Some vc) (Some ProgressLabelVar) (Some total) false)
                 msg tag w)) =
               (output_text w ++ [((msg ++ nl)%string, tag)])%list).
    { intros tag. unfold _write_to_output, bind, act, gets, ret.
      cbn [lg_audio_only lg_video_counter lg_progress_label_var
           lg_total_videos negb].
      destruct (startswith msg merger_line); reflexivity. }
    assert (Hcnt : forall tag,
               counter_get vc (snd (_write_to_output
                 (MkLogger (Some vc) (Some ProgressLabelVar) (Some total) false)
                 msg tag w)) =
               (if startswith msg merger_line then n + 1 else n)%Z).
    { intros tag. unfold _write_to_output, bind, act, gets, ret.
      cbn [lg_audio_only lg_video_counter lg_progress_label_var
           lg_total_videos negb].
      destruct (startswith msg merger_line); cbn [snd].
      - change (counter_get vc (counter_incr vc w) = (n + 1)%Z).
        now apply counter_get_incr.
      - change (counter_get vc w = n). now apply counter_get_some. }
    destruct (str_in merger_line msg); [|destruct (str_in "[download]" msg)];
      cbn [andb negb]; rewrite ?andb_false_r; split; auto.
  - rewrite (startswith_merger_nonblank msg N). cbn [snd].
    split; [now apply counter_get_some | discriminate].
Qed.

Lemma debug_counts_at_line_start_witness :
  counter_get 0%nat
    (snd (debug (MkLogger (Some 0%nat) (Some ProgressLabelVar) (Some 1%Z) false)
            " [Merger] Merging formats into clip.mp4"
            (with_counters [0%Z] initial_world))) = 0%Z /\
  counter_get 0%nat
    (snd (debug (MkLogger (Some 0%nat) (Some ProgressLabelVar) (Some 1%Z) false)
            "[Merger] Merging formats into clip.mp4"
            (with_counters [0%Z] initial_world))) = 1%Z.
Proof.
  split.
  - destruct (debug_counts_at_line_start 0%nat 1 0
                " [Merger] Merging formats into clip.mp4"
                (with_counters [0%Z] initial_world) eq_refl) as (H & _).
    exact H.
  - destruct (debug_counts_at_line_start 0%nat 1 0
                "[Merger] Merging formats into clip.mp4"
                (with_counters [0%Z] initial_world) eq_refl) as (H & _).
    exact H.
Defined.

Lemma alter_other (vc r : nat) (l : list Z) :
  r <> vc -> alter Z.succ vc l !! r = l !! r.
Proof. intros H. apply list_lookup_alter_ne. congruence. Qed.

(** X6. One call of the progress hook moves the item counter of its own
    task by one step at most, and only in audio mode; one line given to
    the log sink does so only in video mode.  The counters of the other
    tasks keep their values, and no counter appears or disappears. *)
Theorem callbacks_step_own_counter :
  forall (float_repr : PyFloat.float -> string) (audio_only : bool)
         (vc : counter_ref) (total : Z) (d : dict) (msg tag : string)
         (w : world),
    let wh := snd (progress_hook float_repr audio_only vc total d w) in
    let wl := snd (_write_to_output
                     (MkLogger (Some vc) (Some ProgressLabelVar) (Some total)
                        audio_only) msg tag w) in
    (counters wh = counters w \/
     audio_only = true /\ counters wh = alter Z.succ vc (counters w)) /\
    (counters wl = counters w \/
     audio_only = false /\ counters wl = alter Z.succ vc (counters w)) /\
    (forall r, r <> vc ->
       counters wh !! r = counters w !! r /\
       counters wl !! r = counters w !! r) /\
    length (counters wh) = length (counters w) /\
    length (counters wl) = length (counters w).
Proof.
  intros float_repr audio_only vc total d msg tag w wh wl.
  assert (Hh : counters wh = counters w \/
               audio_only = true /\ counters wh = alter Z.succ vc (counters w)).
  { subst wh. destruct (stop_flag w) eqn:S.
    - rewrite progress_hook_stopped by exact S. now left.
    - rewrite progress_hook_running by exact S. unfold bind, lift.
      destruct (getitem d "status") as [st | e]; [|now left]. cbv beta iota.
      destruct (if eq_str st "downloading" && key_in "downloaded_bytes" d
                   && key_in "total_bytes" d
                then rbind (getitem d "total_bytes") (fun t => Ok (truthy t))
                else Ok false) as [[|] | e]; [| |now left].
      + left. apply (respects_snd same_count), progress_keeps_count.
      + destruct (eq_str st "finished"); [|now left].
        destruct audio_only.
        * right. split; reflexivity.
        * left. reflexivity. }
  assert (Hl : counters wl = counters w \/
               audio_only = false /\ counters wl = alter Z.succ vc (counters w)).
  { subst wl. unfold _write_to_output, bind, act, gets, ret.
    cbn [lg_audio_only lg_video_counter lg_progress_label_var lg_total_videos].
    destruct audio_only; cbn [negb]; [now left|].
    destruct (startswith msg merger_line); [right; split; reflexivity | now left]. }
  split; [exact Hh|]. split; [exact Hl|]. split; [|split].
  - intros r Hr. split.
    + destruct Hh as [-> | [_ ->]]; [reflexivity | now apply alter_other].
    + destruct Hl as [-> | [_ ->]]; [reflexivity | now apply alter_other].
  - destruct Hh as [-> | [_ ->]]; [reflexivity | apply length_alter].
  - destruct Hl as [-> | [_ ->]]; [reflexivity | apply length_alter].
Qed.

(** ** Events the hook cannot use *)

(** X7. With the stop flag clear, an event without a [status] raises
    [KeyError('status')] and changes nothing; an event whose status is
    neither [downloading] nor [finished], or a downloading event without
    its [downloaded_bytes], is ignored: the hook returns and the window
    is as before. *)
Theorem hook_ignores_foreign_events :
  forall (float_repr : PyFloat.float -> string) (audio_only : bool)
         (vc : counter_ref) (total : Z) (d : dict) (w : world),
    stop_flag w = false ->
    (d !! "status" = None ->
     progress_hook float_repr audio_only vc total d w =
     (Raise (KeyError "status"), w)) /\
    (forall v,
        d !! "status" = Some v ->
        eq_str v "downloading" = false -> eq_str v "finished" = false ->
        progress_hook float_repr audio_only vc total d w = (Ok tt, w)) /\
    (d !! "status" = Some (PyStr "downloading") ->
     d !! "downloaded_bytes" = None ->
     progress_hook float_repr audio_only vc total d w = (Ok tt, w)).
Proof.
  intros float_repr audio_only vc total d w S.
  rewrite progress_hook_running by exact S. repeat apply conj.
  - intros H. unfold bind, lift, getitem. now rewrite H.
  - intros v H H1 H2. unfold bind, lift, getitem. rewrite H, H1, H2. reflexivity.
  - intros H H1. unfold bind, lift, getitem, key_in. rewrite H, H1.
    change (eq_str (PyStr "downloading") "downloading") with true.
    change (eq_str (PyStr "downloading") "finished") with false.
    reflexivity.
Qed.

Lemma hook_ignores_foreign_events_witness :
  progress_hook sample_repr false 0%nat 1 ∅ initial_world =
    (Raise (KeyError "status"), initial_world) /\
  progress_hook sample_repr false 0%nat 1 {[ "status" := PyStr "error" ]}
    initial_world = (Ok tt, initial_world).
Proof.
  destruct (hook_ignores_foreign_events sample_repr false 0%nat 1 ∅
              initial_world eq_refl) as (H1 & _).
  destruct (hook_ignores_foreign_events sample_repr false 0%nat 1
              {[ "status" := PyStr "error" ]} initial_world eq_refl)
    as (_ & H2 & _).
  split; [apply H1; reflexivity|].
  apply (H2 (PyStr "error")); reflexivity.
Defined.

Lemma progress_percent_fails (float_repr : PyFloat.float -> string)
    (d : dict) (w : world) (e : exn) :
  percent_of d = Raise e ->
  _handle_download_progress float_repr d w = (Raise e, w).
Proof.
  intros Hp. unfold _handle_download_progress, bind, lift. now rewrite Hp.
Qed.

(** X8. With the stop flag clear and a non-zero integer total, a
    downloading event whose [downloaded_bytes] is [None] or a string
    raises the [TypeError] of the division and updates nothing.  When
    the byte counts are sound and the speed is a non-empty string, the
    bar is set to the percent first and then the [TypeError] of the
    speed is raised: the bar has moved, no line is logged. *)
Theorem hook_bad_values :
  forall (float_repr : PyFloat.float -> string) (audio_only : bool)
         (vc : counter_ref) (total : Z) (d : dict) (w : world) (b : Z),
    stop_flag w = false ->
    d !! "status" = Some (PyStr "downloading") ->
    d !! "total_bytes" = Some (PyInt b) ->
    b <> 0%Z ->
    (forall v,
        d !! "downloaded_bytes" = Some v ->
        v = PyNone \/ (exists s, v = PyStr s) ->
        progress_hook float_repr audio_only vc total d w =
        (Raise (unsupported "/" v (PyInt b)), w)) /\
    (forall a s,
        d !! "downloaded_bytes" = Some (PyInt a) ->
        (Z.abs a < 2 ^ 1023)%Z -> (Z.abs b < 2 ^ 1023)%Z ->
        d !! "speed" = Some (PyStr s) -> s <> "" ->
        progress_hook float_repr audio_only vc total d w =
        (Raise (unsupported "/" (PyStr s) (PyInt 1024)),
         with_progress_var
           (PyFloat (fmul_int (PyFloat.int_truediv a b) 100)) w)).
Proof.
  intros float_repr audio_only vc total d w b S Hst Hb Hz.
  assert (Ht : truthy (PyInt b) = true).
  { cbn [truthy]. destruct (Z.eqb_spec b 0); [contradiction | reflexivity]. }
  split.
  - intros v Hv Hbad.
    rewrite (progress_hook_downloading float_repr audio_only vc total d w
               (PyInt b)); try assumption.
    + apply progress_percent_fails. unfold percent_of, getitem.
      rewrite Hv, Hb. cbn [rbind].
      destruct Hbad as [-> | [s ->]]; reflexivity.
    + unfold key_in. now rewrite Hv.
  - intros a s Ha Hba Hbb Hs Hne.
    rewrite (progress_hook_downloading float_repr audio_only vc total d w
               (PyInt b)); try assumption.
    + assert (Hp : percent_of d =
                   Ok (fmul_int (PyFloat.int_truediv a b) 100)).
      { rewrite (percent_of_ints d a b Ha Hb Hz).
        now rewrite (int_truediv_finite a b Hz Hba). }
      rewrite (progress_after_percent float_repr d w _ Hp).
      unfold progress_line_of.
      rewrite (mb_of_int d "total_bytes" b Hb Hbb). cbn [rbind].
      rewrite (mb_of_int d "downloaded_bytes" a Ha Hba). cbn [rbind].
      unfold get. rewrite Hs. unfold speed_str_of. cbn [truthy].
      destruct s as [|c s]; [contradiction|]. cbn [nonempty]. reflexivity.
    + unfold key_in. now rewrite Ha.
Qed.

Lemma hook_bad_values_witness :
  progress_hook sample_repr false 0%nat 1
    (<["downloaded_bytes" := PyNone]> bare_event) initial_world =
  (Raise (TypeError "unsupported operand type(s) for /: 'NoneType' and 'int'"),
   initial_world) /\
  progress_hook sample_repr false 0%nat 1
    (<["speed" := PyStr "fast"]> bare_event) initial_world =
  (Raise (TypeError "unsupported operand type(s) for /: 'str' and 'int'"),
   with_progress_var (PyFloat (fmul_int (PyFloat.int_truediv 512 2048) 100))
     initial_world).
Proof.
  split.
  - destruct (hook_bad_values sample_repr false 0%nat 1
                (<["downloaded_bytes" := PyNone]> bare_event) initial_world 2048)
      as (H & _).
    1-3: reflexivity.
    + discriminate.
    + apply (H PyNone); [reflexivity | now left].
  - destruct (hook_bad_values sample_repr false 0%nat 1
                (<["speed" := PyStr "fast"]> bare_event) initial_world 2048)
      as (_ & H).
    1-3: reflexivity.
    + discriminate.
    + apply (H 512%Z "fast"); try reflexivity. discriminate.
Defined.

(** ** The task and the registry *)

Lemma list_remove_In_other (t x : thread) (l : list thread) :
  x <> t -> (In x (list_remove t l) <-> In x l).
Proof.
  intros Hx. induction l as [|y l IH]; simpl; [tauto|].
  destruct (Nat.eqb_spec t y) as [-> | Hne].
  - split; [auto | intros [H | H]; [congruence | exact H]].
  - simpl. rewrite IH. tauto.
Qed.

Lemma list_remove_app_last (t : thread) (l : list thread) :
  ~ In t l -> list_remove t (l ++ [t])%list = l.
Proof.
  induction l as [|y l IH]; simpl; intros H.
  - now rewrite Nat.eqb_refl.
  - destruct (Nat.eqb_spec t y) as [-> | Hne]; [tauto|].
    rewrite IH; [reflexivity | tauto].
Qed.

Lemma list_remove_length (t : thread) (l : list thread) :
  In t l -> S (length (list_remove t l)) = length l.
Proof.
  induction l as [|y l IH]; simpl; [tauto|].
  destruct (Nat.eqb_spec t y) as [-> | Hne]; [reflexivity|].
  intros [H | H]; [congruence|]. simpl. now rewrite IH.
Qed.

(** X9. Whatever its body does, [run] ends with the cleanup: the
    download button enabled, the bar at zero, and one registration of
    the thread, when there is one, removed from the registry.  A body
    that returns leaves the status to itself and nothing is printed; an
    exception of a class derived from [Exception] is printed as
    [Error: ...], becomes the status [Error: ...], and [run] returns;
    any other exception leaves the status and the printed lines alone
    and goes on after the same cleanup.  The counters, the progress
    label, the log, the dialogs and the stop flag are as the body left
    them. *)
Theorem run_always_cleans_up :
  forall (t : thread) (body : M unit) (w : world),
    let r := fst (body w) in
    let w' := snd (body w) in
    let wf := snd (try_run t body w) in
    download_btn wf = NORMAL /\
    progress_var wf = PyInt 0 /\
    active_downloads wf = list_remove t (active_downloads w') /\
    status_var wf =
      match r with
      | Raise e =>
          if exn_is_Exception e then "Error: " ++ exn_str e else status_var w'
      | Ok _ => status_var w'
      end /\
    stdout wf =
      match r with
      | Raise e =>
          if exn_is_Exception e
          then (stdout w' ++ [("Error: " ++ exn_str e)%string])%list
          else stdout w'
      | Ok _ => stdout w'
      end /\
    fst (try_run t body w) =
      match r with
      | Raise e => if exn_is_Exception e then Ok tt else Raise e
      | Ok _ => Ok tt
      end /\
    counters wf = counters w' /\
    progress_label_var wf = progress_label_var w' /\
    output_text wf = output_text w' /\
    dialogs wf = dialogs w' /\
    stop_flag wf = stop_flag w' /\
    threads wf = threads w'.
Proof.
  intros t body w r w' wf. subst r w' wf. unfold try_run.
  destruct (body w) as [[[] | e] w1]; cbn [fst snd].
  - rewrite run_finally_registry. unfold run_finally.
    destruct (existsb (Nat.eqb t) (active_downloads w1)); repeat split.
  - destruct (exn_is_Exception e); cbn [fst snd];
      rewrite run_finally_registry; unfold run_finally, run_except;
      cbn [active_downloads with_status_var print with_stdout];
      destruct (existsb (Nat.eqb t) (active_downloads w1)); repeat split.
Qed.

(** X10. A task registers its thread first and takes one registration
    out at the end.  So when the thread was not registered before and
    the rest of the body leaves the registry as it finds it, the
    registry after [run] is the registry before; when the registry was
    emptied in between (by Stop All), the end of the task finds nothing
    to remove and leaves it empty; and the registrations of the other
    threads are never touched by the cleanup. *)
Theorem run_restores_registry :
  forall (t : thread) (process : M unit) (w : world),
    let w1 := with_active_downloads (active_downloads w ++ [t])%list w in
    let w2 := snd (process w1) in
    let wf := snd (try_run t (bind (act (fun w => with_active_downloads
                                           (active_downloads w ++ [t])%list w))
                                (fun _ => process)) w) in
    (~ In t (active_downloads w) ->
     active_downloads w2 = (active_downloads w ++ [t])%list ->
     active_downloads wf = active_downloads w) /\
    (active_downloads w2 = [] -> active_downloads wf = []) /\
    (forall x, x <> t ->
       (In x (active_downloads wf) <-> In x (active_downloads w2))) /\
    (In t (active_downloads w2) ->
     S (length (active_downloads wf)) = length (active_downloads w2)).
Proof.
  intros t process w w1 w2 wf.
  assert (Hf : active_downloads wf = list_remove t (active_downloads w2)).
  { subst wf w2 w1. unfold try_run, bind at 1, act.
    destruct (process _) as [[[] | e] w3]; cbn [fst snd].
    - apply run_finally_registry.
    - destruct (exn_is_Exception e); cbn [snd]; rewrite run_finally_registry;
        reflexivity. }
  rewrite Hf. repeat apply conj.
  - intros Hn ->. now apply list_remove_app_last.
  - intros ->. reflexivity.
  - intros x Hx. now apply list_remove_In_other.
  - apply list_remove_length.
Qed.

Lemma run_restores_registry_witness :
  active_downloads
    (snd (try_run 7%nat
            (bind (act (fun w => with_active_downloads
                                   (active_downloads w ++ [7%nat])%list w))
               (fun _ => ret tt))
            (with_active_downloads [3%nat] initial_world))) = [3%nat].
Proof.
  destruct (run_restores_registry 7%nat (ret tt)
              (with_active_downloads [3%nat] initial_world)) as (H & _).
  apply H.
  - simpl. intros [E | []]. discriminate E.
  - reflexivity.
Defined.

Section TaskOutcomes.

Variable float_repr : PyFloat.float -> string.
Variable os_path_join : string -> string -> string.
Variable os_path_abspath : string -> string.
Variable os_path_exists : string -> bool.
Variable os_makedirs : string -> result unit.
Variable extract_info : bool -> string -> result info_dict.
Variable ydl_download : ydl_opts -> list string -> M unit.

Lemma ensure_output_dir_ok (output_dir : string) (w : world) :
  os_path_exists output_dir = true \/ os_makedirs output_dir = Ok tt ->
  ensure_output_dir os_path_exists os_makedirs output_dir w = (Ok tt, w).
Proof.
  intros H. unfold ensure_output_dir.
  destruct (os_path_exists output_dir) eqn:E; [reflexivity|].
  destruct H as [H | H]; [discriminate|]. unfold lift. now rewrite H.
Qed.

Lemma video_process_steps (self : PlaylistDownloader) (url output_dir : string)
    (audio_only : bool) (w : world) (info : info_dict) :
  os_path_exists output_dir = true \/ os_makedirs output_dir = Ok tt ->
  extract_info false url = Ok info ->
  let vc := length (counters w) in
  _download_video_process float_repr os_path_join os_path_abspath
    os_path_exists os_makedirs extract_info ydl_download self url output_dir
    audio_only w =
  bind (ydl_download
          (_get_ydl_options os_path_join self output_dir audio_only
             (progress_hook float_repr audio_only vc 1)
             (MkLogger (Some vc) (Some ProgressLabelVar) (Some 1%Z) audio_only))
          [url])
    (fun _ =>
       bind (act (print ("Video download completed! File saved in: " ++
                         os_path_abspath output_dir)))
         (fun _ =>
            bind (act (with_status_var "Video download completed!"))
              (fun _ =>
                 bind (gets (counter_get vc))
                   (fun current =>
                      act (with_progress_label_var (progress_text current 1))))))
    (log_insert
       (("Duration: " ++
         str float_repr (get (info_fields info) "duration" (PyStr "Unknown")) ++
         " seconds") ++ nl) "info"
       (log_insert
          (("Downloading video: " ++
            str float_repr
              (get (info_fields info) "title" (PyStr "Unknown Video"))) ++ nl)
          "info"
          (with_progress_label_var (progress_text 0 1)
             (with_counters (counters w ++ [0%Z])%list w)))).
Proof.
  intros Hdir Hinfo vc. unfold _download_video_process.
  unfold bind at 1. rewrite (ensure_output_dir_ok _ _ Hdir).
  rewrite Hinfo.
  unfold bind at 1. unfold lift.
  unfold bind at 1. unfold new_counter. fold vc.
  unfold bind at 1. unfold act at 1.
  unfold bind at 1.
  rewrite write_plain_line
    by (rewrite append_cons; now apply info_line_is_not_merger).
  unfold bind at 1.
  rewrite write_plain_line
    by (rewrite append_cons; now apply info_line_is_not_merger).
  reflexivity.
Qed.

Lemma playlist_process_steps (self : PlaylistDownloader)
    (url output_dir : string) (audio_only : bool) (w : world)
    (info : info_dict) :
  os_path_exists output_dir = true \/ os_makedirs output_dir = Ok tt ->
  extract_info true url = Ok info ->
  let vc := length (counters w) in
  let total := Z.of_nat (length (default [] (info_entries info))) in
  _download_playlist_process float_repr os_path_join os_path_abspath
    os_path_exists os_makedirs extract_info ydl_download self url output_dir
    audio_only w =
  bind (ydl_download
          (_get_ydl_options os_path_join self output_dir audio_only
             (progress_hook float_repr audio_only vc total)
             (MkLogger (Some vc) (Some ProgressLabelVar) (Some total)
                audio_only))
          [url])
    (fun _ =>
       bind (act (print ("Playlist download completed! Files saved in: " ++
                         os_path_abspath output_dir)))
         (fun _ =>
            bind (act (with_status_var "Playlist download completed!"))
              (fun _ =>
                 bind (gets (counter_get vc))
                   (fun current =>
                      act (with_progress_label_var
                             (progress_text current total))))))
    (log_insert
       (("Total videos in playlist: " ++ pretty total) ++ nl) "info"
       (log_insert
          (("Downloading playlist: " ++
            str float_repr (get (info_fields info) "title" (PyStr "Unknown")))
           ++ nl) "info"
          (with_progress_label_var (progress_text 0 total)
             (with_counters (counters w ++ [0%Z])%list w)))).
Proof.
  intros Hdir Hinfo vc total. unfold _download_playlist_process.
  unfold bind at 1. rewrite (ensure_output_dir_ok _ _ Hdir).
  rewrite Hinfo.
  unfold bind at 1. unfold lift.
  unfold bind at 1. unfold new_counter. fold vc. fold total.
  unfold bind at 1. unfold act at 1.
  unfold bind at 1.
  rewrite write_plain_line
    by (rewrite append_cons; now apply info_line_is_not_merger).
  unfold bind at 1.
  rewrite write_plain_line
    by (rewrite append_cons; now apply info_line_is_not_merger).
  reflexivity.
Qed.

(** X11. A task that cannot create its output directory, or cannot
    resolve the metadata of its URL, ends there: [run] returns, the
    status reads [Error: ...] with the text of the exception, the button
    is enabled and the bar is at zero; no item counter was allocated,
    the progress label and the log are untouched, and the result does
    not depend on the download call of the media library.  When the
    directory cannot be created the metadata is not asked for either. *)
Theorem run_fails_before_the_library :
  forall (self : PlaylistDownloader) (url output_dir : string)
         (audio_only : bool) (t : thread) (w : world) (e : exn),
    exn_is_Exception e = true ->
    (os_path_exists output_dir = false /\ os_makedirs output_dir = Raise e) \/
    ((os_path_exists output_dir = true \/ os_makedirs output_dir = Ok tt) /\
     extract_info (is_playlist_url url) url = Raise e) ->
    let wf :=
      snd (run float_repr os_path_join os_path_abspath os_path_exists
             os_makedirs extract_info ydl_download self url output_dir
             audio_only t w) in
    run float_repr os_path_join os_path_abspath os_path_exists os_makedirs
      extract_info ydl_download self url output_dir audio_only t w =
    (Ok tt,
     run_finally t
       (run_except e
          (with_active_downloads (active_downloads w ++ [t])%list w))) /\
    status_var wf = "Error: " ++ exn_str e /\
    stdout wf = (stdout w ++ [("Error: " ++ exn_str e)%string])%list /\
    download_btn wf = NORMAL /\
    progress_var wf = PyInt 0 /\
    active_downloads wf = list_remove t (active_downloads w ++ [t])%list /\
    counters wf = counters w /\
    progress_label_var wf = progress_label_var w /\
    output_text wf = output_text w.
Proof.
  intros self url output_dir audio_only t w e He Hfail wf.
  assert (Hb : run_body float_repr os_path_join os_path_abspath os_path_exists
                 os_makedirs extract_info ydl_download self url output_dir
                 audio_only t w =
               (Raise e,
                with_active_downloads (active_downloads w ++ [t])%list w)).
  { unfold run_body. unfold bind at 1. unfold act at 1.
    destruct Hfail as [[Hex Hmk] | [Hdir Hinfo]].
    - destruct (is_playlist_url url);
        [unfold _download_playlist_process | unfold _download_video_process];
        unfold bind at 1; unfold ensure_output_dir; rewrite Hex, Hmk;
        reflexivity.
    - destruct (is_playlist_url url);
        [unfold _download_playlist_process | unfold _download_video_process];
        unfold bind at 1; rewrite (ensure_output_dir_ok _ _ Hdir);
        unfold bind at 1; rewrite Hinfo; reflexivity. }
  assert (Hr : run float_repr os_path_join os_path_abspath os_path_exists
                 os_makedirs extract_info ydl_download self url output_dir
                 audio_only t w =
               (Ok tt,
                run_finally t
                  (run_except e
                     (with_active_downloads (active_downloads w ++ [t])%list
                        w)))).
  { unfold run, try_run. rewrite Hb, He. reflexivity. }
  subst wf. rewrite Hr. cbn [snd]. split; [reflexivity|].
  rewrite run_finally_registry. unfold run_finally, run_except.
  cbn [active_downloads with_status_var print with_stdout
       with_active_downloads].
  destruct (existsb (Nat.eqb t) (active_downloads w ++ [t])%list);
    repeat split.
Qed.

Lemma run_body_steps (self : PlaylistDownloader) (url output_dir : string)
    (audio_only : bool) (t : thread) (w : world) (info : info_dict) :
  os_path_exists output_dir = true \/ os_makedirs output_dir = Ok tt ->
  extract_info (is_playlist_url url) url = Ok info ->
  let playlist := is_playlist_url url in
  let total :=
    if playlist then Z.of_nat (length (default [] (info_entries info)))
    else 1%Z in
  let vc := length (counters w) in
  let opts :=
    _get_ydl_options os_path_join self output_dir audio_only
      (progress_hook float_repr audio_only vc total)
      (MkLogger (Some vc) (Some ProgressLabelVar) (Some total) audio_only) in
  exists (w1 : world) (status : string),
    counters w1 = (counters w ++ [0%Z])%list /\
    progress_label_var w1 = progress_text 0 total /\
    active_downloads w1 = (active_downloads w ++ [t])%list /\
    length (output_text w1) = (length (output_text w) + 2)%nat /\
    stop_flag w1 = stop_flag w /\
    status = (if playlist then "Playlist download completed!"
              else "Video download completed!") /\
    exists line : string,
      run_body float_repr os_path_join os_path_abspath os_path_exists
        os_makedirs extract_info ydl_download self url output_dir
        audio_only t w =
      match ydl_download opts [url] w1 with
      | (Ok _, w2) =>
          (Ok tt,
           with_progress_label_var
             (progress_text (counter_get vc w2) total)
             (with_status_var status (print line w2)))
      | (Raise e, w2) => (Raise e, w2)
      end.
Proof.
  intros Hdir Hinfo playlist total vc opts.
  set (w0 := with_active_downloads (active_downloads w ++ [t])%list w).
  assert (Hvc : length (counters w0) = vc) by reflexivity.
  unfold run_body. unfold bind at 1. unfold act at 1. fold w0.
  subst playlist total opts. destruct (is_playlist_url url).
  - rewrite (playlist_process_steps self url output_dir audio_only w0 info
               Hdir Hinfo). cbv zeta. rewrite Hvc.
    match goal with
    | |- context [bind (ydl_download _ _) _ ?x] => exists x
    end.
    eexists. repeat apply conj.
    6: reflexivity.
    1-3, 5: reflexivity.
    + cbn [log_insert output_text with_output_text_state with_output_text
           with_progress_label_var with_counters w0 with_active_downloads].
      rewrite !length_app. cbn [length]. lia.
    + eexists. unfold bind at 1.
      destruct (ydl_download _ _ _) as [[[] | e] w2]; reflexivity.
  - rewrite (video_process_steps self url output_dir audio_only w0 info
               Hdir Hinfo). cbv zeta. rewrite Hvc.
    match goal with
    | |- context [bind (ydl_download _ _) _ ?x] => exists x
    end.
    eexists. repeat apply conj.
    6: reflexivity.
    1-3, 5: reflexivity.
    + cbn [log_insert output_text with_output_text_state with_output_text
           with_progress_label_var with_counters w0 with_active_downloads].
      rewrite !length_app. cbn [length]. lia.
    + eexists. unfold bind at 1.
      destruct (ydl_download _ _ _) as [[[] | e] w2]; reflexivity.
Qed.

(** X12. A task whose directory is there and whose metadata resolve
    calls the media library once, in a window where its fresh counter is
    zero, the label reads [Progress: 0/total], its thread is registered
    and two lines were added to the log; the total is one for a video
    and the number of entries for a playlist (zero when the metadata
    have no entries).  When the library returns, the status reads
    [Video download completed!] or [Playlist download completed!] and
    the label shows the counter as the library left it.  When the
    library raises, no completion is reported: the label stays as it
    was and the status is the error.  In both cases the cleanup of
    [run] has happened. *)
Theorem run_outcome :
  forall (self : PlaylistDownloader) (url output_dir : string)
         (audio_only : bool) (t : thread) (w : world) (info : info_dict),
    os_path_exists output_dir = true \/ os_makedirs output_dir = Ok tt ->
    extract_info (is_playlist_url url) url = Ok info ->
    let playlist := is_playlist_url url in
    let total :=
      if playlist then Z.of_nat (length (default [] (info_entries info)))
      else 1%Z in
    let vc := length (counters w) in
    let opts :=
      _get_ydl_options os_path_join self output_dir audio_only
        (progress_hook float_repr audio_only vc total)
        (MkLogger (Some vc) (Some ProgressLabelVar) (Some total) audio_only) in
    exists w1 : world,
      counters w1 = (counters w ++ [0%Z])%list /\
      progress_label_var w1 = progress_text 0 total /\
      active_downloads w1 = (active_downloads w ++ [t])%list /\
      length (output_text w1) = (length (output_text w) + 2)%nat /\
      stop_flag w1 = stop_flag w /\
      let r := fst (ydl_download opts [url] w1) in
      let w2 := snd (ydl_download opts [url] w1) in
      let res :=
        run float_repr os_path_join os_path_abspath os_path_exists os_makedirs
          extract_info ydl_download self url output_dir audio_only t w in
      match r with
      | Ok _ =>
          fst res = Ok tt /\
          status_var (snd res) =
            (if playlist then "Playlist download completed!"
             else "Video download completed!") /\
          progress_label_var (snd res) = progress_text (counter_get vc w2) total
      | Raise e =>
          fst res = (if exn_is_Exception e then Ok tt else Raise e) /\
          status_var (snd res) =
            (if exn_is_Exception e then "Error: " ++ exn_str e
             else status_var w2) /\
          progress_label_var (snd res) = progress_label_var w2
      end /\
      download_btn (snd res) = NORMAL /\
      progress_var (snd res) = PyInt 0 /\
      active_downloads (snd res) = list_remove t (active_downloads w2) /\
      counters (snd res) = counters w2 /\
      output_text (snd res) = output_text w2.
Proof.
  intros self url output_dir audio_only t w info Hdir Hinfo. cbv zeta.
  pose proof (run_body_steps self url output_dir audio_only t w info Hdir
                Hinfo) as Hs.
  cbv zeta in Hs.
  destruct Hs as (w1 & status & H1 & H2 & H3 & H4 & H5 & -> & line & Hb).
  exists w1. do 5 (split; [assumption|]).
  unfold run, try_run. rewrite Hb.
  destruct (ydl_download _ [url] w1) as [[[] | e] w2]; cbn [fst snd].
  - rewrite run_finally_registry. unfold run_finally.
    cbn [active_downloads with_status_var print with_stdout
         with_progress_label_var].
    destruct (existsb (Nat.eqb t) (active_downloads w2)); repeat split.
  - destruct (exn_is_Exception e); cbn [fst snd];
      rewrite run_finally_registry; unfold run_finally, run_except;
      cbn [active_downloads with_status_var print with_stdout];
      destruct (existsb (Nat.eqb t) (active_downloads w2)); repeat split.
Qed.

End TaskOutcomes.

Lemma run_fails_before_the_library_witness :
  let failing (flat : bool) (url : string) : result info_dict :=
    Raise (Exception "Video unavailable") in
  let wf :=
    snd (run sample_repr posix_join (fun p => p) (fun _ => true)
           (fun _ => Ok tt) failing sample_download sample_self
           "https://youtu.be/abc123" "downloads" false 0%nat sample_started) in
  status_var wf = "Error: Video unavailable" /\
  counters wf = [] /\
  active_downloads wf = [].
Proof.
  intros failing wf.
  destruct (run_fails_before_the_library sample_repr posix_join (fun p => p)
              (fun _ => true) (fun _ => Ok tt) failing sample_download
              sample_self "https://youtu.be/abc123" "downloads" false 0%nat
              sample_started (Exception "Video unavailable"))
    as (_ & S & _ & _ & _ & A & C & _).
  - reflexivity.
  - right. split; [now left | reflexivity].
  - split; [exact S|]. split; [exact C | exact A].
Defined.

Lemma run_outcome_witness :
  exists w1 : world,
    counters w1 = [0%Z] /\
    progress_label_var w1 = "Progress: 0/1" /\
    active_downloads w1 = [0%nat].
Proof.
  destruct (run_outcome sample_repr posix_join (fun p => p) (fun _ => true)
              (fun _ => Ok tt) sample_info sample_download sample_self
              "https://youtu.be/abc123" "downloads" true 0%nat sample_started
              (MkInfo {[ "title" := PyStr "Sample" ]} None))
    as (w1 & C & L & A & _).
  - now left.
  - reflexivity.
  - exists w1. split; [exact C|]. split; [exact L | exact A].
Defined.

(** ** White space around a URL *)

Lemma isspace_lower_char (c : ascii) : isspace (lower_char c) = isspace c.
Proof.
  destruct c as [b0 b1 b2 b3 b4 b5 b6 b7].
  destruct b0, b1, b2, b3, b4, b5, b6, b7; reflexivity.
Qed.

Lemma all_space_lower (s : string) : all_space (lower s) = all_space s.
Proof.
  induction s as [|c s IH]; [reflexivity|].
  cbn [lower all_space]. now rewrite isspace_lower_char, IH.
Qed.

Lemma lstrip_split (s : string) :
  exists a, s = a ++ lstrip s /\ all_space a = true.
Proof.
  induction s as [|c s [a [E Ha]]].
  - exists "". split; reflexivity.
  - cbn [lstrip]. destruct (isspace c) eqn:Hc.
    + exists (String c a). split.
      * rewrite append_cons. now rewrite <- E.
      * cbn [all_space]. now rewrite Hc, Ha.
    + exists "". split; reflexivity.
Qed.

Lemma rstrip_split (s : string) :
  exists b, s = rstrip s ++ b /\ all_space b = true.
Proof.
  induction s as [|c s [b [E Hb]]].
  - exists "". split; reflexivity.
  - cbn [rstrip]. destruct (rstrip s) as [|d r] eqn:R.
    + rewrite append_nil_l in E. subst b.
      destruct (isspace c) eqn:Hc.
      * exists (String c s). split; [reflexivity|].
        cbn [all_space]. now rewrite Hc, Hb.
      * exists s. split; [now rewrite append_cons, append_nil_l | exact Hb].
    + exists b. split; [|exact Hb].
      rewrite append_cons. now rewrite <- E.
Qed.

Lemma strip_split (s : string) :
  exists a b, s = a ++ strip s ++ b /\ all_space a = true /\ all_space b = true.
Proof.
  unfold strip.
  destruct (lstrip_split s) as [a [Ea Ha]].
  destruct (rstrip_split (lstrip s)) as [b [Eb Hb]].
  exists a, b. split; [|now split]. now rewrite <- Eb.
Qed.

Lemma all_space_with_nonspace (x y : string) (c : ascii) :
  isspace c = false -> all_space (x ++ String c y) = false.
Proof.
  intros Hc. induction x as [|d x IH].
  - rewrite append_nil_l. cbn [all_space]. now rewrite Hc.
  - rewrite append_cons. cbn [all_space]. rewrite IH. apply andb_false_r.
Qed.

Lemma trim_left (a t pre post m : string) (c : ascii) :
  all_space a = true -> isspace c = false ->
  a ++ t = pre ++ String c m ++ post ->
  exists pre', t = pre' ++ String c m ++ post.
Proof.
  intros Ha Hc. revert pre. induction a as [|x a IH]; intros pre E.
  - rewrite append_nil_l in E. now exists pre.
  - cbn [all_space] in Ha. apply andb_true_iff in Ha as [Hx Ha].
    rewrite append_cons in E. destruct pre as [|y pre].
    + rewrite append_nil_l, append_cons in E. injection E as -> _. congruence.
    + rewrite append_cons in E. injection E as _ E. now apply (IH Ha pre).
Qed.

Lemma prefix_trim (t b m0 post : string) (c : ascii) :
  all_space b = true -> isspace c = false ->
  t ++ b = (m0 ++ String c "") ++ post ->
  exists post', t = (m0 ++ String c "") ++ post'.
Proof.
  intros Hb Hc. revert t. induction m0 as [|d m0 IH]; intros t E.
  - rewrite append_nil_l in *. rewrite append_cons, append_nil_l in E.
    destruct t as [|x t].
    + rewrite append_nil_l in E. subst b. cbn [all_space] in Hb.
      rewrite Hc in Hb. discriminate.
    + rewrite append_cons in E. injection E as -> E.
      exists t. now rewrite append_cons, append_nil_l.
  - rewrite !append_cons in E. destruct t as [|x t].
    + rewrite append_nil_l in E. subst b. cbn [all_space] in Hb.
      rewrite append_assoc, append_cons in Hb.
      rewrite all_space_with_nonspace in Hb by exact Hc.
      rewrite andb_false_r in Hb. discriminate.
    + rewrite append_cons in E. injection E as -> E.
      destruct (IH t E) as [post' ->]. exists post'.
      now rewrite !append_cons.
Qed.

Lemma trim_right (t b pre m0 post : string) (c : ascii) :
  all_space b = true -> isspace c = false ->
  t ++ b = pre ++ (m0 ++ String c "") ++ post ->
  exists post', t = pre ++ (m0 ++ String c "") ++ post'.
Proof.
  intros Hb Hc. revert t. induction pre as [|y pre IH]; intros t E.
  - rewrite append_nil_l in E.
    destruct (prefix_trim t b m0 post c Hb Hc E) as [post' ->].
    exists post'. now rewrite append_nil_l.
  - rewrite append_cons in E. destruct t as [|x t].
    + rewrite append_nil_l in E. subst b. cbn [all_space] in Hb.
      rewrite (append_assoc m0), append_cons in Hb.
      rewrite <- (append_assoc pre m0) in Hb.
      rewrite all_space_with_nonspace in Hb by exact Hc.
      rewrite andb_false_r in Hb. discriminate.
    + rewrite append_cons in E. injection E as -> E.
      destruct (IH t E) as [post' ->]. exists post'.
      now rewrite !append_cons.
Qed.

(** A piece that starts and ends with a visible character and occurs
    in a text occurs in the text stripped. *)
Lemma infix_of_strip (s mid m1 m0 pre post : string) (c1 c2 : ascii) :
  mid = String c1 m1 -> mid = m0 ++ String c2 "" ->
  isspace c1 = false -> isspace c2 = false ->
  lower s = pre ++ mid ++ post ->
  exists pre' post', lower (strip s) = pre' ++ mid ++ post'.
Proof.
  intros E1 E2 H1 H2 E.
  destruct (strip_split s) as [a [b [Es [Ha Hb]]]].
  rewrite Es in E at 1. rewrite !lower_app in E.
  rewrite <- all_space_lower in Ha, Hb.
  rewrite E1 in E.
  destruct (trim_left _ _ _ _ _ _ Ha H1 E) as [pre' E'].
  rewrite <- E1, E2 in E'.
  destruct (trim_right _ _ _ _ _ _ Hb H2 E') as [post' E''].
  exists pre', post'. now rewrite E2.
Qed.

Lemma str_in_strip (w m1 m0 : string) (c1 c2 : ascii) (s : string) :
  w = String c1 m1 -> w = m0 ++ String c2 "" ->
  isspace c1 = false -> isspace c2 = false ->
  str_in w (lower s) = true -> str_in w (lower (strip s)) = true.
Proof.
  intros E1 E2 H1 H2 H. apply str_in_spec in H as [pre [post E]].
  apply str_in_spec. exact (infix_of_strip s w m1 m0 pre post c1 c2 E1 E2 H1 H2 E).
Qed.

Lemma str_in_strip_conv (w : string) (s : string) :
  str_in w (lower (strip s)) = true -> str_in w (lower s) = true.
Proof.
  intros H. apply str_in_spec in H as [pre [post E]].
  destruct (strip_split s) as [a [b [Es _]]].
  apply str_in_spec. exists (lower a ++ pre), (post ++ lower b).
  rewrite Es at 1. rewrite !lower_app, E. now rewrite !append_assoc.
Qed.

Lemma Matches_pat_list_ends (mid : string) :
  Matches pat_list mid ->
  exists m1 m0, mid = String "y" m1 /\ mid = m0 ++ String "=" "".
Proof.
  unfold pat_list. intros H.
  inversion H as [| | | |r1 r2 s1 s2 Ha Hb| | | |]; subst.
  apply (Matches_lits "youtube.com/") in Ha. subst s1.
  inversion Hb as [| | | |r1 r2 s3 s4 Hc Hd| | | |]; subst.
  inversion Hd as [| | | |r1 r2 s5 s6 He Hf| | | |]; subst.
  apply (Matches_lits "list=") in Hf. subst s6.
  exists ("outube.com/" ++ s3 ++ s5 ++ "list="),
         ("youtube.com/" ++ s3 ++ s5 ++ "list").
  split.
  - now rewrite !append_cons, append_nil_l.
  - rewrite !append_assoc. do 3 f_equal.
Qed.

Lemma search_strip (p : regex) (s : string) :
  In p youtube_patterns ->
  search p (lower s) = true -> search p (lower (strip s)) = true.
Proof.
  intros Hin H.
  assert (Hlit : forall w m1 m0 c1 c2,
             p = lits w -> w = String c1 m1 -> w = m0 ++ String c2 "" ->
             isspace c1 = false -> isspace c2 = false ->
             search p (lower (strip s)) = true).
  { intros w m1 m0 c1 c2 -> E1 E2 H1 H2. rewrite search_lits in *.
    exact (str_in_strip w m1 m0 c1 c2 s E1 E2 H1 H2 H). }
  destruct Hin as [<- | [<- | [<- | [<- | [<- | []]]]]].
  - apply (Hlit "youtube.com/watch?v=" "outube.com/watch?v="
             "youtube.com/watch?v" "y"%char "="%char); reflexivity.
  - apply (Hlit "youtube.com/playlist?list=" "outube.com/playlist?list="
             "youtube.com/playlist?list" "y"%char "="%char); reflexivity.
  - apply (Hlit "youtu.be/" "outu.be/" "youtu.be" "y"%char "/"%char);
      reflexivity.
  - apply search_spec in H as [pre [mid [post [E M]]]].
    destruct (Matches_pat_list_ends mid M) as [m1 [m0 [E1 E2]]].
    destruct (infix_of_strip s mid m1 m0 pre post "y" "=" E1 E2
                eq_refl eq_refl E) as [pre' [post' E']].
    apply search_spec. now exists pre', mid, post'.
  - apply (Hlit "m.youtube.com/" ".youtube.com/" "m.youtube.com"
             "m"%char "/"%char); reflexivity.
Qed.

Lemma is_valid_strip_eq (s : string) :
  is_valid_youtube_url (strip s) = is_valid_youtube_url s.
Proof.
  destruct (is_valid_youtube_url s) eqn:V.
  - unfold is_valid_youtube_url in *. apply existsb_exists in V as [p [Hin Hs]].
    apply existsb_exists. exists p. split; [exact Hin|].
    now apply search_strip.
  - destruct (is_valid_youtube_url (strip s)) eqn:V'; [|reflexivity].
    apply is_valid_strip in V'. congruence.
Qed.

Lemma is_playlist_strip_eq (s : string) :
  is_playlist_url (strip s) = is_playlist_url s.
Proof.
  unfold is_playlist_url.
  assert (A : str_in "playlist" (lower (strip s)) =
              str_in "playlist" (lower s)).
  { destruct (str_in "playlist" (lower s)) eqn:P.
    - apply (str_in_strip "playlist" "laylist" "playlis" "p" "t");
        reflexivity || exact P.
    - destruct (str_in "playlist" (lower (strip s))) eqn:P'; [|reflexivity].
      apply str_in_strip_conv in P'. congruence. }
  assert (B : str_in "list=" (lower (strip s)) = str_in "list=" (lower s)).
  { destruct (str_in "list=" (lower s)) eqn:P.
    - apply (str_in_strip "list=" "ist=" "list" "l" "=");
        reflexivity || exact P.
    - destruct (str_in "list=" (lower (strip s))) eqn:P'; [|reflexivity].
      apply str_in_strip_conv in P'. congruence. }
  now rewrite A, B.
Qed.

(** X13. White space around a URL does not change how it is judged:
    the entry as typed and the entry stripped are both valid or both
    invalid, and both a playlist or both a single video.  So the window,
    which judges the stripped entry, decides as the two checks do on the
    text as typed. *)
Theorem url_checks_ignore_outer_space :
  forall s : string,
    is_valid_youtube_url (strip s) = is_valid_youtube_url s /\
    is_playlist_url (strip s) = is_playlist_url s.
Proof.
  intros s. split; [apply is_valid_strip_eq | apply is_playlist_strip_eq].
Qed.

Lemma valid_is_not_blank (s : string) :
  is_valid_youtube_url s = true -> nonempty (strip s) = true.
Proof.
  intros V. rewrite <- is_valid_strip_eq in V.
  destruct (strip s); [discriminate V | reflexivity].
Qed.

(** ** The buttons, together *)

(** X14. After the URL entry is written, the download button is
    enabled exactly when the text is a valid URL, and the button and the
    start request agree: with a valid text the status announces the kind
    of download, and a press starts one thread for the stripped text,
    the chosen directory (or [downloads] when that entry is blank) and
    the chosen mode, with no dialog; with any other text the button is
    disabled, and a start request all the same would only show an error
    dialog. *)
Theorem edit_and_start_agree :
  forall (s : string) (w : world),
    let w' := url_var_set s w in
    let kind := if is_playlist_url s then "playlist" else "video" in
    let output_dir :=
      if nonempty (strip (dir_var w)) then strip (dir_var w)
      else "downloads" in
    if is_valid_youtube_url s then
      download_btn w' = NORMAL /\
      status_var w' = "Ready to download " ++ kind ++ "." /\
      threads (start_download w') =
        (threads w ++ [MkRequest (strip s) output_dir (audio_var w =? 1)%Z])%list /\
      dialogs (start_download w') = dialogs w /\
      download_btn (start_download w') = DISABLED /\
      progress_var (start_download w') = PyInt 0 /\
      status_var (start_download w') = "Downloading " ++ kind ++ "..." /\
      active_downloads (start_download w') = active_downloads w
    else
      download_btn w' = DISABLED /\
      status_var w' =
        (if nonempty (strip s) then "Enter a valid YouTube URL."
         else "Enter a YouTube playlist or video URL.") /\
      threads (start_download w') = threads w /\
      length (dialogs (start_download w')) = S (length (dialogs w)) /\
      stop_flag (start_download w') = stop_flag w.
Proof.
  intros s w w' kind output_dir. subst w' kind output_dir.
  unfold url_var_set, validate_url, start_download.
  cbn [url_var with_url_var].
  rewrite <- (is_playlist_strip_eq s).
  destruct (is_valid_youtube_url s) eqn:V.
  - pose proof (valid_is_not_blank s V) as N.
    rewrite <- is_valid_strip_eq in V. rewrite N, V. cbn [andb].
    destruct (is_playlist_url (strip s)) eqn:P;
      cbn [url_var dir_var audio_var with_status_var with_download_btn
           with_url_var]; rewrite N, V, P; cbn [negb]; repeat split.
  - rewrite <- is_valid_strip_eq in V. rewrite V, andb_false_r.
    destruct (nonempty (strip s)) eqn:N;
      cbn [url_var dir_var audio_var with_status_var with_download_btn
           with_url_var]; rewrite N; cbn [negb]; rewrite ?V; cbn [negb];
      repeat split;
      cbn [showerror dialogs with_dialogs with_status_var with_download_btn
           with_url_var]; rewrite length_app; cbn [length]; lia.
Qed.

(** X15. Stop All forgets the registered downloads, it does not wait
    for them: a second press, with nothing started in between, finds the
    registry empty and only reports that there is nothing to stop; the
    flag stays set and the registry, the button, the bar and the
    progress label stay as the first press left them. *)
Theorem stop_all_twice :
  forall w : world,
    let w1 := stop_all_downloads w in
    let w2 := stop_all_downloads w1 in
    w2 = with_status_var "No active downloads to stop."
           (print "No active downloads to stop." w1) /\
    active_downloads w1 = [] /\
    stop_flag w2 = true /\
    active_downloads w2 = [] /\
    download_btn w2 = download_btn w1 /\
    progress_var w2 = progress_var w1 /\
    progress_label_var w2 = progress_label_var w1 /\
    threads w2 = threads w.
Proof.
  intros w w1 w2.
  assert (A : active_downloads w1 = []).
  { subst w1. destruct (active_downloads w) as [|t l] eqn:E.
    - now rewrite (stop_all_downloads_idle w E).
    - rewrite stop_all_downloads_busy by (rewrite E; discriminate).
      reflexivity. }
  assert (F : stop_flag w1 = true) by apply stop_all_downloads_flag.
  assert (T : threads w1 = threads w).
  { subst w1. destruct (active_downloads w) as [|t l] eqn:E.
    - now rewrite (stop_all_downloads_idle w E).
    - rewrite stop_all_downloads_busy by (rewrite E; discriminate).
      reflexivity. }
  assert (E2 : w2 = with_status_var "No active downloads to stop."
                      (print "No active downloads to stop." w1)).
  { subst w2. rewrite (stop_all_downloads_idle w1 A).
    destruct w1. cbn in F. subst. reflexivity. }
  rewrite E2. repeat split; try assumption.
Qed.

(** ** File names *)

Lemma sanitize_cons (c : ascii) (s : string) :
  sanitize_filename (String c s) =
  if mem_char c forbidden then sanitize_filename s
  else String c (sanitize_filename s).
Proof.
  unfold sanitize_filename. cbn [sub_class].
  destruct (mem_char c forbidden); [apply append_nil_l | reflexivity].
Qed.

Lemma sanitize_length (s : string) :
  (String.length (sanitize_filename s) <= String.length s)%nat.
Proof.
  induction s as [|c s IH]; [reflexivity|].
  rewrite sanitize_cons. destruct (mem_char c forbidden); cbn [String.length]; lia.
Qed.

(** X16. [sanitize_filename] returns a name unchanged exactly when the
    name holds none of the nine forbidden characters; it works
    character by character, so the clean form of a concatenation is the
    concatenation of the clean forms; and the result is never longer
    than the name, and as long only when nothing was removed. *)
Theorem sanitize_filename_fixes_clean_names :
  forall a b : string,
    (sanitize_filename a = a <-> free_of forbidden a = true) /\
    sanitize_filename (a ++ b) = sanitize_filename a ++ sanitize_filename b /\
    (String.length (sanitize_filename a) <= String.length a)%nat /\
    (String.length (sanitize_filename a) = String.length a <->
     sanitize_filename a = a).
Proof.
  intros a b.
  assert (Hfix : sanitize_filename a = a <-> free_of forbidden a = true).
  { induction a as [|c a IH]; [split; reflexivity|].
    rewrite sanitize_cons. cbn [free_of].
    destruct (mem_char c forbidden) eqn:M; cbn [negb andb].
    - split; [|discriminate]. intros E.
      pose proof (sanitize_length a) as L. rewrite E in L.
      cbn [String.length] in L. lia.
    - rewrite <- IH. split; [now intros [= ->] | now intros ->]. }
  split; [exact Hfix|]. split; [|split].
  - clear Hfix. induction a as [|c a IH]; [now rewrite !append_nil_l|].
    rewrite append_cons, !sanitize_cons.
    destruct (mem_char c forbidden); [exact IH|].
    now rewrite append_cons, IH.
  - apply sanitize_length.
  - split; [|now intros ->].
    clear Hfix. induction a as [|c a IH]; [reflexivity|].
    rewrite sanitize_cons.
    destruct (mem_char c forbidden); cbn [String.length].
    + pose proof (sanitize_length a). lia.
    + intros [= E]. now rewrite (IH E).
Qed.

(** ** The tips *)

Lemma show_tip_consistent (txt : string) (place : ToolTip.widget_place)
    (self : ToolTip.tip) :
  ToolTip.consistent txt self ->
  ToolTip.consistent txt (snd (ToolTip.show_tip place self)).
Proof.
  intros H. unfold ToolTip.show_tip.
  destruct (ToolTip.tipwindow self) as [tw|] eqn:W; [exact H|].
  destruct (nonempty (ToolTip.text self)) eqn:N; cbn [negb]; [|exact H].
  destruct (ToolTip.bbox place) as [[bx by_] | e]; [|exact H].
  destruct H as [Ht Hw]. rewrite W in Hw.
  cbn [snd]. split; [exact Ht|].
  cbn [ToolTip.tipwindow ToolTip.created ToolTip.windows]. split; [|split].
  - intros ->. rewrite Ht in N. discriminate.
  - lia.
  - eexists. rewrite Hw, Ht. apply insert_empty.
Qed.

Lemma hide_tip_consistent (txt : string) (self : ToolTip.tip) :
  ToolTip.consistent txt self ->
  ToolTip.consistent txt (ToolTip.hide_tip self) /\
  ToolTip.tipwindow (ToolTip.hide_tip self) = None.
Proof.
  intros [Ht Hw]. unfold ToolTip.hide_tip.
  destruct (ToolTip.tipwindow self) as [tw|] eqn:W.
  - destruct Hw as (_ & _ & g & Hg). split; [|reflexivity].
    split; [exact Ht|]. cbn [ToolTip.tipwindow ToolTip.windows].
    rewrite Hg. apply delete_singleton_eq.
  - split; [|reflexivity]. split; [exact Ht | exact Hw].
Qed.

Lemma after_consistent (txt : string) (evs : list ToolTip.pointer)
    (self : ToolTip.tip) :
  ToolTip.consistent txt self ->
  ToolTip.consistent txt (ToolTip.after evs self).
Proof.
  unfold ToolTip.after. revert self.
  induction evs as [|ev evs IH]; intros self H; [exact H|].
  cbn [fold_left]. apply IH. destruct ev as [place|]; cbn [ToolTip.handle].
  - now apply show_tip_consistent.
  - now apply hide_tip_consistent.
Qed.

(** X17. Through any run of pointer events, a tip keeps its text and
    shows at most one window: either it holds none and none is alive,
    or it holds the only one alive, whose label is the text; a tip with
    an empty text never shows one; once the pointer has left, none is
    alive; and while a window is shown a further entering changes
    nothing. *)
Theorem tooltip_shows_at_most_one_window :
  forall (txt : string) (evs : list ToolTip.pointer),
    let self := ToolTip.after evs (ToolTip.init txt) in
    ToolTip.consistent txt self /\
    (txt = "" -> ToolTip.windows self = ∅) /\
    ToolTip.windows (ToolTip.handle self ToolTip.Leave) = ∅ /\
    (forall place,
        ToolTip.tipwindow self <> None ->
        ToolTip.handle self (ToolTip.Enter place) = self).
Proof.
  intros txt evs self.
  assert (H : ToolTip.consistent txt self).
  { apply after_consistent. split; reflexivity. }
  split; [exact H|]. split; [|split].
  - intros E. destruct H as [_ H].
    destruct (ToolTip.tipwindow self); [|exact H].
    destruct H as (N & _). contradiction.
  - destruct (hide_tip_consistent txt self H) as [[_ Hw] Hn].
    cbn [ToolTip.handle]. now rewrite Hn in Hw.
  - intros place Hs. cbn [ToolTip.handle]. unfold ToolTip.show_tip.
    destruct (ToolTip.tipwindow self); [reflexivity | contradiction].
Qed.

(** ** A run of callbacks *)

Lemma counters_incr_own (vc : counter_ref) (n : Z) (w : world) :
  counters w !! vc = Some n ->
  counters (counter_incr vc w) !! vc = Some (n + 1)%Z.
Proof.
  intros H. unfold counter_incr, with_counters. cbn [counters].
  rewrite list_lookup_alter_eq. unfold counter_ref in *. now rewrite H.
Qed.

Lemma eq_str_exclusive (v : pyval) :
  eq_str v "downloading" = true -> eq_str v "finished" = false.
Proof.
  destruct v as [| | |s]; try discriminate. cbn [eq_str].
  intros H. apply String.eqb_eq in H. now subst s.
Qed.

Lemma write_step (vc : counter_ref) (total : Z) (audio_only : bool)
    (msg tag : string) (n : Z) (w : world) :
  counters w !! vc = Some n ->
  let hit := negb audio_only && startswith msg merger_line in
  exists w1,
    _write_to_output
      (MkLogger (Some vc) (Some ProgressLabelVar) (Some total) audio_only)
      msg tag w = (Ok tt, w1) /\
    counters w1 !! vc = Some (if hit then n + 1 else n)%Z /\
    progress_label_var w1 =
      (if hit then progress_text (n + 1) total else progress_label_var w).
Proof.
  intros Hn hit. subst hit. unfold _write_to_output.
  cbn [lg_audio_only lg_video_counter lg_progress_label_var lg_total_videos].
  destruct audio_only; cbn [negb andb].
  - eexists. split; [reflexivity|]. split; [exact Hn | reflexivity].
  - destruct (startswith msg merger_line).
    + unfold bind, act, gets. eexists. split; [reflexivity|].
      cbn [string_var_set progress_label_var with_progress_label_var counters].
      split.
      * apply (counters_incr_own vc n (log_insert (msg ++ nl) tag w)). exact Hn.
      * unfold counter_get.
        rewrite (counters_incr_own vc n (log_insert (msg ++ nl) tag w) Hn).
        reflexivity.
    + eexists. split; [reflexivity|]. split; [exact Hn | reflexivity].
Qed.

Lemma hook_step (float_repr : PyFloat.float -> string) (audio_only : bool)
    (vc : counter_ref) (total : Z) (d : dict) (n : Z) (w : world) :
  counters w !! vc = Some n ->
  let hit := counted audio_only (OnProgress d) in
  match progress_hook float_repr audio_only vc total d w with
  | (Ok _, w1) =>
      counters w1 !! vc = Some (if hit then n + 1 else n)%Z /\
      progress_label_var w1 =
        (if hit then progress_text (n + 1) total else progress_label_var w)
  | (Raise _, w1) =>
      counters w1 !! vc = Some n /\ progress_label_var w1 = progress_label_var w
  end.
Proof.
  intros Hn hit. subst hit. cbn [counted].
  destruct (stop_flag w) eqn:S.
  - rewrite progress_hook_stopped by exact S. now split.
  - rewrite progress_hook_running by exact S.
    unfold bind at 1. unfold lift at 1. unfold getitem at 1.
    destruct (d !! "status") as [st|] eqn:Hst; [|now split].
    assert (Hfin :
      match bind (lift (getitem d "status"))
              (fun status' =>
                 if eq_str status' "finished"
                 then _handle_download_finished d audio_only vc total
                 else ret tt) w with
      | (Ok _, w1) =>
          counters w1 !! vc =
            Some (if audio_only && eq_str st "finished" then n + 1 else n)%Z /\
          progress_label_var w1 =
            (if audio_only && eq_str st "finished"
             then progress_text (n + 1) total else progress_label_var w)
      | (Raise _, w1) =>
          counters w1 !! vc = Some n /\
          progress_label_var w1 = progress_label_var w
      end).
    { unfold bind at 1. unfold lift, getitem. rewrite Hst.
      destruct (eq_str st "finished").
      - unfold _handle_download_finished, bind, act, gets.
        destruct audio_only; cbn [andb].
        + cbn [string_var_set progress_label_var with_progress_label_var
               counters]. split.
          * apply (counters_incr_own vc n
                     (log_insert ("Status: Finished" ++ nl) "info"
                        (with_progress_var (PyInt 100) w))). exact Hn.
          * unfold counter_get.
            rewrite (counters_incr_own vc n
                       (log_insert ("Status: Finished" ++ nl) "info"
                          (with_progress_var (PyInt 100) w)) Hn).
            reflexivity.
        + split; [exact Hn | reflexivity].
      - rewrite andb_false_r. split; [exact Hn | reflexivity]. }
    destruct (eq_str st "downloading") eqn:Dn.
    + rewrite (eq_str_exclusive st Dn), andb_false_r in *.
      unfold bind at 1. unfold lift at 1.
      destruct (if true && key_in "downloaded_bytes" d && key_in "total_bytes" d
                then rbind (getitem d "total_bytes") (fun t => Ok (truthy t))
                else Ok false) as [[|] | e]; [| exact Hfin | now split].
      destruct (_handle_download_progress float_repr d w) as [r w1] eqn:E.
      destruct (progress_keeps_count float_repr d w r w1 E) as [C L].
      rewrite C, L. destruct r; now split.
    + cbn [andb]. unfold bind at 1. unfold lift at 1. exact Hfin.
Qed.

Lemma deliver_step (float_repr : PyFloat.float -> string) (audio_only : bool)
    (vc : counter_ref) (total : Z) (c : callback) (n : Z) (w : world) :
  counters w !! vc = Some n ->
  let hit := counted audio_only c in
  match deliver float_repr audio_only vc total c w with
  | (Ok _, w1) =>
      counters w1 !! vc = Some (if hit then n + 1 else n)%Z /\
      progress_label_var w1 =
        (if hit then progress_text (n + 1) total else progress_label_var w)
  | (Raise _, w1) =>
      counters w1 !! vc = Some n /\ progress_label_var w1 = progress_label_var w
  end.
Proof.
  intros Hn hit. subst hit. destruct c as [d | msg | msg | msg];
    cbn [deliver counted].
  - now apply hook_step.
  - unfold debug. destruct (nonempty (strip msg)) eqn:N.
    + assert (H : forall tag,
                 match _write_to_output
                         (MkLogger (Some vc) (Some ProgressLabelVar)
                            (Some total) audio_only) msg tag w with
                 | (Ok _, w1) =>
                     counters w1 !! vc =
                       Some (if negb audio_only && startswith msg merger_line
                             then n + 1 else n)%Z /\
                     progress_label_var w1 =
                       (if negb audio_only && startswith msg merger_line
                        then progress_text (n + 1) total
                        else progress_label_var w)
                 | (Raise _, w1) =>
                     counters w1 !! vc = Some n /\
                     progress_label_var w1 = progress_label_var w
                 end).
      { intros tag.
        destruct (write_step vc total audio_only msg tag n w Hn)
          as (w1 & -> & C & L). now split. }
      destruct (str_in merger_line msg); [apply H|].
      destruct (str_in "[download]" msg); apply H.
    + rewrite (startswith_merger_nonblank msg N), andb_false_r.
      split; [exact Hn | reflexivity].
  - unfold warning. destruct (nonempty (strip msg)); [|now split].
    rewrite write_plain_line
      by (rewrite !append_cons; now apply prefixed_line_is_not_merger).
    split; [exact Hn | reflexivity].
  - unfold error. destruct (nonempty (strip msg)); [|now split].
    rewrite write_plain_line
      by (rewrite !append_cons; now apply prefixed_line_is_not_merger).
    split; [exact Hn | reflexivity].
Qed.

Lemma deliver_keeps_controls (float_repr : PyFloat.float -> string)
    (audio_only : bool) (vc : counter_ref) (total : Z) (c : callback) :
  respects same_controls (deliver float_repr audio_only vc total c).
Proof.
  destruct c as [d | msg | msg | msg]; cbn [deliver].
  - unfold progress_hook, _handle_download_progress, _handle_download_finished.
    repeat controls_step.
  - unfold debug. repeat controls_step; apply write_keeps_controls.
  - unfold warning. repeat controls_step; apply write_keeps_controls.
  - unfold error. repeat controls_step; apply write_keeps_controls.
Qed.

(** X18. Over any run of calls into the hook and the logger of a task,
    the item counter of the task never goes down and never passes the
    number of calls that stand for an item done (finished events in
    audio mode, debug lines starting with the merger text in video
    mode).  When no call of the run raises, the counter has advanced by
    exactly that number and, unless the number is zero, the label reads
    the new count over the total.  The controls of the window are left
    as they were. *)
Theorem callbacks_count_items :
  forall (float_repr : PyFloat.float -> string) (audio_only : bool)
         (vc : counter_ref) (total : Z) (cs : list callback) (n : Z)
         (w : world),
    counters w !! vc = Some n ->
    let r := fst (deliver_all float_repr audio_only vc total cs w) in
    let w' := snd (deliver_all float_repr audio_only vc total cs w) in
    let k := Z.of_nat (length (List.filter (counted audio_only) cs)) in
    (exists j, (0 <= j <= k)%Z /\ counters w' !! vc = Some (n + j)%Z) /\
    (r = Ok tt ->
     counters w' !! vc = Some (n + k)%Z /\
     progress_label_var w' =
       (if (k =? 0)%Z then progress_label_var w
        else progress_text (n + k) total)) /\
    same_controls w w'.
Proof.
  intros float_repr audio_only vc total cs.
  induction cs as [|c cs IH]; intros n w Hn r w' k.
  - subst r w' k. cbn. split; [|split].
    + exists 0%Z. split; [lia|]. now rewrite Z.add_0_r.
    + intros _. now rewrite Z.add_0_r.
    + apply same_controls_refl.
  - subst r w' k. cbn [deliver_all]. unfold bind.
    pose proof (deliver_step float_repr audio_only vc total c n w Hn) as Hs.
    pose proof (deliver_keeps_controls float_repr audio_only vc total c w)
      as Hc.
    cbn zeta in Hs.
    destruct (deliver float_repr audio_only vc total c w) as [[[] | e] w1].
    + destruct Hs as [C L]. specialize (Hc _ _ eq_refl).
      cbn [List.filter].
      destruct (counted audio_only c) eqn:Hit.
      * specialize (IH (n + 1)%Z w1 C). cbv zeta in IH.
        destruct IH as ((j & Hj & Cj) & Hok & Hctl).
        cbn [length]. rewrite Nat2Z.inj_succ. split; [|split].
        -- exists (j + 1)%Z. split; [lia|]. rewrite Cj. f_equal. lia.
        -- intros Hr. destruct (Hok Hr) as [C' L']. split.
           ++ rewrite C'. f_equal. lia.
           ++ rewrite L', L.
              destruct (Z.eqb_spec
                          (Z.of_nat
                             (length (List.filter (counted audio_only) cs)))
                          0) as [E | Hne];
                destruct (Z.eqb_spec
                            (Z.succ
                               (Z.of_nat
                                  (length
                                     (List.filter (counted audio_only) cs))))
                            0); try lia; f_equal; lia.
        -- exact (same_controls_trans _ _ _ Hc Hctl).
      * specialize (IH n w1 C). cbv zeta in IH.
        destruct IH as ((j & Hj & Cj) & Hok & Hctl). split; [|split].
        -- exists j. split; [lia | exact Cj].
        -- intros Hr. destruct (Hok Hr) as [C' L']. split; [exact C'|].
           rewrite L', L. reflexivity.
        -- exact (same_controls_trans _ _ _ Hc Hctl).
    + destruct Hs as [C L]. specialize (Hc _ _ eq_refl). cbn [fst snd].
      split; [|split].
      * exists 0%Z. split; [lia|]. now rewrite Z.add_0_r.
      * discriminate.
      * exact Hc.
Qed.

Lemma callbacks_count_items_witness :
  progress_label_var
    (snd (deliver_all sample_repr false 0%nat 2
            [OnDebug "[Merger] Merging formats into a.mp4";
             OnProgress finished_event;
             OnWarning "[Merger] Merging formats into x.mp4";
             OnDebug "[Merger] Merging formats into b.mp4"]
            (with_counters [0%Z] initial_world))) = "Progress: 2/2".
Proof.
  destruct (callbacks_count_items sample_repr false 0%nat 2
              [OnDebug "[Merger] Merging formats into a.mp4";
               OnProgress finished_event;
               OnWarning "[Merger] Merging formats into x.mp4";
               OnDebug "[Merger] Merging formats into b.mp4"]
              0 (with_counters [0%Z] initial_world) eq_refl)
    as (_ & H & _).
  destruct (H eq_refl) as [_ L]. exact L.
Defined.

(** ** The stop request, from the flag to the end of the task *)





